(** * Engagement and access-control layer of the video platform back end

    A shallow embedding of the Express/Mongoose route handlers
    (authRoutes, userRoutes, videoRoutes, tweetRoutes, commentRoutes), the
    session middleware and the Mongoose schemas, followed by the properties
    of the specification that are settled against them.

    Conventions.
    - A collection is the list of its documents in insertion order; [findOne]
      returns the first match, a new document is appended.
    - An [ObjectId] is a 12-byte value, kept as a number.  The rendering
      [toString] of an ObjectId is injective, so the comparison
      [a.toString() !== b.toString()] is the comparison of the two ids.
    - A JavaScript string is kept as a [string] whose characters are the
      code units below 256.
    - The [createdAt]/[updatedAt] timestamps that Mongoose maintains are read
      by no handler and are left out of the documents.
    - [req.body] is the object the body parsers leave, [{}] when the request
      has no body; a field that is not sent reads as [undefined].
    - The store is reachable: a query or a write fails only for the reasons
      written here (a cast error, a validator, a unique index).
    - An [async] function is a state transformer on the store that returns a
      value or throws; a handler's [try { ... } catch (error) { ... }] turns a
      thrown error into the response written by the catch block. *)

From Stdlib Require Import List String Ascii ZArith NArith Bool Lia DecimalString.
Import ListNotations.
Open Scope string_scope.

(** ** JavaScript values and strings *)

Inductive JsValue : Type :=
| JsUndefined
| JsNull
| JsBool (b : bool)
| JsNumber (n : Z)
| JsString (s : string)
| JsObject.

Definition typeof (v : JsValue) : string :=
  match v with
  | JsUndefined => "undefined"
  | JsNull => "object"
  | JsBool _ => "boolean"
  | JsNumber _ => "number"
  | JsString _ => "string"
  | JsObject => "object"
  end.

(** Truthiness, as [if (v)] and [!v] see it. *)
Definition truthy (v : JsValue) : bool :=
  match v with
  | JsUndefined | JsNull => false
  | JsBool b => b
  | JsNumber n => negb (n =? 0)%Z
  | JsString s => negb (s =? "")
  | JsObject => true
  end.

(** White space and line terminators among the code units below 256:
    TAB, LF, VT, FF, CR, SP and NBSP. *)
Definition is_white_space (c : ascii) : bool :=
  let n := nat_of_ascii c in
  ((n =? 9) || (n =? 10) || (n =? 11) || (n =? 12) || (n =? 13)
   || (n =? 32) || (n =? 160))%nat.

Fixpoint trimStart (s : string) : string :=
  match s with
  | EmptyString => EmptyString
  | String c s' => if is_white_space c then trimStart s' else s
  end.

Definition reverse_string (s : string) : string :=
  string_of_list_ascii (rev (list_ascii_of_string s)).

Definition trimEnd (s : string) : string :=
  reverse_string (trimStart (reverse_string s)).

(** [String.prototype.trim]. *)
Definition trim (s : string) : string := trimEnd (trimStart s).

(** [String.prototype.toLowerCase] on code units below 256: A-Z and the
    Latin-1 capitals (all of 192..222 but the multiplication sign 215). *)
Definition lower_char (c : ascii) : ascii :=
  let n := nat_of_ascii c in
  if (((65 <=? n) && (n <=? 90))
      || ((192 <=? n) && (n <=? 222) && negb (n =? 215)))%nat
  then ascii_of_nat (n + 32) else c.

Fixpoint toLowerCase (s : string) : string :=
  match s with
  | EmptyString => EmptyString
  | String c s' => String (lower_char c) (toLowerCase s')
  end.

(** The double quote, for messages that quote a value. *)
Definition dquote : string := String (ascii_of_nat 34) EmptyString.

(** ** Errors and results *)

Record JsError : Type := mkJsError { err_name : string; err_message : string }.

(** [new Error(msg)] *)
Definition Error (msg : string) : JsError := mkJsError "Error" msg.
Definition TypeError (msg : string) : JsError := mkJsError "TypeError" msg.

Inductive Outcome (A : Type) : Type :=
| Return (a : A)
| Throw (e : JsError).
Arguments Return {A} a.
Arguments Throw {A} e.


(** [v?.trim()], [what] being the expression as written in the source. *)
Definition opt_trim (what : string) (v : JsValue) : Outcome JsValue :=
  match v with
  | JsUndefined | JsNull => Return JsUndefined
  | JsString s => Return (JsString (trim s))
  | _ => Throw (TypeError (what ++ "?.trim is not a function"))
  end.

(** [v.trim()] *)
Definition call_trim (what : string) (v : JsValue) : Outcome JsValue :=
  match v with
  | JsUndefined =>
      Throw (TypeError "Cannot read properties of undefined (reading 'trim')")
  | JsNull => Throw (TypeError "Cannot read properties of null (reading 'trim')")
  | JsString s => Return (JsString (trim s))
  | _ => Throw (TypeError (what ++ ".trim is not a function"))
  end.

(** [v === ""] *)
Definition is_empty_string (v : JsValue) : bool :=
  match v with
  | JsString s => s =? ""
  | _ => false
  end.

(** Mongoose's cast of a value assigned to a String path.  Numbers are the
    integers here, and the digits are those JavaScript prints for a safe
    integer (below 2^53 in absolute value); the error messages are the
    per-path messages, without the prefix Mongoose puts before them. *)
Definition castString (path : string) (v : JsValue) : Outcome string :=
  match v with
  | JsString s => Return s
  | JsNumber n => Return (NilZero.string_of_int (Z.to_int n))
  | JsBool true => Return "true"
  | JsBool false => Return "false"
  | JsUndefined | JsNull =>
      Throw (mkJsError "ValidationError" ("Path `" ++ path ++ "` is required."))
  | JsObject =>
      Throw (mkJsError "ValidationError"
               ("Cast to string failed for value at path " ++ dquote ++ path ++ dquote))
  end.

(** A [required] String path rejects the empty string. *)
Definition required_string (path value : string) : Outcome unit :=
  if value =? ""
  then Throw (mkJsError "ValidationError" ("Path `" ++ path ++ "` is required."))
  else Return tt.

(** ** Documents *)

Definition ObjectId : Type := N.
Bind Scope N_scope with ObjectId.

Record User : Type := mkUser {
  u_id : ObjectId;
  username : string;
  email : string;
  isPremium : bool;
  avatar : string;
  coverImage : string;
  password : string;
  watchHistory : list ObjectId
}.

(** [owner] of a video is not [required] in VideoSchema. *)
Record Video : Type := mkVideo {
  v_id : ObjectId;
  videoSrc : string;
  thumbnail : string;
  v_owner : option ObjectId;
  title : string;
  description : string;
  duration : string;
  views : Z
}.

Record Tweet : Type := mkTweet {
  t_id : ObjectId;
  t_content : string;
  t_owner : ObjectId
}.

Record Comment : Type := mkComment {
  c_id : ObjectId;
  c_content : string;
  c_video : ObjectId;
  c_owner : ObjectId
}.

(** ILike: the three target references are optional fields of one row. *)
Record Like : Type := mkLike {
  l_id : ObjectId;
  isLiked : bool;
  likedBy : ObjectId;
  l_comment : option ObjectId;
  l_video : option ObjectId;
  l_tweet : option ObjectId
}.

Record Subscription : Type := mkSubscription {
  s_id : ObjectId;
  subscriber : ObjectId;
  channel : ObjectId
}.

(** ** Schemas: declared indexes, and what the store enforces on a write *)

Inductive Bson : Type :=
| BsonNull
| BsonId (i : ObjectId)
| BsonString (s : string)
| BsonBool (b : bool).

Definition bson_eqb (a b : Bson) : bool :=
  match a, b with
  | BsonNull, BsonNull => true
  | BsonId i, BsonId j => (i =? j)%N
  | BsonString s, BsonString t => (s =? t)
  | BsonBool x, BsonBool y => Bool.eqb x y
  | _, _ => false
  end.

Definition bson_of_ref (o : option ObjectId) : Bson :=
  match o with Some i => BsonId i | None => BsonNull end.

Record IndexDecl : Type := mkIndex { ix_keys : list string; ix_unique : bool }.

(** A schema, as far as writes are concerned: its index declarations and the
    stored value of each path of a document (a missing path is indexed as
    null). *)
Record Schema (Doc : Type) : Type := mkSchema {
  sch_indexes : list IndexDecl;
  sch_path : Doc -> string -> Bson
}.
Arguments sch_indexes {Doc} _.
Arguments sch_path {Doc} _ _ _.

(** likes.model.ts: [index: true] on likedBy, comment, video and tweet; no
    [unique], no schema-level [index(...)] call. *)
Definition LikeSchema : Schema Like :=
  mkSchema Like
    [ mkIndex ["likedBy"] false; mkIndex ["comment"] false;
      mkIndex ["video"] false; mkIndex ["tweet"] false ]
    (fun d p =>
       if p =? "likedBy" then BsonId (likedBy d)
       else if p =? "comment" then bson_of_ref (l_comment d)
       else if p =? "video" then bson_of_ref (l_video d)
       else if p =? "tweet" then bson_of_ref (l_tweet d)
       else if p =? "isLiked" then BsonBool (isLiked d)
       else if p =? "_id" then BsonId (l_id d)
       else BsonNull).

(** subscription.model.ts:
    [SubscriptionSchema.index({ subscriber: 1, channel: 1 }, { unique: true })]. *)
Definition SubscriptionSchema : Schema Subscription :=
  mkSchema Subscription
    [ mkIndex ["subscriber"; "channel"] true ]
    (fun d p =>
       if p =? "subscriber" then BsonId (subscriber d)
       else if p =? "channel" then BsonId (channel d)
       else if p =? "_id" then BsonId (s_id d)
       else BsonNull).

(** user.model.ts: [unique: true] on username and on email. *)
Definition UserSchema : Schema User :=
  mkSchema User
    [ mkIndex ["username"] true; mkIndex ["email"] true ]
    (fun d p =>
       if p =? "username" then BsonString (username d)
       else if p =? "email" then BsonString (email d)
       else if p =? "_id" then BsonId (u_id d)
       else BsonNull).

Definition VideoSchema : Schema Video :=
  mkSchema Video []
    (fun d p =>
       if p =? "owner" then bson_of_ref (v_owner d)
       else if p =? "_id" then BsonId (v_id d)
       else BsonNull).

Definition TweetSchema : Schema Tweet :=
  mkSchema Tweet []
    (fun d p =>
       if p =? "owner" then BsonId (t_owner d)
       else if p =? "_id" then BsonId (t_id d)
       else BsonNull).

Definition CommentSchema : Schema Comment :=
  mkSchema Comment []
    (fun d p =>
       if p =? "owner" then BsonId (c_owner d)
       else if p =? "video" then BsonId (c_video d)
       else if p =? "_id" then BsonId (c_id d)
       else BsonNull).

(** Two documents collide on an index when they agree on every key of it. *)
Definition same_key {Doc} (sch : Schema Doc) (ix : IndexDecl) (a b : Doc) : bool :=
  forallb (fun p => bson_eqb (sch_path sch a p) (sch_path sch b p)) (ix_keys ix).

(** Every collection has the unique index on [_id] besides the declared ones. *)
Definition all_indexes {Doc} (sch : Schema Doc) : list IndexDecl :=
  mkIndex ["_id"] true :: sch_indexes sch.

Definition duplicate_key {Doc} (sch : Schema Doc) (docs : list Doc) (d : Doc) : bool :=
  existsb (fun ix => ix_unique ix && existsb (same_key sch ix d) docs)
          (all_indexes sch).

(** The write of a new document: the store rejects it (E11000) when a unique
    index of the collection already holds its key, and appends it otherwise. *)
Definition insertOne {Doc} (sch : Schema Doc) (docs : list Doc) (d : Doc)
  : Outcome (list Doc) :=
  if duplicate_key sch docs d
  then Throw (mkJsError "MongoServerError" "E11000 duplicate key error collection")
  else Return (docs ++ [d])%list.

(** The write of a modified document, [updateOne({ _id }, { $set: ... })]:
    the first stored document with that [_id] takes the modified paths. *)
Fixpoint updateOne {Doc} (id_of : Doc -> ObjectId) (i : ObjectId) (f : Doc -> Doc)
  (docs : list Doc) : list Doc :=
  match docs with
  | [] => []
  | x :: l => if (id_of x =? i)%N then f x :: l else x :: updateOne id_of i f l
  end.

Definition findById {Doc} (id_of : Doc -> ObjectId) (i : ObjectId) (docs : list Doc)
  : option Doc :=
  find (fun x => (id_of x =? i)%N) docs.

(** [findByIdAndDelete]: the first document with that [_id] is removed. *)
Fixpoint deleteById {Doc} (id_of : Doc -> ObjectId) (i : ObjectId) (docs : list Doc)
  : list Doc :=
  match docs with
  | [] => []
  | x :: l => if (id_of x =? i)%N then l else x :: deleteById id_of i l
  end.

(** ** The store *)

Record Store : Type := mkStore {
  users : list User;
  videos : list Video;
  tweets : list Tweet;
  comments : list Comment;
  likes : list Like;
  subscriptions : list Subscription;
  next_id : ObjectId        (* the next ObjectId a [new Model(...)] draws *)
}.

Definition set_users (s : Store) (x : list User) : Store :=
  mkStore x (videos s) (tweets s) (comments s) (likes s) (subscriptions s) (next_id s).
Definition set_videos (s : Store) (x : list Video) : Store :=
  mkStore (users s) x (tweets s) (comments s) (likes s) (subscriptions s) (next_id s).
Definition set_tweets (s : Store) (x : list Tweet) : Store :=
  mkStore (users s) (videos s) x (comments s) (likes s) (subscriptions s) (next_id s).
Definition set_comments (s : Store) (x : list Comment) : Store :=
  mkStore (users s) (videos s) (tweets s) x (likes s) (subscriptions s) (next_id s).
Definition set_likes (s : Store) (x : list Like) : Store :=
  mkStore (users s) (videos s) (tweets s) (comments s) x (subscriptions s) (next_id s).
Definition set_next_id (s : Store) (x : ObjectId) : Store :=
  mkStore (users s) (videos s) (tweets s) (comments s) (likes s) (subscriptions s) x.

(** ** Asynchronous computations: store passing with exceptions *)

Definition Async (A : Type) : Type := Store -> Outcome A * Store.

Definition ret {A} (a : A) : Async A := fun s => (Return a, s).
Definition throw {A} (e : JsError) : Async A := fun s => (Throw e, s).
Definition bind {A B} (m : Async A) (k : A -> Async B) : Async B :=
  fun s => match m s with
           | (Return a, s') => k a s'
           | (Throw e, s') => (Throw e, s')
           end.
Definition lift {A} (o : Outcome A) : Async A := fun s => (o, s).
Definition gets {A} (f : Store -> A) : Async A := fun s => (Return (f s), s).
Definition modify (f : Store -> Store) : Async unit := fun s => (Return tt, f s).

Declare Scope async_scope.
Delimit Scope async_scope with async.
Notation "x <- m ;; k" := (bind m (fun x => k))
  (at level 100, m at next level, right associativity) : async_scope.
Notation "m ;;; k" := (bind m (fun _ => k))
  (at level 100, right associativity) : async_scope.
Open Scope async_scope.

(** [if (c) throw new Error(msg)] *)
Definition throw_if (c : bool) (msg : string) : Async unit :=
  if c then throw (Error msg) else ret tt.

Definition is_none {A} (o : option A) : bool :=
  match o with Some _ => false | None => true end.

Definition opt_id_eqb (a b : option ObjectId) : bool :=
  match a, b with
  | Some x, Some y => (x =? y)%N
  | None, None => true
  | _, _ => false
  end.

Fixpoint assoc {A} (k : string) (l : list (string * A)) : option A :=
  match l with
  | [] => None
  | (k', v) :: l' => if k =? k' then Some v else assoc k l'
  end.

(** ** Requests and responses *)

(** What a handler reads of an Express request.  [files] is what multer
    leaves in [req.files]: for each field the path of its first stored file.
    [user] is [req.user], which only [authenticateUser] assigns. *)
Record Request : Type := mkRequest {
  cookies : list (string * string);
  params : list (string * string);
  body : list (string * JsValue);
  files : option (list (string * string));
  user : option User
}.

Definition set_user (req : Request) (u : User) : Request :=
  mkRequest (cookies req) (params req) (body req) (files req) (Some u).

(** What multer leaves behind: [req.files] and the text fields in [req.body]. *)
Definition set_upload (req : Request) (fs : list (string * string))
  (b : list (string * JsValue)) : Request :=
  mkRequest (cookies req) (params req) b (Some fs) (user req).

(** A request as it arrives: cookies (cookie-parser), route parameters and
    the body (express.json / express.urlencoded).  Express hands it to the
    first function of the route with [req.files] and [req.user] undefined. *)
Record HttpRequest : Type := mkHttpRequest {
  hr_cookies : list (string * string);
  hr_params : list (string * string);
  hr_body : list (string * JsValue)
}.

Definition express_request (h : HttpRequest) : Request :=
  mkRequest (hr_cookies h) (hr_params h) (hr_body h) None None.

(** [req.params.name]; a route parameter is always present on its route. *)
Definition param (req : Request) (name : string) : string :=
  match assoc name (params req) with Some v => v | None => "" end.

(** [req.body.name] *)
Definition field (req : Request) (name : string) : JsValue :=
  match assoc name (body req) with Some v => v | None => JsUndefined end.

(** [req.files && !Array.isArray(req.files) && req.files.name], then
    [req.files.name[0].path]. *)
Definition file_path (req : Request) (name : string) : option string :=
  match files req with Some fs => assoc name fs | None => None end.

(** One entry of the history view: the video with its owner replaced by the
    projection [{ _id, username, avatar }] of the owning account ([$project]
    keeps [_id]), or left out when no such account exists. *)
Record OwnerInfo : Type := mkOwnerInfo {
  oi_id : ObjectId;
  oi_username : string;
  oi_avatar : string
}.

Record HistoryEntry : Type := mkHistoryEntry {
  h_video : Video;
  h_owner : option OwnerInfo
}.

(** One element of the channel view, after the last [$project]. *)
Record ChannelView : Type := mkChannelView {
  ch_id : ObjectId;
  ch_username : string;
  ch_avatar : string;
  ch_coverImage : string;
  ch_isPremium : bool;
  ch_email : string;
  subscribersCount : nat;
  subscribedToCount : nat;
  isSubscribed : bool
}.

Inductive ResBody : Type :=
| BodyText (s : string)                          (* res.send(string) *)
| BodyMessageError (message error : string)      (* { message, error } *)
| BodyAuthFailure (message : string)             (* { success: false, message } *)
| BodyError (error : string)                     (* { error } *)
| BodyMessage (message : string)                 (* { message } *)
| BodyHtml (error : string)                      (* Express's own error page *)
| BodyUser (u : User)
| BodyVideo (v : Video)
| BodyPopulatedVideos (l : list (Video * option User))
| BodyMessageVideo (message : string) (v : Video)
| BodySavedComment (c : Comment)                 (* { savedComment } *)
| BodyComment (c : option Comment)
| BodyTweet (t : Tweet)
| BodyPopulatedTweets (l : list (Tweet * option User))
| BodyMessageTweet (message : string) (t : option Tweet)
| BodyLike (l : Like)
| BodyHistory (l : list HistoryEntry)
| BodyChannels (l : list ChannelView).

(** [res.cookie(name, value, { expires: new Date(Date.now() + ms) })] *)
Record CookieWrite : Type := mkCookieWrite {
  ck_name : string;
  ck_value : option string;
  ck_expires_in_ms : Z
}.

Record Response : Type := mkResponse {
  status : Z;
  resbody : ResBody;
  cookie : option CookieWrite
}.

Definition respond (code : Z) (b : ResBody) : Response := mkResponse code b None.

Definition Handler : Type := Request -> Store -> Response * Store.

(** [try { body } catch (error) { handler }] around a whole handler. *)
Definition try_catch (m : Async Response) (on_error : JsError -> Response)
  : Store -> Response * Store :=
  fun s => match m s with
           | (Return r, s') => (r, s')
           | (Throw e, s') => (on_error e, s')
           end.

(** ** The collaborators outside the repository

    Libraries and services whose code is not part of the repository enter
    as functions of an environment; nothing is assumed of them. *)
Record Env : Type := mkEnv {
  (* process.env.JWT_SECRET_TOKEN *)
  secretKey : string;
  (* jwt.verify(token, secret): the [_id] of the payload, or the error thrown *)
  jwt_verify : string -> string -> Outcome string;
  (* jwt.sign({ _id }, secret, { expiresIn }) *)
  jwt_sign : ObjectId -> string -> Outcome string;
  (* Mongoose's cast of a string to an ObjectId *)
  castObjectId : string -> option ObjectId;
  (* a filter value of a String path of users, cast by Mongoose and compared
     with the stored value *)
  query_matches : string -> JsValue -> string -> bool;
  (* casts, setters and validators of [new UserModel({ username, email,
     password, avatar })] at [save()]: the document to store, but for its [_id] *)
  validateUser : JsValue -> JsValue -> string -> option string -> Outcome User;
  (* multer's [uploadMiddleware.fields(spec)]: [req.files] and [req.body], or
     the error passed to [next] *)
  uploadMiddleware :
    list (string * nat) -> Request ->
    Outcome (list (string * string) * list (string * JsValue));
  (* cloudinaryService.uploadOnCloudinary(path): { optimizedUrl, duration } *)
  uploadOnCloudinary : string -> Outcome (string * string);
  (* utils/formatVideoDuration *)
  formatVideoDuration : string -> Outcome string;
  bcrypt_hash : JsValue -> Outcome string;
  bcrypt_compare : JsValue -> string -> Outcome bool
}.

Inductive TargetKind : Type := KComment | KVideo | KTweet.
Inductive Operation : Type := OpEdit | OpDelete.

Section Routes.

Variable env : Env.

(** The CastError of Mongoose for a string that is no ObjectId. *)
Definition CastError (value path model : string) : JsError :=
  mkJsError "CastError"
    ("Cast to ObjectId failed for value " ++ dquote ++ value ++ dquote
     ++ " (type string) at path " ++ dquote ++ path ++ dquote
     ++ " for model " ++ dquote ++ model ++ dquote).

Definition cast_id (value path model : string) : Async ObjectId :=
  match castObjectId env value with
  | Some i => ret i
  | None => throw (CastError value path model)
  end.

(** [req.user._id]; a TypeError when [req.user] is undefined. *)
Definition req_user_id (req : Request) : Async ObjectId :=
  match user req with
  | Some u => ret (u_id u)
  | None => throw (TypeError "Cannot read properties of undefined (reading '_id')")
  end.

(** [new Model(...)] draws a fresh [_id]. *)
Definition fresh_id : Async ObjectId :=
  fun s => (Return (next_id s), set_next_id s (next_id s + 1)%N).

(** ** Session middleware (auth.middleware.ts) *)

Definition cookie_name : string := "yt-Token".
Definition cookie_expiresInHours : Z := 8.

Inductive MiddlewareResult : Type :=
| Next (req : Request)
| Respond (res : Response).

Definition authenticateUser_try (req : Request) : Async Request :=
  let token := match assoc cookie_name (cookies req) with
               | Some t => t
               | None => ""
               end in
  throw_if (token =? "") "Authentication required pls login" ;;;
  decodedPayload_id <- lift (jwt_verify env token (secretKey env)) ;;
  i <- cast_id decodedPayload_id "_id" "User" ;;
  found <- gets (fun s => findById u_id i (users s)) ;;
  match found with
  | None => throw (Error "User Account Not Found. Pls Register")
  | Some u => ret (set_user req u)
  end.

Definition auth_error_message (error : JsError) : string :=
  if err_name error =? "JsonWebTokenError" then "Invalid authentication token"
  else if err_name error =? "TokenExpiredError"
       then "Session expired. Please log in again."
       else "Authentication failed. Please try again.".

Definition authenticateUser (req : Request) (s : Store) : MiddlewareResult * Store :=
  match authenticateUser_try req s with
  | (Return req', s') => (Next req', s')
  | (Throw error, s') =>
      (Respond (respond 401 (BodyAuthFailure (auth_error_message error))), s')
  end.

(** A route registered as [router.verb(path, authenticateUser, handler)]. *)
Definition protect (handler : Handler) : Handler :=
  fun req s =>
    match authenticateUser req s with
    | (Next req', s') => handler req' s'
    | (Respond res, s') => (res, s')
    end.

(** ** Like toggles: one copy per router, as in the source *)

Definition toggle_error (error : JsError) : Response :=
  respond 400 (BodyMessageError "Unable to toggle the like" (err_message error)).

Definition not_boolean_message : string :=
  "toggleLike must be a boolean: true to like or false to remove the like".

Definition set_isLiked (l : Like) (b : bool) : Like :=
  mkLike (l_id l) b (likedBy l) (l_comment l) (l_video l) (l_tweet l).

(** [existingLike.isLiked = toggleLike; await existingLike.save()] *)
Definition save_isLiked (l : Like) (toggleLike : bool) : Async Like :=
  modify (fun s =>
    set_likes s (updateOne l_id (l_id l) (fun x => set_isLiked x toggleLike) (likes s))) ;;;
  ret (set_isLiked l toggleLike).

(** [await newLike.save()] *)
Definition insert_like (l : Like) : Async Like :=
  docs <- gets likes ;;
  docs' <- lift (insertOne LikeSchema docs l) ;;
  modify (fun s => set_likes s docs') ;;;
  ret l.

(** videoRoutes.ts, POST /:videoId/toggle/like *)
Definition video_toggle_like_try (req : Request) : Async Response :=
  userId <- req_user_id req ;;
  found <- gets (fun s => findById u_id userId (users s)) ;;
  throw_if (is_none found) "Unable to find the user" ;;;
  let videoId := param req "videoId" in
  vid <- cast_id videoId "_id" "Video" ;;
  videoDetails <- gets (fun s => findById v_id vid (videos s)) ;;
  throw_if (is_none videoDetails) "Unable to find the video" ;;;
  match field req "toggleLike" with       (* typeof toggleLike !== "boolean" *)
  | JsBool toggleLike =>
      existingLike <- gets (fun s =>
        find (fun l => opt_id_eqb (l_video l) (Some vid) && (likedBy l =? userId)%N)
             (likes s)) ;;
      match existingLike with
      | Some l =>
          updatedLike <- save_isLiked l toggleLike ;;
          ret (respond 201 (BodyLike updatedLike))
      | None =>
          throw_if (negb toggleLike) "No like exists to remove." ;;;
          i <- fresh_id ;;
          savedLike <- insert_like (mkLike i true userId None (Some vid) None) ;;
          ret (respond 201 (BodyLike savedLike))
      end
  | _ => throw (Error not_boolean_message)
  end.

Definition video_toggle_like : Handler :=
  fun req => try_catch (video_toggle_like_try req) toggle_error.

(** commentRoutes.ts, POST /:commentId/toggle/like *)
Definition comment_toggle_like_try (req : Request) : Async Response :=
  userId <- req_user_id req ;;
  found <- gets (fun s => findById u_id userId (users s)) ;;
  throw_if (is_none found) "Unable to find the user" ;;;
  let commentId := param req "commentId" in
  cid <- cast_id commentId "_id" "Comment" ;;
  commentDetails <- gets (fun s => findById c_id cid (comments s)) ;;
  throw_if (is_none commentDetails) "Unable to find the video" ;;;
  match field req "toggleLike" with
  | JsBool toggleLike =>
      existingLike <- gets (fun s =>
        find (fun l => opt_id_eqb (l_comment l) (Some cid) && (likedBy l =? userId)%N)
             (likes s)) ;;
      match existingLike with
      | Some l =>
          updatedLike <- save_isLiked l toggleLike ;;
          ret (respond 201 (BodyLike updatedLike))
      | None =>
          throw_if (negb toggleLike) "No like exists to remove." ;;;
          i <- fresh_id ;;
          savedLike <- insert_like (mkLike i true userId (Some cid) None None) ;;
          ret (respond 201 (BodyLike savedLike))
      end
  | _ => throw (Error not_boolean_message)
  end.

Definition comment_toggle_like : Handler :=
  fun req => try_catch (comment_toggle_like_try req) toggle_error.

(** tweetRoutes.ts, POST /:tweetId/toggle/like *)
Definition tweet_toggle_like_try (req : Request) : Async Response :=
  userId <- req_user_id req ;;
  found <- gets (fun s => findById u_id userId (users s)) ;;
  throw_if (is_none found) "Unable to find the user" ;;;
  let tweetId := param req "tweetId" in
  tid <- cast_id tweetId "_id" "Tweet" ;;
  tweetDetails <- gets (fun s => findById t_id tid (tweets s)) ;;
  throw_if (is_none tweetDetails) "Unable to find the video" ;;;
  match field req "toggleLike" with
  | JsBool toggleLike =>
      existingLike <- gets (fun s =>
        find (fun l => opt_id_eqb (l_tweet l) (Some tid) && (likedBy l =? userId)%N)
             (likes s)) ;;
      match existingLike with
      | Some l =>
          updatedLike <- save_isLiked l toggleLike ;;
          ret (respond 201 (BodyLike updatedLike))
      | None =>
          throw_if (negb toggleLike) "No like exists to remove." ;;;
          i <- fresh_id ;;
          savedLike <- insert_like (mkLike i true userId None None (Some tid)) ;;
          ret (respond 201 (BodyLike savedLike))
      end
  | _ => throw (Error not_boolean_message)
  end.

Definition tweet_toggle_like : Handler :=
  fun req => try_catch (tweet_toggle_like_try req) toggle_error.

(** A route registered with [uploadMiddleware.fields(spec)] before its
    handler; an error of multer goes to Express's own error handler. *)
Definition with_upload (spec : list (string * nat)) (handler : Handler) : Handler :=
  fun req s =>
    match uploadMiddleware env spec req with
    | Return (fs, b) => handler (set_upload req fs b) s
    | Throw e => (respond 500 (BodyHtml (err_message e)), s)
    end.

(** The catch block shared by most handlers:
    [res.status(code).json({ message, error: error.message })]. *)
Definition catch_json (code : Z) (message : string) (error : JsError) : Response :=
  respond code (BodyMessageError message (err_message error)).

(** [res.status(400).send(prefix + error.message)] *)
Definition catch_text (prefix : string) (error : JsError) : Response :=
  respond 400 (BodyText (prefix ++ err_message error)).

(** [doc.owner.toString()], with [owner] possibly undefined. *)
Definition owner_toString (o : option ObjectId) : Async ObjectId :=
  match o with
  | Some i => ret i
  | None =>
      throw (TypeError "Cannot read properties of undefined (reading 'toString')")
  end.

(** [!content || content.trim() === ""] *)
Definition blank_content (content : JsValue) : Async bool :=
  if negb (truthy content) then ret true
  else (t <- lift (call_trim "content" content) ;; ret (is_empty_string t)).

(** ** Owner-gated edit and delete *)

(** videoRoutes.ts, DELETE /delete/:videoId *)
Definition video_delete_try (req : Request) : Async Response :=
  userId <- req_user_id req ;;
  found <- gets (fun s => findById u_id userId (users s)) ;;
  throw_if (is_none found) "Unable to find the user" ;;;
  let videoId := param req "videoId" in
  vid <- cast_id videoId "_id" "Video" ;;
  videoDetails <- gets (fun s => findById v_id vid (videos s)) ;;
  match videoDetails with
  | None => throw (Error "Video not found.")
  | Some v =>
      owner <- owner_toString (v_owner v) ;;
      throw_if (negb (owner =? userId)%N)
               "Unauthorized: Only the owner can delete this video." ;;;
      modify (fun s => set_videos s (deleteById v_id vid (videos s))) ;;;
      ret (respond 200 (BodyMessage "Video deleted successfully."))
  end.

Definition video_delete : Handler :=
  fun req => try_catch (video_delete_try req) (catch_json 500 "Unable to delete the video.").

Definition set_thumbnail (v : Video) (x : string) : Video :=
  mkVideo (v_id v) (videoSrc v) x (v_owner v) (title v) (description v) (duration v)
          (views v).
Definition set_title (v : Video) (x : string) : Video :=
  mkVideo (v_id v) (videoSrc v) (thumbnail v) (v_owner v) x (description v) (duration v)
          (views v).
Definition set_description (v : Video) (x : string) : Video :=
  mkVideo (v_id v) (videoSrc v) (thumbnail v) (v_owner v) (title v) x (duration v)
          (views v).

(** Validators of VideoSchema that run at [save()]. *)
Definition validate_video (v : Video) : Outcome unit :=
  match required_string "videoSrc" (videoSrc v) with
  | Throw e => Throw e
  | Return _ =>
      match required_string "title" (title v) with
      | Throw e => Throw e
      | Return _ => required_string "duration" (duration v)
      end
  end.

(** videoRoutes.ts, PATCH /edit/:videoId *)
Definition video_edit_try (req : Request) : Async Response :=
  userId <- req_user_id req ;;
  let videoId := param req "videoId" in
  vid <- cast_id videoId "_id" "Video" ;;
  videoDetails <- gets (fun s => findById v_id vid (videos s)) ;;
  match videoDetails with
  | None => throw (Error "Video not found.")
  | Some v =>
      owner <- owner_toString (v_owner v) ;;
      throw_if (negb (owner =? userId)%N)
               "Unauthorized: Only the owner can edit this video." ;;;
      v1 <- match file_path req "thumbnail" with
            | Some thumbnailLocalPath =>
                up <- lift (uploadOnCloudinary env thumbnailLocalPath) ;;
                ret (set_thumbnail v (trim (fst up)))
            | None => ret v
            end ;;
      v2 <- (if truthy (field req "title")
             then (x <- lift (castString "title" (field req "title")) ;;
                   ret (set_title v1 (trim x)))
             else ret v1) ;;
      v3 <- (if truthy (field req "description")
             then (x <- lift (castString "description" (field req "description")) ;;
                   ret (set_description v2 (trim x)))
             else ret v2) ;;
      lift (validate_video v3) ;;;
      modify (fun s => set_videos s (updateOne v_id vid (fun _ => v3) (videos s))) ;;;
      ret (respond 200 (BodyMessageVideo "Video updated successfully" v3))
  end.

Definition video_edit : Handler :=
  fun req => try_catch (video_edit_try req) (catch_json 400 "Unable to edit the video").

(** tweetRoutes.ts, DELETE /delete/:tweetId *)
Definition tweet_delete_try (req : Request) : Async Response :=
  userId <- req_user_id req ;;
  found <- gets (fun s => findById u_id userId (users s)) ;;
  throw_if (is_none found) "Unable to find the user" ;;;
  let tweetId := param req "tweetId" in
  tid <- cast_id tweetId "_id" "Tweet" ;;
  tweet <- gets (fun s => findById t_id tid (tweets s)) ;;
  match tweet with
  | None => throw (Error "Tweet not found.")
  | Some t =>
      throw_if (negb (t_owner t =? userId)%N)
               "Unauthorized: Only the owner can delete this tweet." ;;;
      deletedTweet <- gets (fun s => findById t_id tid (tweets s)) ;;
      modify (fun s => set_tweets s (deleteById t_id tid (tweets s))) ;;;
      ret (respond 200 (BodyMessageTweet "Tweet deleted successfully." deletedTweet))
  end.

Definition tweet_delete : Handler :=
  fun req => try_catch (tweet_delete_try req) (catch_json 400 "Unable to delete the tweet").

Definition set_tweet_content (t : Tweet) (x : string) : Tweet :=
  mkTweet (t_id t) x (t_owner t).

(** tweetRoutes.ts, PATCH /edit/:tweetId *)
Definition tweet_edit_try (req : Request) : Async Response :=
  userId <- req_user_id req ;;
  found <- gets (fun s => findById u_id userId (users s)) ;;
  throw_if (is_none found) "Unable to find the user" ;;;
  let tweetId := param req "tweetId" in
  tid <- cast_id tweetId "_id" "Tweet" ;;
  tweet <- gets (fun s => findById t_id tid (tweets s)) ;;
  match tweet with
  | None => throw (Error "Tweet not found.")
  | Some t =>
      throw_if (negb (t_owner t =? userId)%N)
               "Unauthorized: Only the owner can delete this tweet." ;;;
      let content := field req "content" in
      if truthy content
      then (x <- lift (castString "content" content) ;;
            lift (required_string "content" x) ;;;
            modify (fun s =>
              set_tweets s (updateOne t_id tid (fun y => set_tweet_content y x) (tweets s))) ;;;
            ret (respond 200 (BodyMessageTweet "Tweet deleted successfully."
                                               (Some (set_tweet_content t x)))))
      else throw (Error "No new content Provided")
  end.

Definition tweet_edit : Handler :=
  fun req => try_catch (tweet_edit_try req) (catch_json 400 "Unable to edit the tweet").

(** commentRoutes.ts, DELETE /delete/:commentId *)
Definition comment_delete_try (req : Request) : Async Response :=
  userId <- req_user_id req ;;
  found <- gets (fun s => findById u_id userId (users s)) ;;
  throw_if (is_none found) "User not found" ;;;
  let commentId := param req "commentId" in
  cid <- cast_id commentId "_id" "Comment" ;;
  comment <- gets (fun s => findById c_id cid (comments s)) ;;
  match comment with
  | None => throw (Error "Comment not found")
  | Some c =>
      throw_if (negb (c_owner c =? userId)%N)
               "Unauthorized: Only the comment owner can delete this comment" ;;;
      deletedComment <- gets (fun s => findById c_id cid (comments s)) ;;
      modify (fun s => set_comments s (deleteById c_id cid (comments s))) ;;;
      ret (respond 200 (BodyComment deletedComment))
  end.

Definition comment_delete : Handler :=
  fun req => try_catch (comment_delete_try req) (catch_json 400 "Unable to delete the comment").

Definition set_comment_content (c : Comment) (x : string) : Comment :=
  mkComment (c_id c) x (c_video c) (c_owner c).

(** commentRoutes.ts, PATCH /edit/:commentId *)
Definition comment_edit_try (req : Request) : Async Response :=
  userId <- req_user_id req ;;
  found <- gets (fun s => findById u_id userId (users s)) ;;
  throw_if (is_none found) "User not found" ;;;
  let commentId := param req "commentId" in
  cid <- cast_id commentId "_id" "Comment" ;;
  commentDetails <- gets (fun s => findById c_id cid (comments s)) ;;
  match commentDetails with
  | None => throw (Error "Comment not found")
  | Some c =>
      throw_if (negb (c_owner c =? userId)%N)
               "Unauthorized: Only the owner can edit this comment" ;;;
      let content := field req "content" in
      blank <- blank_content content ;;
      throw_if blank "Please enter valid comment content" ;;;
      x <- lift (castString "content" content) ;;
      lift (required_string "content" x) ;;;
      modify (fun s =>
        set_comments s
          (updateOne c_id cid (fun y => set_comment_content y x) (comments s))) ;;;
      ret (respond 200 (BodyComment (Some (set_comment_content c x))))
  end.

Definition comment_edit : Handler :=
  fun req => try_catch (comment_edit_try req) (catch_json 400 "Unable to edit the comment").

(** ** Engagement views (userRoutes.ts) *)

(** [{ $in: [viewer, ids] }]; an undefined viewer is sent as null, which no
    subscriber reference equals. *)
Definition in_array (viewer : option ObjectId) (ids : list ObjectId) : bool :=
  match viewer with
  | Some i => existsb (N.eqb i) ids
  | None => false
  end.

(** The aggregation of GET /:username: [$match] on the username, the two
    [$lookup]s into subscriptions, [$addFields], [$project]. *)
Definition channel_pipeline (viewer : option ObjectId) (name : string) (s : Store)
  : list ChannelView :=
  map (fun u =>
         let subscribers :=
           filter (fun e => (channel e =? u_id u)%N) (subscriptions s) in
         let subscribedTo :=
           filter (fun e => (subscriber e =? u_id u)%N) (subscriptions s) in
         mkChannelView (u_id u) (username u) (avatar u) (coverImage u) (isPremium u)
                       (email u)
                       (List.length subscribers) (List.length subscribedTo)
                       (in_array viewer (map subscriber subscribers)))
      (filter (fun u => username u =? name) (users s)).

(** userRoutes.ts, GET /:username; [req.user?._id] is the viewer. *)
Definition channel_view_try (req : Request) : Async Response :=
  let username := param req "username" in
  throw_if (trim username =? "") "Username not found" ;;;
  channel <- gets (channel_pipeline (option_map u_id (user req)) (toLowerCase username)) ;;
  throw_if (match channel with [] => true | _ => false end) "Channel not found." ;;;
  ret (respond 200 (BodyChannels channel)).

Definition channel_view : Handler :=
  fun req => try_catch (channel_view_try req)
                       (catch_text "Unable to fetch the channel Details :: ERROR : ").

(** The inner [$lookup] into users with [$project: { username, avatar }],
    then [$addFields: { owner: { $first: "$owner" } }]. *)
Definition owner_info (s : Store) (v : Video) : option OwnerInfo :=
  match v_owner v with
  | None => None
  | Some o =>
      match filter (fun u => (u_id u =? o)%N) (users s) with
      | u :: _ => Some (mkOwnerInfo (u_id u) (username u) (avatar u))
      | [] => None
      end
  end.

(** The outer [$lookup] from [watchHistory] into videos: the videos whose
    [_id] equals some element of the array, each once.  The list is in the
    order of a scan of the collection; the store promises no order for the
    result, and no statement below depends on the one chosen here. *)
Definition history_lookup (s : Store) (history : list ObjectId) : list HistoryEntry :=
  map (fun v => mkHistoryEntry v (owner_info s v))
      (filter (fun v => existsb (N.eqb (v_id v)) history) (videos s)).

Definition history_pipeline (currentUserId : ObjectId) (s : Store)
  : list (list HistoryEntry) :=
  map (fun u => history_lookup s (watchHistory u))
      (filter (fun u => (u_id u =? currentUserId)%N) (users s)).

(** userRoutes.ts, GET /me/history *)
Definition history_try (req : Request) : Async Response :=
  currentUserId <- req_user_id req ;;
  user <- gets (history_pipeline currentUserId) ;;
  match user with
  | [] =>
      throw (TypeError "Cannot read properties of undefined (reading 'watchHistory')")
  | first :: _ => ret (respond 200 (BodyHistory first))
  end.

Definition history : Handler :=
  fun req => try_catch (history_try req)
                       (catch_text "Unable to fetch the watch History :: ERROR : ").

(** ** The remaining routes *)

(** [await newDoc.save()] of a document of any collection. *)
Definition insert_into {Doc} (sch : Schema Doc) (get : Store -> list Doc)
  (set : Store -> list Doc -> Store) (d : Doc) : Async Doc :=
  docs <- gets get ;;
  docs' <- lift (insertOne sch docs d) ;;
  modify (fun s => set s docs') ;;;
  ret d.

(** [populate("owner")] *)
Definition populate_owner (s : Store) (o : option ObjectId) : option User :=
  match o with
  | Some i => findById u_id i (users s)
  | None => None
  end.

(** ["..." + error] *)
Definition error_toString (e : JsError) : string :=
  if err_message e =? "" then err_name e else err_name e ++ ": " ++ err_message e.

(** videoRoutes.ts, POST /upload *)
Definition video_upload_try (req : Request) : Async Response :=
  match user req with
  | None => throw (Error "User authentication failed.")
  | Some userId =>
      match file_path req "video" with
      | None => throw (Error "Please upload a video file.")
      | Some videoLocalPath =>
          video_up <- lift (uploadOnCloudinary env videoLocalPath) ;;
          match file_path req "thumbnail" with
          | None => throw (Error "Please upload a thumbnail file.")
          | Some thumbnailLocalPath =>
              thumb_up <- lift (uploadOnCloudinary env thumbnailLocalPath) ;;
              title_t <- lift (opt_trim "title" (field req "title")) ;;
              throw_if (negb (truthy title_t)) "Title and description are required." ;;;
              description_t <- lift (opt_trim "description" (field req "description")) ;;
              throw_if (negb (truthy description_t))
                       "Title and description are required." ;;;
              durationOfVideo <-
                (if snd video_up =? "" then ret (snd video_up)
                 else lift (formatVideoDuration env (snd video_up))) ;;
              i <- fresh_id ;;
              title_s <- lift (castString "title" (field req "title")) ;;
              description_s <- lift (castString "description" (field req "description")) ;;
              let newVideo :=
                mkVideo i (trim (fst video_up)) (trim (fst thumb_up)) (Some (u_id userId))
                        (trim title_s) (trim description_s) durationOfVideo 0 in
              lift (validate_video newVideo) ;;;
              savedVideo <- insert_into VideoSchema videos set_videos newVideo ;;
              ret (respond 201 (BodyVideo savedVideo))
          end
      end
  end.

(** videoRoutes.ts, GET "" *)
Definition video_list_try (req : Request) : Async Response :=
  video <- gets (fun s => map (fun v => (v, populate_owner s (v_owner v))) (videos s)) ;;
  ret (respond 200 (BodyPopulatedVideos video)).

(** videoRoutes.ts, GET /view/:videoId; a found array is always truthy. *)
Definition video_view_try (req : Request) : Async Response :=
  let videoId := param req "videoId" in
  vid <- cast_id videoId "_id" "Video" ;;
  videoDetails <- gets (fun s =>
    map (fun v => (v, populate_owner s (v_owner v)))
        (filter (fun v => (v_id v =? vid)%N) (videos s))) ;;
  ret (respond 200 (BodyPopulatedVideos videoDetails)).

(** videoRoutes.ts, POST /:videoId/comment *)
Definition video_comment_try (req : Request) : Async Response :=
  userId <- req_user_id req ;;
  found <- gets (fun s => findById u_id userId (users s)) ;;
  throw_if (is_none found) "User not found" ;;;
  let videoId := param req "videoId" in
  vid <- cast_id videoId "_id" "Video" ;;
  isVideoExist <- gets (fun s => findById v_id vid (videos s)) ;;
  throw_if (is_none isVideoExist) "Video not found" ;;;
  let content := field req "content" in
  blank <- blank_content content ;;
  throw_if blank "Invalid comment" ;;;
  i <- fresh_id ;;
  x <- lift (castString "content" content) ;;
  lift (required_string "content" x) ;;;
  savedComment <- insert_into CommentSchema comments set_comments
                              (mkComment i x vid userId) ;;
  ret (respond 200 (BodySavedComment savedComment)).

(** tweetRoutes.ts, POST /upload *)
Definition tweet_upload_try (req : Request) : Async Response :=
  userId <- req_user_id req ;;
  found <- gets (fun s => findById u_id userId (users s)) ;;
  throw_if (is_none found) "Unable to find the user" ;;;
  let content := field req "content" in
  blank <- blank_content content ;;
  throw_if blank "Please write a valid tweet" ;;;
  i <- fresh_id ;;
  x <- lift (castString "content" content) ;;
  lift (required_string "content" x) ;;;
  savedTweet <- insert_into TweetSchema tweets set_tweets (mkTweet i x userId) ;;
  ret (respond 200 (BodyTweet savedTweet)).

(** tweetRoutes.ts, GET "" *)
Definition tweet_list_try (req : Request) : Async Response :=
  allTweets <- gets (fun s =>
    map (fun t => (t, populate_owner s (Some (t_owner t)))) (tweets s)) ;;
  ret (respond 200 (BodyPopulatedTweets allTweets)).

(** userRoutes.ts, GET /me/profile/view *)
Definition profile_view_try (req : Request) : Async Response :=
  match user req with
  | Some u => ret (respond 200 (BodyUser u))
  | None => ret (respond 200 (BodyText ""))
  end.

(** [res.cookie(authConfig.cookie.name, null, { expires: new Date(Date.now()) })] *)
Definition clear_cookie : CookieWrite := mkCookieWrite cookie_name None 0.

(** [res.cookie(name, token, { expires: Date.now() + expiresInHours * 3600000 })] *)
Definition session_cookie (token : string) : CookieWrite :=
  mkCookieWrite cookie_name (Some token) (cookie_expiresInHours * 3600000).

(** userRoutes.ts, DELETE /me/profile/deleteAccount *)
Definition delete_account_try (req : Request) : Async Response :=
  userId <- req_user_id req ;;
  found <- gets (fun s => findById u_id userId (users s)) ;;
  throw_if (is_none found) "Unable to find the user" ;;;
  deletedUser <- gets (fun s => findById u_id userId (users s)) ;;
  modify (fun s => set_users s (deleteById u_id userId (users s))) ;;;
  throw_if (is_none deletedUser) "Failed to delete the account" ;;;
  ret (mkResponse 200 (BodyMessage "Account Deleted Successfully") (Some clear_cookie)).

Definition set_avatar (u : User) (x : string) : User :=
  mkUser (u_id u) (username u) (email u) (isPremium u) x (coverImage u) (password u)
         (watchHistory u).
Definition set_coverImage (u : User) (x : string) : User :=
  mkUser (u_id u) (username u) (email u) (isPremium u) (avatar u) x (password u)
         (watchHistory u).
Definition set_password (u : User) (x : string) : User :=
  mkUser (u_id u) (username u) (email u) (isPremium u) (avatar u) (coverImage u) x
         (watchHistory u).
Definition set_u_id (u : User) (i : ObjectId) : User :=
  mkUser i (username u) (email u) (isPremium u) (avatar u) (coverImage u) (password u)
         (watchHistory u).

(** userRoutes.ts, PATCH /me/profile/edit/avatar; [deleteOnCloudinary]
    catches whatever it raises and its result is not used. *)
Definition edit_avatar_try (req : Request) : Async Response :=
  userId <- req_user_id req ;;
  found <- gets (fun s => findById u_id userId (users s)) ;;
  match found with
  | None => throw (Error "Unable to find the user")
  | Some u =>
      throw_if (avatar u =? "") "Cannot get the Avatar link from the database" ;;;
      match file_path req "avatar" with
      | None => throw (Error "Pls add a file")
      | Some avatarLocalPath =>
          up <- lift (uploadOnCloudinary env avatarLocalPath) ;;
          modify (fun s =>
            set_users s (updateOne u_id userId (fun y => set_avatar y (fst up)) (users s))) ;;;
          ret (respond 200 (BodyText (fst up)))
      end
  end.

(** userRoutes.ts, PATCH /me/profile/edit/coverImage *)
Definition edit_coverImage_try (req : Request) : Async Response :=
  userId <- req_user_id req ;;
  found <- gets (fun s => findById u_id userId (users s)) ;;
  match found with
  | None => throw (Error "Unable to find the user")
  | Some u =>
      throw_if (coverImage u =? "") "Cannot get the CoverImage link from the database" ;;;
      match file_path req "coverImage" with
      | None => throw (Error "Pls add a file")
      | Some coverImageLocalPath =>
          up <- lift (uploadOnCloudinary env coverImageLocalPath) ;;
          modify (fun s =>
            set_users s
              (updateOne u_id userId (fun y => set_coverImage y (fst up)) (users s))) ;;;
          ret (respond 200 (BodyText (fst up)))
      end
  end.

(** userRoutes.ts, PATCH /me/profile/edit/password *)
Definition edit_password_try (req : Request) : Async Response :=
  userId <- req_user_id req ;;
  found <- gets (fun s => findById u_id userId (users s)) ;;
  match found with
  | None => throw (Error "User not found")
  | Some u =>
      let currentInputPassword := field req "currentInputPassword" in
      let newPassword := field req "newPassword" in
      throw_if (negb (truthy currentInputPassword) || negb (truthy newPassword))
               "Both current and new passwords are required" ;;;
      isValidPassword <- lift (bcrypt_compare env currentInputPassword (password u)) ;;
      throw_if (negb isValidPassword) "Incorrect current password" ;;;
      hashedPassword <- lift (bcrypt_hash env newPassword) ;;
      lift (required_string "password" hashedPassword) ;;;
      modify (fun s =>
        set_users s
          (updateOne u_id userId (fun y => set_password y hashedPassword) (users s))) ;;;
      ret (respond 200 (BodyMessage "Password changed successfully"))
  end.

Definition edit_password_catch (error : JsError) : Response :=
  respond 400 (BodyError ("Unable to change the password: " ++ err_message error)).

(** [[a, b, ...].some((field) => field?.trim() === "")] *)
Fixpoint some_blank (fields : list JsValue) : Outcome bool :=
  match fields with
  | [] => Return false
  | f :: rest =>
      match opt_trim "field" f with
      | Throw e => Throw e
      | Return t => if is_empty_string t then Return true else some_blank rest
      end
  end.

(** user.model.ts, [getJWT] *)
Definition getJWT (u : User) : Async string :=
  match jwt_sign env (u_id u) (secretKey env) with
  | Return token => ret token
  | Throw error => throw (Error ("Error while creating JWT Token : " ++ error_toString error))
  end.

(** user.model.ts, [validatePassword] *)
Definition validatePassword (u : User) (passwordInputByUser : JsValue) : Async bool :=
  match bcrypt_compare env passwordInputByUser (password u) with
  | Return isPasswordValid => ret isPasswordValid
  | Throw error => throw (Error ("Error while validating Password : " ++ error_toString error))
  end.

(** What registration does once the fields passed the first check. *)
Definition register_rest (req : Request) : Async Response :=
  let username_ := field req "username" in
  let email_ := field req "email" in
  let password_ := field req "password" in
  avatarCloudinaryUrl <-
    match file_path req "avatar" with
    | Some avatarLocalPath =>
        up <- lift (uploadOnCloudinary env avatarLocalPath) ;; ret (Some (fst up))
    | None => ret None
    end ;;
  existingUser <- gets (fun s =>
    find (fun u => query_matches env "username" username_ (username u)
                   || query_matches env "email" email_ (email u))
         (users s)) ;;
  throw_if (negb (is_none existingUser))
           "A user with this email or username already exists" ;;;
  hashedPassword <- lift (bcrypt_hash env password_) ;;
  i <- fresh_id ;;
  doc <- lift (validateUser env username_ email_ hashedPassword avatarCloudinaryUrl) ;;
  savedUser <- insert_into UserSchema users set_users (set_u_id doc i) ;;
  token <- getJWT savedUser ;;
  ret (mkResponse 200 (BodyUser savedUser) (Some (session_cookie token))).

(** authRoutes.ts, POST /register *)
Definition register_try (req : Request) : Async Response :=
  blank <- lift (some_blank [field req "username"; field req "email";
                             field req "password"]) ;;
  throw_if blank "All fields are required" ;;;
  register_rest req.

(** What login does once the fields passed the first check. *)
Definition login_rest (req : Request) : Async Response :=
  let email_ := field req "email" in
  let password_ := field req "password" in
  found <- gets (fun s =>
    find (fun u => query_matches env "email" email_ (email u)) (users s)) ;;
  match found with
  | None => throw (Error "Invalid Credentials - email")
  | Some u =>
      isValidPassword <- validatePassword u password_ ;;
      throw_if (negb isValidPassword) "Invalid Credentials - password" ;;;
      token <- getJWT u ;;
      ret (mkResponse 200 (BodyUser u) (Some (session_cookie token)))
  end.

(** authRoutes.ts, POST /login *)
Definition login_try (req : Request) : Async Response :=
  blank <- lift (some_blank [field req "email"; field req "password"]) ;;
  throw_if blank "All fields are required" ;;;
  login_rest req.

(** authRoutes.ts, POST /logout *)
Definition logout_try (req : Request) : Async Response :=
  ret (mkResponse 200 (BodyText "Logout successfully") (Some clear_cookie)).

Definition logout_catch (error : JsError) : Response :=
  respond 500 (BodyText ("Unable to Logout the user :: ERROR : " ++ err_message error)).

(** ** The routes as server.ts and the routers register them *)

Inductive Route : Type :=
| AuthRegister | AuthLogin | AuthLogout
| UserProfileView | UserDeleteAccount | UserEditAvatar | UserEditCoverImage
| UserEditPassword | UserHistory | UserChannel
| VideoUpload | VideoList | VideoView | VideoDelete | VideoEdit | VideoComment
| VideoToggleLike
| TweetUpload | TweetList | TweetDelete | TweetEdit | TweetToggleLike
| CommentDelete | CommentEdit | CommentToggleLike.

(** Whether [authenticateUser] stands before the handler. *)
Definition route_auth (r : Route) : bool :=
  match r with
  | AuthRegister | AuthLogin => false
  | UserHistory | UserChannel => false
  | VideoList | VideoView | TweetList => false
  | _ => true
  end.

(** The [uploadMiddleware.fields(...)] of the route, if it has one. *)
Definition route_upload (r : Route) : option (list (string * nat)) :=
  match r with
  | AuthRegister => Some [("avatar", 1)]
  | UserEditAvatar => Some [("avatar", 1)]
  | UserEditCoverImage => Some [("coverImage", 1)]
  | VideoUpload => Some [("video", 1); ("thumbnail", 1)]
  | VideoEdit => Some [("thumbnail", 1)]
  | _ => None
  end.

(** The body of the handler's [try]. *)
Definition route_try (r : Route) : Request -> Async Response :=
  match r with
  | AuthRegister => register_try
  | AuthLogin => login_try
  | AuthLogout => logout_try
  | UserProfileView => profile_view_try
  | UserDeleteAccount => delete_account_try
  | UserEditAvatar => edit_avatar_try
  | UserEditCoverImage => edit_coverImage_try
  | UserEditPassword => edit_password_try
  | UserHistory => history_try
  | UserChannel => channel_view_try
  | VideoUpload => video_upload_try
  | VideoList => video_list_try
  | VideoView => video_view_try
  | VideoDelete => video_delete_try
  | VideoEdit => video_edit_try
  | VideoComment => video_comment_try
  | VideoToggleLike => video_toggle_like_try
  | TweetUpload => tweet_upload_try
  | TweetList => tweet_list_try
  | TweetDelete => tweet_delete_try
  | TweetEdit => tweet_edit_try
  | TweetToggleLike => tweet_toggle_like_try
  | CommentDelete => comment_delete_try
  | CommentEdit => comment_edit_try
  | CommentToggleLike => comment_toggle_like_try
  end.

(** The handler's [catch]. *)
Definition route_catch (r : Route) : JsError -> Response :=
  match r with
  | AuthRegister => catch_text "Unable to register the user. Error: "
  | AuthLogin => catch_text "Unable to logged in the user :: ERROR : "
  | AuthLogout => logout_catch
  | UserProfileView =>
      catch_text "Unable to view the proflie of loggedIn User. Error: "
  | UserDeleteAccount => catch_text "Unable to delete the account: "
  | UserEditAvatar => catch_text "Unable to change the avatar: "
  | UserEditCoverImage => catch_text "Unable to change the coverImage: "
  | UserEditPassword => edit_password_catch
  | UserHistory => catch_text "Unable to fetch the watch History :: ERROR : "
  | UserChannel => catch_text "Unable to fetch the channel Details :: ERROR : "
  | VideoUpload => catch_json 400 "Unable to upload the video"
  | VideoList => catch_json 400 "Unable to fetch the videos"
  | VideoView => catch_json 400 "Unable to fetch the video"
  | VideoDelete => catch_json 500 "Unable to delete the video."
  | VideoEdit => catch_json 400 "Unable to edit the video"
  | VideoComment => catch_json 400 "Unable to comment on the video"
  | VideoToggleLike => toggle_error
  | TweetUpload => catch_json 400 "Unable to upload the tweet"
  | TweetList => catch_json 400 "Unable to fetch the tweets"
  | TweetDelete => catch_json 400 "Unable to delete the tweet"
  | TweetEdit => catch_json 400 "Unable to edit the tweet"
  | TweetToggleLike => toggle_error
  | CommentDelete => catch_json 400 "Unable to delete the comment"
  | CommentEdit => catch_json 400 "Unable to edit the comment"
  | CommentToggleLike => toggle_error
  end.

Definition route_handler (r : Route) : Handler :=
  fun req => try_catch (route_try r req) (route_catch r).

(** The chain of a route: [authenticateUser] first, then multer, then the
    handler, each present as registered. *)
Definition run_route (r : Route) : Handler :=
  let h := match route_upload r with
           | Some spec => with_upload spec (route_handler r)
           | None => route_handler r
           end in
  if route_auth r then protect h else h.

(** The answer of the server to a request on a route. *)
Definition serve (r : Route) (h : HttpRequest) : Store -> Response * Store :=
  run_route r (express_request h).

End Routes.

(** ** Vocabulary of the properties *)

(** The like toggle of the router of each target kind. *)
Definition toggle_like (env : Env) (k : TargetKind) : Handler :=
  match k with
  | KComment => comment_toggle_like env
  | KVideo => video_toggle_like env
  | KTweet => tweet_toggle_like env
  end.

Definition target_param (k : TargetKind) : string :=
  match k with
  | KComment => "commentId"
  | KVideo => "videoId"
  | KTweet => "tweetId"
  end.

Definition target_exists (k : TargetKind) (i : ObjectId) (s : Store) : bool :=
  match k with
  | KComment => negb (is_none (findById c_id i (comments s)))
  | KVideo => negb (is_none (findById v_id i (videos s)))
  | KTweet => negb (is_none (findById t_id i (tweets s)))
  end.

Definition like_target (k : TargetKind) (l : Like) : option ObjectId :=
  match k with
  | KComment => l_comment l
  | KVideo => l_video l
  | KTweet => l_tweet l
  end.

(** The Like rows of account [a] for the target [i] of kind [k]. *)
Definition like_matches (k : TargetKind) (i a : ObjectId) (l : Like) : bool :=
  opt_id_eqb (like_target k l) (Some i) && (likedBy l =? a)%N.

Definition pair_rows (k : TargetKind) (i a : ObjectId) (ls : list Like) : list Like :=
  filter (like_matches k i a) ls.

(** The row a first like of [a] on the target creates. *)
Definition new_like (k : TargetKind) (i a fresh : ObjectId) : Like :=
  match k with
  | KComment => mkLike fresh true a (Some i) None None
  | KVideo => mkLike fresh true a None (Some i) None
  | KTweet => mkLike fresh true a None None (Some i)
  end.

Fixpoint unique_ids (ids : list ObjectId) : bool :=
  match ids with
  | [] => true
  | i :: l => negb (existsb (N.eqb i) l) && unique_ids l
  end.

(** What the store guarantees of the likes collection: distinct [_id]s, all
    drawn before the next one. *)
Definition likes_ok (s : Store) : bool :=
  unique_ids (map l_id (likes s))
  && forallb (fun l => (l_id l <? next_id s)%N) (likes s).

(** The account a request's session cookie resolves to, if it does. *)
Definition session_of (env : Env) (req : Request) (s : Store) : option User :=
  match authenticateUser env req s with
  | (Next req', _) => user req'
  | (Respond _, _) => None
  end.

Definition set_body (req : Request) (b : list (string * JsValue)) : Request :=
  mkRequest (cookies req) (params req) b (files req) (user req).

Definition toggle_body (d : bool) : list (string * JsValue) :=
  [("toggleLike", JsBool d)].

(** What a like toggle comes to once the session is resolved, the target
    found and [toggleLike] a boolean (see [toggle_like_run]). *)
Definition toggle_outcome (k : TargetKind) (i a : ObjectId) (d : bool) (s : Store)
  : Response * Store :=
  match find (like_matches k i a) (likes s) with
  | Some l =>
      (respond 201 (BodyLike (set_isLiked l d)),
       set_likes s (updateOne l_id (l_id l) (fun x => set_isLiked x d) (likes s)))
  | None =>
      if d
      then (respond 201 (BodyLike (new_like k i a (next_id s))),
            set_likes (set_next_id s (next_id s + 1)%N)
                      (likes s ++ [new_like k i a (next_id s)])%list)
      else (respond 400 (BodyMessageError "Unable to toggle the like"
                                          "No like exists to remove."), s)
  end.

Definition like_route (k : TargetKind) : Route :=
  match k with
  | KComment => CommentToggleLike
  | KVideo => VideoToggleLike
  | KTweet => TweetToggleLike
  end.

(** The like toggle as registered: behind [authenticateUser]. *)
Definition toggle_route (env : Env) (k : TargetKind) : Handler :=
  run_route env (like_route k).

(** The edit and delete routes of the three resource kinds. *)
Definition owner_route (k : TargetKind) (op : Operation) : Route :=
  match k, op with
  | KVideo, OpEdit => VideoEdit
  | KVideo, OpDelete => VideoDelete
  | KTweet, OpEdit => TweetEdit
  | KTweet, OpDelete => TweetDelete
  | KComment, OpEdit => CommentEdit
  | KComment, OpDelete => CommentDelete
  end.

(** The owner reference of the stored resource with that id: [None] when
    there is no such resource, [Some None] for a video without owner. *)
Definition resource_owner (k : TargetKind) (i : ObjectId) (s : Store)
  : option (option ObjectId) :=
  match k with
  | KVideo => option_map v_owner (findById v_id i (videos s))
  | KTweet => option_map (fun t => Some (t_owner t)) (findById t_id i (tweets s))
  | KComment => option_map (fun c => Some (c_owner c)) (findById c_id i (comments s))
  end.

(** The messages of the two refusals, as each handler words them. *)
Definition not_found_message (k : TargetKind) : string :=
  match k with
  | KVideo => "Video not found."
  | KTweet => "Tweet not found."
  | KComment => "Comment not found"
  end.

Definition unauthorized_message (k : TargetKind) (op : Operation) : string :=
  match k, op with
  | KVideo, OpEdit => "Unauthorized: Only the owner can edit this video."
  | KVideo, OpDelete => "Unauthorized: Only the owner can delete this video."
  | KTweet, _ => "Unauthorized: Only the owner can delete this tweet."
  | KComment, OpEdit => "Unauthorized: Only the owner can edit this comment"
  | KComment, OpDelete =>
      "Unauthorized: Only the comment owner can delete this comment"
  end.

Definition failure_label (k : TargetKind) (op : Operation) : string :=
  match k, op with
  | KVideo, OpEdit => "Unable to edit the video"
  | KVideo, OpDelete => "Unable to delete the video."
  | KTweet, OpEdit => "Unable to edit the tweet"
  | KTweet, OpDelete => "Unable to delete the tweet"
  | KComment, OpEdit => "Unable to edit the comment"
  | KComment, OpDelete => "Unable to delete the comment"
  end.

(** Whether multer, where the route has it, lets the request through. *)
Definition upload_passes (env : Env) (r : Route) (req : Request) : bool :=
  match route_upload r with
  | Some spec =>
      match uploadMiddleware env spec req with
      | Return _ => true
      | Throw _ => false
      end
  | None => true
  end.

(** The routers whose catch blocks answer with [{ message, error }]. *)
Definition structured_route (r : Route) : bool :=
  match r with
  | VideoUpload | VideoList | VideoView | VideoDelete | VideoEdit | VideoComment
  | VideoToggleLike => true
  | TweetUpload | TweetList | TweetDelete | TweetEdit | TweetToggleLike => true
  | CommentDelete | CommentEdit | CommentToggleLike => true
  | _ => false
  end.

(** Every response a computation returns has a status in [P]. *)
Definition returns_status (P : Z -> Prop) (m : Async Response) : Prop :=
  forall s r s', m s = (Return r, s') -> P (status r).

Definition success_status (z : Z) : Prop := z = 200%Z \/ z = 201%Z.

(** ** A concrete environment and store, on which the properties are run *)

Definition demo_jwt_verify (token key : string) : Outcome string :=
  if negb (key =? "s3cret") then Throw (mkJsError "JsonWebTokenError" "invalid signature")
  else match token with
       | String "v" (String ":" payload) => Return payload
       | String "x" (String ":" _) => Throw (mkJsError "TokenExpiredError" "jwt expired")
       | _ => Throw (mkJsError "JsonWebTokenError" "jwt malformed")
       end.

Fixpoint digits_value (acc : N) (s : string) : option N :=
  match s with
  | EmptyString => Some acc
  | String c s' =>
      let n := N_of_ascii c in
      if ((48 <=? n) && (n <=? 57))%N then digits_value (acc * 10 + (n - 48))%N s'
      else None
  end.

Definition demo_castObjectId (s : string) : option ObjectId :=
  if s =? "" then None else digits_value 0 s.

Definition demo_env : Env :=
  mkEnv "s3cret"
    demo_jwt_verify
    (fun i _ => Return ("v:" ++ NilZero.string_of_uint (N.to_uint i)))
    demo_castObjectId
    (fun _ v stored => match v with JsString q => q =? stored | _ => false end)
    (fun uname mail hashed av =>
       match uname, mail with
       | JsString n, JsString m =>
           Return (mkUser 0 (toLowerCase (trim n)) (toLowerCase (trim m)) false
                          (match av with Some a => a | None => "default-avatar" end)
                          "default-cover" hashed [])
       | _, _ => Throw (mkJsError "ValidationError" "User validation failed")
       end)
    (fun _ req => Return (match files req with Some fs => fs | None => [] end,
                          body req))
    (fun path => Return ("https://res.cloudinary.com/demo/" ++ path, "0"))
    (fun d => Return d)
    (fun v => match v with
              | JsString s => Return ("hash:" ++ s)
              | _ => Throw (Error "data and salt arguments required")
              end)
    (fun v h => match v with
                | JsString s => Return (("hash:" ++ s) =? h)
                | _ => Throw (Error "data and hash arguments required")
                end).

Definition alice : User :=
  mkUser 1 "alice" "alice@example.com" false "a.png" "c.png" "hash:pw1" [11; 10; 11]%N.
Definition bob : User :=
  mkUser 2 "bob" "bob@example.com" false "b.png" "d.png" "hash:pw2" [].

Definition demo_store : Store :=
  mkStore [alice; bob]
          [ mkVideo 10 "v10.mp4" "t10.png" (Some 1%N) "First" "one" "0:10" 0;
            mkVideo 11 "v11.mp4" "t11.png" (Some 2%N) "Second" "two" "0:20" 0 ]
          [ mkTweet 20 "hello" 1 ]
          [ mkComment 30 "nice" 10 1 ]
          []
          [ mkSubscription 40 2 1 ]
          100.

(** A request with bob's session cookie, addressing video 10, tweet 20 and
    comment 30. *)
Definition bob_request : Request :=
  mkRequest [("yt-Token", "v:2")]
            [("videoId", "10"); ("tweetId", "20"); ("commentId", "30");
             ("username", "Alice")]
            [] None None.

(** The same session on the wire, asking for the channel of alice, whom
    bob follows. *)
Definition bob_http : HttpRequest :=
  mkHttpRequest [("yt-Token", "v:2")] [("username", "alice")] [].

(** Alice's session on the wire, asking for her watch history. *)
Definition alice_http : HttpRequest :=
  mkHttpRequest [("yt-Token", "v:1")] [] [].

(** Two Like rows of bob for video 10. *)
Definition like_a : Like := mkLike 50 true 2 None (Some 10%N) None.
Definition like_b : Like := mkLike 51 true 2 None (Some 10%N) None.

(** ** Vocabulary of the further properties *)

(** A computation leaves the observation [f] of the store as it was,
    whether it returns or throws. *)
Definition keeps {A B} (f : Store -> A) (m : Async B) : Prop :=
  forall s o s', m s = (o, s') -> f s' = f s.

Inductive Collection : Type :=
| CUsers | CVideos | CTweets | CComments | CLikes | CSubscriptions.

Definition same_collection (c : Collection) (s s' : Store) : Prop :=
  match c with
  | CUsers => users s' = users s
  | CVideos => videos s' = videos s
  | CTweets => tweets s' = tweets s
  | CComments => comments s' = comments s
  | CLikes => likes s' = likes s
  | CSubscriptions => subscriptions s' = subscriptions s
  end.

(** The collection a route may write. *)
Definition writes (r : Route) (c : Collection) : bool :=
  match r, c with
  | AuthRegister, CUsers | UserDeleteAccount, CUsers | UserEditAvatar, CUsers
  | UserEditCoverImage, CUsers | UserEditPassword, CUsers => true
  | VideoUpload, CVideos | VideoDelete, CVideos | VideoEdit, CVideos => true
  | VideoComment, CComments | CommentDelete, CComments | CommentEdit, CComments => true
  | TweetUpload, CTweets | TweetDelete, CTweets | TweetEdit, CTweets => true
  | VideoToggleLike, CLikes | TweetToggleLike, CLikes | CommentToggleLike, CLikes => true
  | _, _ => false
  end.

(** The routes whose handlers only read. *)
Definition read_only (r : Route) : bool :=
  match r with
  | AuthLogin | AuthLogout | UserProfileView | UserHistory | UserChannel
  | VideoList | VideoView | TweetList => true
  | _ => false
  end.

(** The account id a request's session cookie names, when the cookie is
    there, the token verifies and its payload casts. *)
Definition session_id (env : Env) (req : Request) : option ObjectId :=
  match assoc cookie_name (cookies req) with
  | None => None
  | Some token =>
      if token =? "" then None
      else match jwt_verify env token (secretKey env) with
           | Return p => castObjectId env p
           | Throw _ => None
           end
  end.

(** The [_id]s of the stored resources of a kind. *)
Definition resource_ids (k : TargetKind) (s : Store) : list ObjectId :=
  match k with
  | KVideo => map v_id (videos s)
  | KTweet => map t_id (tweets s)
  | KComment => map c_id (comments s)
  end.

(** The store with one more subscription edge. *)
Definition add_subscription (s : Store) (e : Subscription) : Store :=
  mkStore (users s) (videos s) (tweets s) (comments s) (likes s)
          (subscriptions s ++ [e])%list (next_id s).

(** A channel view with the counts one more edge [e] gives it. *)
Definition count_edge (e : Subscription) (c : ChannelView) : ChannelView :=
  mkChannelView (ch_id c) (ch_username c) (ch_avatar c) (ch_coverImage c)
                (ch_isPremium c) (ch_email c)
                (subscribersCount c + if (channel e =? ch_id c)%N then 1 else 0)
                (subscribedToCount c + if (subscriber e =? ch_id c)%N then 1 else 0)
                (isSubscribed c).

Fixpoint distinct_strings (l : list string) : bool :=
  match l with
  | [] => true
  | x :: r => negb (existsb (String.eqb x) r) && distinct_strings r
  end.

(** No two stored accounts share a username or an e-mail address. *)
Definition users_unique (s : Store) : bool :=
  distinct_strings (map username (users s)) && distinct_strings (map email (users s)).

(** What the profile edits must leave alone in an account. *)
Definition identity_of (u : User) : ObjectId * string * string * list ObjectId :=
  (u_id u, username u, email u, watchHistory u).

(** The store after [findByIdAndDelete] of the resource. *)
Definition delete_resource (k : TargetKind) (i : ObjectId) (s : Store) : Store :=
  match k with
  | KVideo => set_videos s (deleteById v_id i (videos s))
  | KTweet => set_tweets s (deleteById t_id i (tweets s))
  | KComment => set_comments s (deleteById c_id i (comments s))
  end.

(** The accounts after a request are the accounts before it, or those and
    one new account, with the next [_id] and a username and an address that
    no stored account has. *)
Definition grown_by_one (s s' : Store) : Prop :=
  users s' = users s
  \/ exists d,
       users s' = (users s ++ [d])%list
       /\ u_id d = next_id s
       /\ existsb (fun x => (username d =? username x)%string) (users s) = false
       /\ existsb (fun x => (email d =? email x)%string) (users s) = false.

(** The routes that edit the profile of the session's account. *)
Definition profile_edit (r : Route) : bool :=
  match r with
  | UserEditAvatar | UserEditCoverImage | UserEditPassword => true
  | _ => false
  end.

(** ** Further requests on the concrete store *)

(** Bob asking for a video that is not stored. *)
Definition bob_request_missing : Request :=
  mkRequest [("yt-Token", "v:2")] [("videoId", "99")] [("toggleLike", JsBool true)]
            None None.

(** Bob addressing his own video 11. *)
Definition bob_own_request : Request :=
  mkRequest [("yt-Token", "v:2")] [("videoId", "11")] [] None None.

(** Alice editing her comment 30 and her tweet 20. *)
Definition alice_edit_request : Request :=
  mkRequest [("yt-Token", "v:1")] [("commentId", "30"); ("tweetId", "20")]
            [("content", JsString " edited ")] None None.

(** Bob posting on video 10, then addressing the document with the next
    [_id] of the store. *)
Definition bob_post_request : Request :=
  mkRequest [("yt-Token", "v:2")] [("videoId", "10")] [("content", JsString "nice one")]
            None None.
Definition bob_undo_request : Request :=
  mkRequest [("yt-Token", "v:2")] [("commentId", "100"); ("tweetId", "100")] []
            None None.

(** Bob changing his password, with a wrong current password. *)
Definition bob_password_request : Request :=
  mkRequest [("yt-Token", "v:2")] []
            [("currentInputPassword", JsString "guess"); ("newPassword", JsString "new")]
            None None.

(** Bob logging in. *)
Definition bob_login_request : Request :=
  mkRequest [] [] [("email", JsString "bob@example.com"); ("password", JsString "pw2")]
            None None.

(** A registration under a new name. *)
Definition carol_register_request : Request :=
  mkRequest [] []
            [("username", JsString "Carol"); ("email", JsString "carol@example.com");
             ("password", JsString "pw3")]
            None None.

(** * Properties *)

(** ** Checks on small inputs *)

Example trim_inner_space : trim "  a b  " = "a b".
Proof. reflexivity. Qed.

Example trim_only_space :
  trim (String (ascii_of_nat 9) (String (ascii_of_nat 160) " ")) = "".
Proof. reflexivity. Qed.

Example toLowerCase_handle : toLowerCase "Alice9" = "alice9".
Proof. reflexivity. Qed.

Example some_blank_absent : some_blank [JsUndefined; JsNull; JsString "x"] = Return false.
Proof. reflexivity. Qed.

Example some_blank_stops_at_first_hit :
  some_blank [JsString " "; JsNumber 5] = Return true.
Proof. reflexivity. Qed.

Example some_blank_type_error :
  some_blank [JsNumber 5; JsString ""]
  = Throw (TypeError "field?.trim is not a function").
Proof. reflexivity. Qed.

Example castString_number : castString "content" (JsNumber 42) = Return "42".
Proof. reflexivity. Qed.

Example updateOne_first_only :
  updateOne fst 1%N (fun x => (fst x, true)) [(1%N, false); (2%N, false); (1%N, false)]
  = [(1%N, true); (2%N, false); (1%N, false)].
Proof. reflexivity. Qed.

(** The pipeline itself answers [isSubscribed = true] when it is given the
    follower as viewer. *)
Example channel_pipeline_with_viewer :
  map isSubscribed (channel_pipeline (Some 2%N) "alice" demo_store) = [true].
Proof. reflexivity. Qed.

(** Behind [authenticateUser] the two views would see the account. *)
Example channel_view_behind_session :
  fst (protect demo_env channel_view (express_request bob_http) demo_store)
  = respond 200 (BodyChannels
                   [mkChannelView 1 "alice" "a.png" "c.png" false "alice@example.com"
                                  1 0 true]).
Proof. reflexivity. Qed.

Example history_behind_session :
  exists l,
    fst (protect demo_env history (express_request alice_http) demo_store)
    = respond 200 (BodyHistory l)
    /\ List.length l = 2
    /\ In 10%N (map (fun e => v_id (h_video e)) l)
    /\ In 11%N (map (fun e => v_id (h_video e)) l).
Proof. eexists. split; [reflexivity|]. cbn. auto. Qed.

Example toggle_creates_then_updates :
  let like d st := snd (toggle_route demo_env KVideo
                                     (set_body bob_request (toggle_body d)) st) in
  likes (like true demo_store) = [mkLike 100 true 2 None (Some 10%N) None]
  /\ likes (like false (like true demo_store))
     = [mkLike 100 false 2 None (Some 10%N) None]
  /\ likes (like false demo_store) = [].
Proof. repeat split. Qed.

Section Properties.

Variable env : Env.

(** ** Session resolution *)

Lemma authenticateUser_store (req : Request) (s : Store) :
  snd (authenticateUser env req s) = s.
Proof.
  unfold authenticateUser, authenticateUser_try, bind, throw_if, lift, cast_id, gets.
  destruct (_ =? "")%string; cbn; [reflexivity|].
  destruct (jwt_verify env _ _); cbn; [|reflexivity].
  destruct (castObjectId env a); cbn; [|reflexivity].
  destruct (findById u_id o (users s)); reflexivity.
Qed.

Lemma session_of_inv (req : Request) (s : Store) (u : User) :
  session_of env req s = Some u ->
  authenticateUser env req s = (Next (set_user req u), s)
  /\ findById u_id (u_id u) (users s) = Some u.
Proof.
  unfold session_of, authenticateUser, authenticateUser_try, bind, throw_if, lift,
    cast_id, gets.
  destruct (_ =? "")%string; cbn; [discriminate|].
  destruct (jwt_verify env _ _); cbn; [|discriminate].
  destruct (castObjectId env a); cbn; [|discriminate].
  destruct (findById u_id o (users s)) as [u'|] eqn:F; cbn; [|discriminate].
  intros H; injection H as ->. split; [reflexivity|].
  unfold findById in *. destruct (find_some _ _ F) as [_ E].
  apply N.eqb_eq in E. now rewrite E.
Qed.

Lemma session_of_users (req : Request) (s s' : Store) :
  users s' = users s -> session_of env req s' = session_of env req s.
Proof.
  intros E.
  unfold session_of, authenticateUser, authenticateUser_try, bind, throw_if, lift,
    cast_id, gets.
  destruct (_ =? "")%string; cbn; [reflexivity|].
  destruct (jwt_verify env _ _); cbn; [|reflexivity].
  destruct (castObjectId env a); cbn; [|reflexivity].
  rewrite E. destruct (findById u_id o (users s)); reflexivity.
Qed.

(** ** Like toggles *)

Lemma same_id_like (ls : list Like) (l : Like) :
  existsb (same_key LikeSchema (mkIndex ["_id"] true) l) ls
  = existsb (fun x => (l_id l =? l_id x)%N) ls.
Proof.
  induction ls as [|x ls IH]; cbn; [reflexivity|].
  rewrite IH. unfold same_key. cbn. now rewrite andb_true_r.
Qed.

Lemma insertOne_like (ls : list Like) (l : Like) :
  existsb (fun x => (l_id l =? l_id x)%N) ls = false ->
  insertOne LikeSchema ls l = Return (ls ++ [l])%list.
Proof.
  intros H. unfold insertOne, duplicate_key, all_indexes.
  cbn [existsb LikeSchema sch_indexes ix_unique andb].
  rewrite same_id_like, H. reflexivity.
Qed.

Lemma fresh_not_stored (s : Store) :
  likes_ok s = true ->
  existsb (fun x => (next_id s =? l_id x)%N) (likes s) = false.
Proof.
  unfold likes_ok. intros H. apply andb_prop in H as [_ H].
  rewrite forallb_forall in H.
  apply not_true_is_false. intros E. apply existsb_exists in E as (x & Hx & E).
  apply H in Hx. apply N.eqb_eq in E. apply N.ltb_lt in Hx. lia.
Qed.

(** What one toggle request does, for a resolved session and an existing
    target. *)
Lemma toggle_like_run (k : TargetKind) (req : Request) (s : Store) (u : User)
  (i : ObjectId) (d : bool) :
  user req = Some u ->
  findById u_id (u_id u) (users s) = Some u ->
  castObjectId env (param req (target_param k)) = Some i ->
  target_exists k i s = true ->
  field req "toggleLike" = JsBool d ->
  (d = true -> likes_ok s = true) ->
  toggle_like env k req s = toggle_outcome k i (u_id u) d s.
Proof.
  intros Hu Hf Hc Ht Hb Hok.
  assert (d = true -> existsb (fun x => (next_id s =? l_id x)%N) (likes s) = false)
    as Hfresh by (intros E; apply fresh_not_stored; auto).
  unfold toggle_outcome.
  destruct k; cbn [toggle_like target_param target_exists] in *;
    unfold comment_toggle_like, video_toggle_like, tweet_toggle_like, try_catch,
      comment_toggle_like_try, video_toggle_like_try, tweet_toggle_like_try,
      bind, req_user_id, gets, throw_if, cast_id;
    rewrite Hu; cbn; rewrite Hf; cbn; rewrite Hc; cbn;
    (destruct (findById _ i _); [|discriminate]); cbn;
    rewrite Hb; cbn;
    unfold like_matches; cbn [like_target];
    (match goal with |- context [find ?p (likes s)] => destruct (find p (likes s)) end);
    cbn; try reflexivity;
    destruct d; cbn; try reflexivity;
    unfold insert_like, bind, gets, lift, modify; cbn;
    rewrite insertOne_like by (cbn; apply Hfresh; reflexivity); reflexivity.
Qed.

Lemma session_of_set_body (req : Request) (b : list (string * JsValue)) (s : Store) :
  session_of env (set_body req b) s = session_of env req s.
Proof.
  unfold session_of, authenticateUser, authenticateUser_try, bind, throw_if, lift,
    cast_id, gets. cbn [cookies set_body].
  destruct (_ =? "")%string; cbn; [reflexivity|].
  destruct (jwt_verify env _ _); cbn; [|reflexivity].
  destruct (castObjectId env a); cbn; [|reflexivity].
  destruct (findById u_id o (users s)); reflexivity.
Qed.

Lemma toggle_route_run (k : TargetKind) (req : Request) (s : Store) (u : User)
  (i : ObjectId) (d : bool) :
  session_of env req s = Some u ->
  castObjectId env (param req (target_param k)) = Some i ->
  target_exists k i s = true ->
  (d = true -> likes_ok s = true) ->
  toggle_route env k (set_body req (toggle_body d)) s = toggle_outcome k i (u_id u) d s.
Proof.
  intros Hs Hc Ht Hok.
  rewrite <- (session_of_set_body req (toggle_body d)) in Hs.
  apply session_of_inv in Hs as [Ha Hf].
  replace (toggle_route env k) with (protect env (toggle_like env k))
    by (destruct k; reflexivity).
  unfold protect. rewrite Ha.
  apply toggle_like_run; auto.
Qed.

Lemma like_matches_set_isLiked (k : TargetKind) (i a : ObjectId) (l : Like) (d : bool) :
  like_matches k i a (set_isLiked l d) = like_matches k i a l.
Proof. destruct k; reflexivity. Qed.

Lemma ids_updateOne (j : ObjectId) (d : bool) (ls : list Like) :
  map l_id (updateOne l_id j (fun x => set_isLiked x d) ls) = map l_id ls.
Proof.
  induction ls as [|x ls IH]; cbn; [reflexivity|].
  destruct (l_id x =? j)%N; cbn; [reflexivity|]. now rewrite IH.
Qed.


Lemma find_filter {A} (p : A -> bool) (ls : list A) :
  find p ls = hd_error (filter p ls).
Proof.
  induction ls as [|x ls IH]; cbn; [reflexivity|].
  destruct (p x); cbn; auto.
Qed.

Lemma unique_ids_not_in (j : ObjectId) (ids : list ObjectId) :
  existsb (N.eqb j) ids = false -> ~ In j ids.
Proof.
  intros H Hin. assert (existsb (N.eqb j) ids = true); [|congruence].
  apply existsb_exists. exists j. split; [assumption|apply N.eqb_refl].
Qed.

(** With distinct [_id]s the update reaches exactly the row that was found. *)
Lemma pair_rows_updateOne (k : TargetKind) (i a : ObjectId) (d : bool)
  (ls : list Like) (l : Like) (rest : list Like) :
  unique_ids (map l_id ls) = true ->
  pair_rows k i a ls = l :: rest ->
  pair_rows k i a (updateOne l_id (l_id l) (fun x => set_isLiked x d) ls)
  = set_isLiked l d :: rest.
Proof.
  unfold pair_rows. revert l rest.
  induction ls as [|x ls IH]; cbn; intros l rest Hu Hf; [discriminate|].
  apply andb_prop in Hu as [Hx Hu]. apply negb_true_iff in Hx.
  destruct (like_matches k i a x) eqn:Hm.
  - injection Hf as -> <-. rewrite N.eqb_refl. cbn.
    now rewrite like_matches_set_isLiked, Hm.
  - destruct (l_id x =? l_id l)%N eqn:E.
    + exfalso. apply N.eqb_eq in E.
      apply (unique_ids_not_in _ _ Hx). rewrite E. apply in_map.
      assert (In l (filter (like_matches k i a) ls)) as Hin
          by (rewrite Hf; now left).
      now apply filter_In in Hin.
    + cbn. rewrite Hm. now apply IH.
Qed.

Lemma pair_rows_app (k : TargetKind) (i a : ObjectId) (ls : list Like) (n : Like) :
  pair_rows k i a (ls ++ [n])
  = (pair_rows k i a ls ++ if like_matches k i a n then [n] else [])%list.
Proof.
  unfold pair_rows. rewrite filter_app. cbn.
  now destruct (like_matches k i a n).
Qed.


Lemma new_like_matches_self (k : TargetKind) (i a fresh : ObjectId) :
  like_matches k i a (new_like k i a fresh) = true.
Proof. unfold like_matches. destruct k; cbn; now rewrite !N.eqb_refl. Qed.


Lemma toggle_outcome_ok (k : TargetKind) (i a : ObjectId) (d : bool) (s : Store) :
  likes_ok s = true ->
  likes_ok (snd (toggle_outcome k i a d s)) = true.
Proof.
  intros Hok. pose proof (fresh_not_stored s Hok) as Hfresh.
  unfold likes_ok in *. apply andb_prop in Hok as [Hu Hb].
  unfold toggle_outcome.
  destruct (find _ _) as [l|]; cbn.
  - rewrite ids_updateOne, Hu. cbn.
    rewrite forallb_forall in *. intros x Hx.
    assert (In (l_id x) (map l_id (likes s))) as Hin.
    { rewrite <- (ids_updateOne (l_id l) d). now apply in_map. }
    apply in_map_iff in Hin as (y & E & Hy). rewrite <- E. auto.
  - destruct d; cbn; [|now rewrite Hu, Hb].
    apply andb_true_intro. split.
    + rewrite map_app. cbn.
      assert (l_id (new_like k i a (next_id s)) = next_id s) as -> by now destruct k.
      clear Hb. induction (likes s) as [|x ls IH]; cbn in *; [reflexivity|].
      apply andb_prop in Hu as [Hx Hu]. apply orb_false_elim in Hfresh as [F1 F2].
      rewrite IH by assumption. rewrite andb_true_r.
      apply negb_true_iff in Hx. apply negb_true_iff.
      rewrite existsb_app. cbn. rewrite orb_false_r.
      apply orb_false_intro; [exact Hx|now rewrite N.eqb_sym].
    + rewrite forallb_app. cbn.
      assert (l_id (new_like k i a (next_id s)) = next_id s) as -> by now destruct k.
      rewrite andb_true_r. apply andb_true_intro. split.
      * rewrite forallb_forall in *. intros x Hx. apply Hb in Hx.
        apply N.ltb_lt in Hx. apply N.ltb_lt. lia.
      * apply N.ltb_lt. lia.
Qed.

Lemma toggle_outcome_frame (k : TargetKind) (i a : ObjectId) (d : bool) (s : Store) :
  let s' := snd (toggle_outcome k i a d s) in
  users s' = users s /\ videos s' = videos s /\ tweets s' = tweets s
  /\ comments s' = comments s /\ subscriptions s' = subscriptions s.
Proof.
  unfold toggle_outcome. destruct (find _ _); [|destruct d]; cbn; auto.
Qed.


(** C3. Asking to remove a like ([toggleLike = false]) when the account has
    no Like row for the target fails with the error [No like exists to
    remove.] and leaves the store as it was, for each of the three kinds. *)
Theorem unlike_without_row_fails
  (k : TargetKind) (req : Request) (s : Store) (u : User) (i : ObjectId) :
  session_of env req s = Some u ->
  castObjectId env (param req (target_param k)) = Some i ->
  target_exists k i s = true ->
  pair_rows k i (u_id u) (likes s) = [] ->
  toggle_route env k (set_body req (toggle_body false)) s
  = (respond 400 (BodyMessageError "Unable to toggle the like"
                                   "No like exists to remove."), s).
Proof.
  intros Hs Hc Ht R.
  rewrite (toggle_route_run k req s u i false) by (auto; discriminate).
  unfold toggle_outcome. rewrite find_filter.
  fold (pair_rows k i (u_id u) (likes s)). now rewrite R.
Qed.

(** ** Owner-gated edit and delete *)

Lemma param_set_user (req : Request) (u : User) (name : string) :
  param (set_user req u) name = param req name.
Proof. reflexivity. Qed.

Lemma param_set_upload (req : Request) (fs : list (string * string))
  (b : list (string * JsValue)) (name : string) :
  param (set_upload req fs b) name = param req name.
Proof. reflexivity. Qed.

Ltac run_handler :=
  unfold route_handler, try_catch, route_try, route_catch,
    video_delete_try, video_edit_try, tweet_delete_try, tweet_edit_try,
    comment_delete_try, comment_edit_try, catch_json, bind, gets, throw_if, lift,
    cast_id, req_user_id, owner_toString, ret, throw, modify;
  cbn [user set_user set_upload fst snd is_none];
  rewrite ?param_set_upload, ?param_set_user.

(** The chain of an edit or delete route once the session is resolved. *)
Lemma gate_chain (k : TargetKind) (op : Operation) (req : Request) (s : Store)
  (u : User) :
  session_of env req s = Some u ->
  run_route env (owner_route k op) req s =
    match k, op with
    | KVideo, OpEdit =>
        match uploadMiddleware env [("thumbnail", 1)] (set_user req u) with
        | Return (fs, b) =>
            route_handler env VideoEdit (set_upload (set_user req u) fs b) s
        | Throw e => (respond 500 (BodyHtml (err_message e)), s)
        end
    | _, _ => route_handler env (owner_route k op) (set_user req u) s
    end.
Proof.
  intros Hs. apply session_of_inv in Hs as [Ha _].
  destruct k, op; unfold run_route; cbn [owner_route route_auth route_upload];
    unfold protect, with_upload; rewrite Ha; reflexivity.
Qed.

Lemma gate_not_found (k : TargetKind) (op : Operation) (req : Request)
  (s : Store) (u : User) (i : ObjectId) :
  session_of env req s = Some u ->
  castObjectId env (param req (target_param k)) = Some i ->
  upload_passes env (owner_route k op) (set_user req u) = true ->
  resource_owner k i s = None ->
  run_route env (owner_route k op) req s
  = (respond (if match k, op with KVideo, OpDelete => true | _, _ => false end
              then 500 else 400)
             (BodyMessageError (failure_label k op) (not_found_message k)), s).
Proof.
  intros Hs Hc Hup Hr. rewrite (gate_chain k op req s u Hs).
  apply session_of_inv in Hs as [_ Hf].
  destruct k, op; cbn [owner_route target_param resource_owner upload_passes
                         route_upload] in *;
    try (destruct (uploadMiddleware env _ _) as [[fs b]|e]; [|discriminate]);
    run_handler; rewrite ?Hf; cbn; rewrite Hc; cbn;
    (destruct (findById _ i _); [discriminate|]); reflexivity.
Qed.

Lemma gate_unauthorized (k : TargetKind) (op : Operation) (req : Request)
  (s : Store) (u : User) (i o : ObjectId) :
  session_of env req s = Some u ->
  castObjectId env (param req (target_param k)) = Some i ->
  upload_passes env (owner_route k op) (set_user req u) = true ->
  resource_owner k i s = Some (Some o) ->
  o <> u_id u ->
  run_route env (owner_route k op) req s
  = (respond (if match k, op with KVideo, OpDelete => true | _, _ => false end
              then 500 else 400)
             (BodyMessageError (failure_label k op) (unauthorized_message k op)), s).
Proof.
  intros Hs Hc Hup Hr Hne. rewrite (gate_chain k op req s u Hs).
  apply session_of_inv in Hs as [_ Hf].
  apply N.eqb_neq in Hne.
  destruct k, op; cbn [owner_route target_param resource_owner upload_passes
                         route_upload] in *;
    try (destruct (uploadMiddleware env _ _) as [[fs b]|e]; [|discriminate]);
    run_handler; rewrite ?Hf; cbn; rewrite Hc; cbn;
    (destruct (findById _ i _) as [d|]; [|discriminate]);
    cbn in Hr; injection Hr as Hr; try rewrite Hr; cbn; rewrite ?Hr, Hne;
    reflexivity.
Qed.

(** Whatever the request, the store only changes when the resource exists and
    is owned by the requester. *)
Lemma gate_mutation (k : TargetKind) (op : Operation) (req : Request)
  (s : Store) (u : User) (i : ObjectId) :
  session_of env req s = Some u ->
  castObjectId env (param req (target_param k)) = Some i ->
  snd (run_route env (owner_route k op) req s) <> s ->
  resource_owner k i s = Some (Some (u_id u)).
Proof.
  intros Hs Hc Hmut.
  destruct (upload_passes env (owner_route k op) (set_user req u)) eqn:Hup.
  - destruct (resource_owner k i s) as [[o|]|] eqn:Hr.
    + destruct (N.eq_dec o (u_id u)) as [->|Hne]; [reflexivity|].
      exfalso. apply Hmut.
      now rewrite (gate_unauthorized k op req s u i o).
    + exfalso. apply Hmut. rewrite (gate_chain k op req s u Hs).
      apply session_of_inv in Hs as [_ Hf].
      destruct k, op; cbn [owner_route target_param resource_owner upload_passes
                             route_upload] in *;
        try (destruct (uploadMiddleware env _ _) as [[fs b]|e]; [|discriminate]);
        try (destruct (findById _ i _); discriminate);
        run_handler; rewrite ?Hf; cbn; rewrite Hc; cbn;
        (destruct (findById _ i _) as [d|]; [|discriminate]);
        cbn in Hr; injection Hr as Hr; rewrite Hr; reflexivity.
    + exfalso. apply Hmut. now rewrite (gate_not_found k op req s u i).
  - exfalso. apply Hmut. rewrite (gate_chain k op req s u Hs).
    destruct k, op; cbn [owner_route upload_passes route_upload] in *;
      try discriminate.
    destruct (uploadMiddleware env _ _) as [[fs b]|e]; [discriminate|reflexivity].
Qed.

(** C4. On every edit or delete route of videos, tweets and comments: a
    missing resource is answered with the not-found error whoever asks, so
    before any ownership is looked at; an existing resource whose owner
    reference differs from the requester is answered with the unauthorized
    error and the store is left as it was; and the store changes only on a
    request of the owner. *)
Theorem owner_gate
  (k : TargetKind) (op : Operation) (req : Request) (s : Store) (u : User)
  (i : ObjectId) :
  session_of env req s = Some u ->
  castObjectId env (param req (target_param k)) = Some i ->
  let res := run_route env (owner_route k op) req s in
  (upload_passes env (owner_route k op) (set_user req u) = true ->
   resource_owner k i s = None ->
   resbody (fst res) = BodyMessageError (failure_label k op) (not_found_message k)
   /\ snd res = s)
  /\ (forall o,
        upload_passes env (owner_route k op) (set_user req u) = true ->
        resource_owner k i s = Some (Some o) ->
        o <> u_id u ->
        resbody (fst res)
        = BodyMessageError (failure_label k op) (unauthorized_message k op)
        /\ snd res = s)
  /\ (snd res <> s -> resource_owner k i s = Some (Some (u_id u))).
Proof.
  intros Hs Hc res. unfold res. split; [|split].
  - intros Hup Hr. now rewrite (gate_not_found k op req s u i).
  - intros o Hup Hr Hne. now rewrite (gate_unauthorized k op req s u i o).
  - now apply gate_mutation.
Qed.

(** ** Session resolution failures *)

Lemma protect_rejects (handler : Handler) (req : Request) (s : Store) (e : JsError) :
  authenticateUser_try env req s = (Throw e, s) ->
  protect env handler req s
  = (respond 401 (BodyAuthFailure (auth_error_message e)), s).
Proof. intros H. unfold protect, authenticateUser. now rewrite H. Qed.

(** C8. A request is answered 401 by [authenticateUser], and the handler
    behind it is not run, when the session cookie is absent, when the token
    does not verify (bad signature), when it is expired, and when the account
    it names is no longer stored. *)
Theorem authenticateUser_rejects (handler : Handler) (req : Request) (s : Store) :
  let token := match assoc cookie_name (cookies req) with
               | Some t => t
               | None => ""
               end in
  let rejected msg :=
    protect env handler req s = (respond 401 (BodyAuthFailure msg), s) in
  (token = "" -> rejected "Authentication failed. Please try again.")
  /\ (forall e,
        token <> "" ->
        jwt_verify env token (secretKey env) = Throw e ->
        err_name e = "JsonWebTokenError" ->
        rejected "Invalid authentication token")
  /\ (forall e,
        token <> "" ->
        jwt_verify env token (secretKey env) = Throw e ->
        err_name e = "TokenExpiredError" ->
        rejected "Session expired. Please log in again.")
  /\ (forall p i,
        token <> "" ->
        jwt_verify env token (secretKey env) = Return p ->
        castObjectId env p = Some i ->
        findById u_id i (users s) = None ->
        rejected "Authentication failed. Please try again.").
Proof.
  intros token rejected. unfold rejected.
  split; [|split; [|split]].
  - intros E.
    rewrite (protect_rejects handler req s (Error "Authentication required pls login"));
      [reflexivity|].
    unfold authenticateUser_try, bind, throw_if. fold token. now rewrite E.
  - intros e Hne Hv Hn.
    rewrite (protect_rejects handler req s e).
    + unfold auth_error_message. now rewrite Hn.
    + unfold authenticateUser_try, bind, throw_if, lift. fold token.
      apply String.eqb_neq in Hne. rewrite Hne. cbn. now rewrite Hv.
  - intros e Hne Hv Hn.
    rewrite (protect_rejects handler req s e).
    + unfold auth_error_message. now rewrite Hn.
    + unfold authenticateUser_try, bind, throw_if, lift. fold token.
      apply String.eqb_neq in Hne. rewrite Hne. cbn. now rewrite Hv.
  - intros p i Hne Hv Hc Hf.
    rewrite (protect_rejects handler req s
               (Error "User Account Not Found. Pls Register")); [reflexivity|].
    unfold authenticateUser_try, bind, throw_if, lift, cast_id, gets. fold token.
    apply String.eqb_neq in Hne. rewrite Hne. cbn. rewrite Hv. cbn.
    rewrite Hc. cbn. now rewrite Hf.
Qed.

(** ** Channel view *)

Lemma channel_view_run (req : Request) (s : Store) :
  trim (param req "username") <> "" ->
  channel_pipeline (option_map u_id (user req)) (toLowerCase (param req "username")) s
  <> [] ->
  channel_view req s
  = (respond 200
       (BodyChannels
          (channel_pipeline (option_map u_id (user req))
                            (toLowerCase (param req "username")) s)), s).
Proof.
  intros Ht Hc. unfold channel_view, try_catch, channel_view_try, bind, throw_if, gets.
  apply String.eqb_neq in Ht. rewrite Ht. cbn.
  destruct (channel_pipeline _ _ s); [contradiction|reflexivity].
Qed.

(** C9. The channel view is registered without [authenticateUser] and its
    projection keeps [email]: whoever asks for an existing handle, with or
    without a session cookie, is sent the e-mail address of the account. *)
Theorem channel_view_exposes_email (h : HttpRequest) (s : Store) (u : User) :
  In u (users s) ->
  username u = toLowerCase (param (express_request h) "username") ->
  trim (param (express_request h) "username") <> "" ->
  route_auth UserChannel = false
  /\ exists l c,
       serve env UserChannel h s = (respond 200 (BodyChannels l), s)
       /\ In c l /\ ch_id c = u_id u /\ ch_email c = email u.
Proof.
  intros Hin Hn Ht. split; [reflexivity|].
  set (req := express_request h) in *.
  set (l := channel_pipeline (option_map u_id (user req))
                             (toLowerCase (param req "username")) s).
  assert (Hc : exists c, In c l /\ ch_id c = u_id u /\ ch_email c = email u).
  { unfold l, channel_pipeline.
    eexists. split; [|split].
    - apply in_map_iff. exists u. split; [reflexivity|].
      apply filter_In. split; [assumption|]. rewrite Hn. apply String.eqb_refl.
    - reflexivity.
    - reflexivity. }
  destruct Hc as (c & Hc & Hid & Hem).
  exists l, c. split; [|auto].
  change (serve env UserChannel h s) with (channel_view req s).
  apply channel_view_run; [assumption|].
  intros E. fold l in E. rewrite E in Hc. contradiction.
Qed.

Lemma channel_pipeline_no_viewer (name : string) (s : Store) :
  Forall (fun c => isSubscribed c = false) (channel_pipeline None name s).
Proof.
  unfold channel_pipeline. apply Forall_forall. intros c Hc.
  apply in_map_iff in Hc as (u & <- & _). reflexivity.
Qed.

(** The route never resolves the session: whatever cookie a request carries,
    every channel it is sent has [isSubscribed = false]. *)
Lemma channel_view_never_subscribed (h : HttpRequest) (s : Store) (l : list ChannelView) :
  fst (serve env UserChannel h s) = respond 200 (BodyChannels l) ->
  Forall (fun c => isSubscribed c = false) l.
Proof.
  change (serve env UserChannel h s) with (channel_view (express_request h) s).
  unfold channel_view, try_catch, channel_view_try, bind, throw_if, gets.
  destruct (trim _ =? "")%string; cbn; [discriminate|].
  destruct (channel_pipeline _ _ s) eqn:E; cbn; [discriminate|].
  intros H. injection H as <-. rewrite <- E. apply channel_pipeline_no_viewer.
Qed.

(** The history route has no [authenticateUser] either, and its handler
    reads [req.user._id]: every request is answered with the TypeError. *)
Lemma history_route_always_fails (h : HttpRequest) (s : Store) :
  serve env UserHistory h s
  = (respond 400
       (BodyText ("Unable to fetch the watch History :: ERROR : "
                  ++ "Cannot read properties of undefined (reading '_id')")), s).
Proof. reflexivity. Qed.

(** ** Status codes *)

Lemma rs_ret (P : Z -> Prop) (r : Response) :
  P (status r) -> returns_status P (ret r).
Proof. intros H s r' s' E. injection E as <- _. exact H. Qed.

Lemma rs_throw (P : Z -> Prop) (e : JsError) : returns_status P (throw e).
Proof. intros s r s' E. discriminate. Qed.

Lemma rs_bind {A} (P : Z -> Prop) (m : Async A) (k : A -> Async Response) :
  (forall a, returns_status P (k a)) -> returns_status P (bind m k).
Proof.
  intros H s r s' E. unfold bind in E.
  destruct (m s) as [[a|e] s1]; [|discriminate]. exact (H a s1 r s' E).
Qed.

Ltac rs_step :=
  first
    [ apply rs_throw
    | apply rs_ret; cbn; unfold success_status; auto
    | apply rs_bind; intros
    | match goal with
      | |- returns_status _ (match ?x with _ => _ end) => destruct x
      end ].

Lemma route_try_success (r : Route) (req : Request) :
  returns_status success_status (route_try env r req).
Proof.
  destruct r; cbn [route_try];
    unfold register_try, register_rest, login_try, login_rest, logout_try,
      profile_view_try, delete_account_try, edit_avatar_try, edit_coverImage_try,
      edit_password_try, history_try, channel_view_try, video_upload_try,
      video_list_try, video_view_try, video_delete_try, video_edit_try,
      video_comment_try, video_toggle_like_try, tweet_upload_try, tweet_list_try,
      tweet_delete_try, tweet_edit_try, tweet_toggle_like_try, comment_delete_try,
      comment_edit_try, comment_toggle_like_try;
    cbv zeta; repeat rs_step.
Qed.

Lemma route_catch_status (r : Route) (e : JsError) :
  status (route_catch r e) = 400%Z \/ status (route_catch r e) = 500%Z.
Proof. destruct r; cbn; auto. Qed.

Lemma route_handler_status (r : Route) (req : Request) (s : Store) :
  status (fst (route_handler env r req s)) <> 401%Z.
Proof.
  unfold route_handler, try_catch.
  destruct (route_try env r req s) as [[res|e] s'] eqn:E; cbn [fst].
  - destruct (route_try_success r req s res s' E) as [-> | ->]; discriminate.
  - destruct (route_catch_status r e) as [-> | ->]; discriminate.
Qed.

Lemma authenticateUser_next (req req' : Request) (s s' : Store) :
  authenticateUser env req s = (Next req', s') -> exists u, user req' = Some u.
Proof.
  unfold authenticateUser, authenticateUser_try, bind, throw_if, lift, cast_id, gets.
  destruct (_ =? "")%string; cbn; [discriminate|].
  destruct (jwt_verify env _ _); cbn; [|discriminate].
  destruct (castObjectId env a); cbn; [|discriminate].
  destruct (findById u_id o (users s)) as [u|]; cbn; [|discriminate].
  intros H. injection H as <- _. now exists u.
Qed.

Lemma unauthorized_status (r : Route) (req : Request) (s : Store) :
  status (fst (run_route env r req s)) = 401%Z
  <-> route_auth r = true /\ session_of env req s = None.
Proof.
  assert (Hh : forall q st,
             status (fst (match route_upload r with
                          | Some spec => with_upload env spec (route_handler env r)
                          | None => route_handler env r
                          end q st)) <> 401%Z).
  { intros q st. destruct (route_upload r); [|apply route_handler_status].
    unfold with_upload. destruct (uploadMiddleware env l q) as [[fs b]|e].
    - apply route_handler_status.
    - discriminate. }
  unfold run_route, session_of. destruct (route_auth r).
  - unfold protect.
    destruct (authenticateUser env req s) as [[req'|res] s'] eqn:A.
    + destruct (authenticateUser_next req req' s s' A) as [u Hu]. rewrite Hu.
      split; [intros H; now apply Hh in H|intros [_ H]; discriminate].
    + split; [auto|intros _].
      unfold authenticateUser in A.
      destruct (authenticateUser_try env req s) as [[?|?] ?]; [discriminate|].
      injection A as <- _. reflexivity.
  - split; [intros H; now apply Hh in H|intros [H _]; discriminate].
Qed.

(** C7 (amended). A failure raised in a handler of the video, tweet and
    comment routes is answered with the structured [{ message, error }] pair,
    with status 400 on each of them but the video delete route, whose status
    is left open here; a failure raised in a handler of the user and auth
    routes is answered with status 400 and a plain-text body, or an
    [{ error }] object for the password change; and a response has status 401
    exactly when the route has the session middleware and the session does
    not resolve. *)
Theorem failure_responses (r : Route) :
  (forall req s s' e,
      route_try env r req s = (Throw e, s') ->
      let res := route_handler env r req s in
      snd res = s'
      /\ (structured_route r = true ->
          (exists label, resbody (fst res) = BodyMessageError label (err_message e))
          /\ (r <> VideoDelete -> status (fst res) = 400%Z))
      /\ (structured_route r = false ->
          status (fst res) = 400%Z
          /\ exists prefix,
               resbody (fst res) = BodyText (prefix ++ err_message e)
               \/ resbody (fst res) = BodyError (prefix ++ err_message e)))
  /\ (forall h s,
        status (fst (serve env r h s)) = 401%Z
        <-> route_auth r = true /\ session_of env (express_request h) s = None).
Proof.
  split.
  - intros req s s' e E res. unfold res, route_handler, try_catch. rewrite E.
    cbn [fst snd]. split; [reflexivity|]. split.
    + intros Hr. split.
      * destruct r; try discriminate; cbn; eexists; reflexivity.
      * intros Hne. destruct r; try discriminate; try reflexivity. contradiction.
    + intros Hr.
      destruct r; try discriminate;
        try (exfalso; cbn in E; discriminate);
        unfold route_catch, catch_text, edit_password_catch, respond;
        cbn [status resbody];
        (split; [reflexivity|eexists; first [left; reflexivity|right; reflexivity]]).
  - intros h s. apply unauthorized_status.
Qed.

(** ** Storage-level uniqueness *)

Lemma same_key_subscription (subs : list Subscription) (e : Subscription) :
  existsb (same_key SubscriptionSchema (mkIndex ["subscriber"; "channel"] true) e) subs
  = existsb (fun x => (subscriber e =? subscriber x)%N && (channel e =? channel x)%N)
            subs.
Proof.
  induction subs as [|x subs IH]; cbn; [reflexivity|].
  rewrite IH. unfold same_key. cbn. now rewrite andb_true_r.
Qed.

Lemma same_id_subscription (subs : list Subscription) (e : Subscription) :
  existsb (same_key SubscriptionSchema (mkIndex ["_id"] true) e) subs
  = existsb (fun x => (s_id e =? s_id x)%N) subs.
Proof.
  induction subs as [|x subs IH]; cbn; [reflexivity|].
  rewrite IH. unfold same_key. cbn. now rewrite andb_true_r.
Qed.

(** C2 (amended). Of the two collections only subscriptions carries a
    compound uniqueness constraint at the storage layer: the unique index on
    (subscriber, channel), by which the store itself rejects a second edge for
    a pair.  The likes collection declares only non-unique single-field
    indexes, so the store accepts any Like row with a fresh [_id], whatever
    rows are stored; one row per (account, target) is kept by the handlers'
    check-then-write alone. *)
Theorem storage_uniqueness :
  In (mkIndex ["subscriber"; "channel"] true) (sch_indexes SubscriptionSchema)
  /\ (forall subs e,
        existsb (fun x => (subscriber e =? subscriber x)%N
                          && (channel e =? channel x)%N) subs = true ->
        exists err, insertOne SubscriptionSchema subs e = Throw err)
  /\ (forall subs e,
        existsb (fun x => (subscriber e =? subscriber x)%N
                          && (channel e =? channel x)%N) subs = false ->
        existsb (fun x => (s_id e =? s_id x)%N) subs = false ->
        insertOne SubscriptionSchema subs e = Return (subs ++ [e])%list)
  /\ forallb (fun ix => negb (ix_unique ix)) (sch_indexes LikeSchema) = true
  /\ (forall ls l,
        existsb (fun x => (l_id l =? l_id x)%N) ls = false ->
        insertOne LikeSchema ls l = Return (ls ++ [l])%list).
Proof.
  split; [now left|]. split; [|split; [|split]].
  - intros subs e H. unfold insertOne, duplicate_key, all_indexes.
    cbn [existsb SubscriptionSchema sch_indexes ix_unique andb].
    rewrite same_key_subscription, H, orb_true_r. cbn. eexists. reflexivity.
  - intros subs e H1 H2. unfold insertOne, duplicate_key, all_indexes.
    cbn [existsb SubscriptionSchema sch_indexes ix_unique andb].
    now rewrite same_key_subscription, same_id_subscription, H1, H2.
  - reflexivity.
  - apply insertOne_like.
Qed.

(** ** The required-fields check of registration and login *)

Lemma some_blank_true (fields : list JsValue) :
  some_blank fields = Return true ->
  exists s, In (JsString s) fields /\ trim s = "".
Proof.
  induction fields as [|f fields IH]; cbn; [discriminate|].
  destruct f; cbn; try discriminate;
    try (intros H; destruct (IH H) as (x & Hx & Ex); exists x; now auto).
  destruct (trim s =? "")%string eqn:E.
  - intros _. exists s. split; [now left|]. now apply String.eqb_eq.
  - intros H. destruct (IH H) as (x & Hx & Ex). exists x. now auto.
Qed.

Lemma some_blank_false (fields : list JsValue) :
  Forall (fun f => f = JsUndefined \/ exists s, f = JsString s /\ trim s <> "") fields ->
  some_blank fields = Return false.
Proof.
  induction 1 as [|f fields Hf _ IH]; cbn; [reflexivity|].
  destruct Hf as [-> | (s & -> & Hs)]; cbn; [exact IH|].
  apply String.eqb_neq in Hs. now rewrite Hs.
Qed.

(** C10. The [All fields are required] check of registration and login
    rejects only when some supplied field is a string that trims to the empty
    string; a field that is absent from the body passes it, and the handler
    then goes on to its later steps. *)
Theorem required_fields_check :
  (forall fields,
      some_blank fields = Return true ->
      exists s, In (JsString s) fields /\ trim s = "")
  /\ (forall fields,
        Forall (fun f => f = JsUndefined \/ exists s, f = JsString s /\ trim s <> "")
               fields ->
        some_blank fields = Return false)
  /\ (forall req s,
        some_blank [field req "username"; field req "email"; field req "password"]
        = Return true ->
        route_handler env AuthRegister req s
        = (respond 400 (BodyText "Unable to register the user. Error: All fields are required"), s))
  /\ (forall req s,
        some_blank [field req "email"; field req "password"] = Return true ->
        route_handler env AuthLogin req s
        = (respond 400 (BodyText "Unable to logged in the user :: ERROR : All fields are required"), s))
  /\ (forall req s,
        some_blank [field req "username"; field req "email"; field req "password"]
        = Return false ->
        register_try env req s = register_rest env req s)
  /\ (forall req s,
        some_blank [field req "email"; field req "password"] = Return false ->
        login_try env req s = login_rest env req s)
  /\ (forall req s,
        body req = [] ->
        register_try env req s = register_rest env req s
        /\ login_try env req s = login_rest env req s).
Proof.
  split; [exact some_blank_true|]. split; [exact some_blank_false|].
  split; [|split; [|split; [|split]]].
  - intros req s H. unfold route_handler, try_catch. cbn [route_try route_catch].
    unfold register_try, bind, lift, throw_if. now rewrite H.
  - intros req s H. unfold route_handler, try_catch. cbn [route_try route_catch].
    unfold login_try, bind, lift, throw_if. now rewrite H.
  - intros req s H. unfold register_try, bind, lift, throw_if. now rewrite H.
  - intros req s H. unfold login_try, bind, lift, throw_if. now rewrite H.
  - intros req s Hb. unfold register_try, login_try, bind, lift, throw_if, field.
    rewrite Hb. cbn. split; reflexivity.
Qed.

End Properties.


Lemma unlike_without_row_fails_witness :
  toggle_route demo_env KTweet (set_body bob_request (toggle_body false)) demo_store
  = (respond 400 (BodyMessageError "Unable to toggle the like"
                                   "No like exists to remove."), demo_store).
Proof.
  apply (unlike_without_row_fails demo_env KTweet bob_request demo_store bob 20%N);
    reflexivity.
Defined.

(** ** The properties on the concrete store *)

Lemma owner_gate_witness :
  let res := run_route demo_env (owner_route KVideo OpDelete) bob_request demo_store in
  resbody (fst res)
  = BodyMessageError "Unable to delete the video."
                     "Unauthorized: Only the owner can delete this video."
  /\ snd res = demo_store.
Proof.
  apply (proj1 (proj2 (owner_gate demo_env KVideo OpDelete bob_request demo_store bob
                         10%N eq_refl eq_refl)) 1%N eq_refl eq_refl).
  discriminate.
Defined.

Lemma authenticateUser_rejects_witness :
  protect demo_env (video_delete demo_env)
          (mkRequest [("yt-Token", "v:7")] [("videoId", "10")] [] None None) demo_store
  = (respond 401 (BodyAuthFailure "Authentication failed. Please try again."),
     demo_store).
Proof.
  apply (proj2 (proj2 (proj2
           (authenticateUser_rejects demo_env (video_delete demo_env)
              (mkRequest [("yt-Token", "v:7")] [("videoId", "10")] [] None None)
              demo_store))) "7" 7%N);
    [discriminate|reflexivity|reflexivity|reflexivity].
Defined.

Lemma channel_view_exposes_email_witness :
  route_auth UserChannel = false
  /\ exists l c,
       serve demo_env UserChannel (mkHttpRequest [] [("username", "Alice")] []) demo_store
       = (respond 200 (BodyChannels l), demo_store)
       /\ In c l /\ ch_id c = u_id alice /\ ch_email c = email alice.
Proof.
  apply (channel_view_exposes_email demo_env
           (mkHttpRequest [] [("username", "Alice")] []) demo_store alice).
  - now left.
  - reflexivity.
  - discriminate.
Defined.

(** C5, at a request of a follower.  Bob's cookie resolves to his account and
    the edge bob -> alice is stored, yet the channel view of alice answers
    [isSubscribed = false]: the route runs no session resolution, so the
    viewer is always undefined. *)
Theorem channel_view_ignores_session :
  session_of demo_env (express_request bob_http) demo_store = Some bob
  /\ existsb (fun e => (subscriber e =? u_id bob)%N && (channel e =? u_id alice)%N)
             (subscriptions demo_store) = true
  /\ exists c,
       serve demo_env UserChannel bob_http demo_store
       = (respond 200 (BodyChannels [c]), demo_store)
       /\ ch_id c = u_id alice /\ subscribersCount c = 1 /\ isSubscribed c = false.
Proof.
  split; [reflexivity|]. split; [reflexivity|].
  eexists. split; [reflexivity|]. cbn. auto.
Qed.

(** C6, at a request of an account with a watch history.  Alice's cookie
    resolves to her account, whose [watchHistory] lists video 11, video 10 and
    video 11 again, all of them stored; yet the history view answers 400 with
    the TypeError of [req.user._id] and returns no record at all.  The route
    runs no session resolution, so the requesting account is never resolved:
    no request on any store is answered with a history, in any order. *)
Theorem history_view_never_resolves_account :
  session_of demo_env (express_request alice_http) demo_store = Some alice
  /\ watchHistory alice = [11; 10; 11]%N
  /\ forallb (fun i => existsb (fun v => (v_id v =? i)%N) (videos demo_store))
             (watchHistory alice) = true
  /\ route_auth UserHistory = false
  /\ serve demo_env UserHistory alice_http demo_store
     = (respond 400
          (BodyText ("Unable to fetch the watch History :: ERROR : "
                     ++ "Cannot read properties of undefined (reading '_id')")),
        demo_store)
  /\ forall (env : Env) (h : HttpRequest) (s : Store) (l : list HistoryEntry),
       fst (serve env UserHistory h s) <> respond 200 (BodyHistory l).
Proof.
  split; [reflexivity|]. split; [reflexivity|]. split; [reflexivity|].
  split; [reflexivity|]. split; [reflexivity|].
  intros env h s l. rewrite history_route_always_fails. cbn [fst]. discriminate.
Qed.

(** C7, as stated, fails: an unknown handle is answered by the channel view
    with a plain-text body, not the [{ message, error }] pair; and a missing
    video is answered by the video delete route with status 500. *)
Lemma failure_shape_counterexample :
  (let res := fst (serve demo_env UserChannel
                         (mkHttpRequest [] [("username", "nobody")] []) demo_store) in
   status res = 400%Z
   /\ resbody res
      = BodyText "Unable to fetch the channel Details :: ERROR : Channel not found."
   /\ forall m e, resbody res <> BodyMessageError m e)
  /\ (let res := fst (serve demo_env VideoDelete
                            (mkHttpRequest [("yt-Token", "v:2")] [("videoId", "99")] [])
                            demo_store) in
      status res = 500%Z
      /\ resbody res = BodyMessageError "Unable to delete the video." "Video not found.").
Proof.
  split.
  - cbv zeta. split; [reflexivity|]. split; [reflexivity|]. intros m e. discriminate.
  - split; reflexivity.
Qed.

Lemma failure_responses_witness :
  status (fst (serve demo_env TweetDelete
                     (mkHttpRequest [] [("tweetId", "20")] []) demo_store)) = 401%Z.
Proof.
  apply (proj2 (failure_responses demo_env TweetDelete)). split; reflexivity.
Defined.

(** C2, as stated, fails: the store accepts a second Like row of the same
    account for the same video; two requests that both found no row and both
    go on to create one leave two rows for the pair. *)
Lemma like_duplicate_counterexample :
  insertOne LikeSchema [like_a] like_b = Return [like_a; like_b]
  /\ likedBy like_a = likedBy like_b /\ l_video like_a = l_video like_b
  /\ List.length (pair_rows KVideo 10 2 [like_a; like_b]) = 2
  /\ List.length
       (pair_rows KVideo 10 2
          (likes (snd ((i1 <- fresh_id ;;
                        _ <- insert_like (new_like KVideo 10 2 i1) ;;
                        i2 <- fresh_id ;;
                        insert_like (new_like KVideo 10 2 i2)) demo_store)))) = 2.
Proof. repeat split. Qed.

Lemma storage_uniqueness_witness :
  exists err,
    insertOne SubscriptionSchema (subscriptions demo_store) (mkSubscription 41 2 1)
    = Throw err.
Proof.
  apply (proj1 (proj2 storage_uniqueness)). reflexivity.
Defined.

Lemma required_fields_check_witness :
  register_try demo_env (mkRequest [] [] [] None None) demo_store
  = register_rest demo_env (mkRequest [] [] [] None None) demo_store.
Proof.
  apply (proj2 (proj2 (proj2 (proj2 (proj2 (proj2 (required_fields_check demo_env))))))).
  reflexivity.
Defined.

(** * Further properties of the routes *)

Section FurtherProperties.

Variable env : Env.

(** ** What a computation leaves alone *)

Lemma keeps_ret {A B} (f : Store -> A) (b : B) : keeps f (ret b).
Proof. intros s o s' E. now injection E as _ <-. Qed.

Lemma keeps_throw {A B} (f : Store -> A) (e : JsError) : keeps f (@throw B e).
Proof. intros s o s' E. now injection E as _ <-. Qed.

Lemma keeps_lift {A B} (f : Store -> A) (x : Outcome B) : keeps f (lift x).
Proof. intros s o s' E. now injection E as _ <-. Qed.

Lemma keeps_gets {A B} (f : Store -> A) (g : Store -> B) : keeps f (gets g).
Proof. intros s o s' E. now injection E as _ <-. Qed.

Lemma keeps_throw_if {A} (f : Store -> A) (c : bool) (msg : string) :
  keeps f (throw_if c msg).
Proof. destruct c; [apply keeps_throw|apply keeps_ret]. Qed.

Lemma keeps_modify {A} (f : Store -> A) (g : Store -> Store) :
  (forall s, f (g s) = f s) -> keeps f (modify g).
Proof. intros H s o s' E. injection E as _ <-. apply H. Qed.

Lemma keeps_fresh_id {A} (f : Store -> A) :
  (forall s n, f (set_next_id s n) = f s) -> keeps f fresh_id.
Proof. intros H s o s' E. injection E as _ <-. apply H. Qed.

Lemma keeps_bind {A B C} (f : Store -> A) (m : Async B) (k : B -> Async C) :
  keeps f m -> (forall b, keeps f (k b)) -> keeps f (bind m k).
Proof.
  intros Hm Hk s o s' E. unfold bind in E.
  destruct (m s) as [[b|e] s1] eqn:M.
  - rewrite (Hk b s1 o s' E). exact (Hm s _ s1 M).
  - injection E as _ <-. exact (Hm s _ s1 M).
Qed.

Ltac keeps_step :=
  first
    [ apply keeps_throw
    | apply keeps_ret
    | apply keeps_lift
    | apply keeps_gets
    | apply keeps_throw_if
    | apply keeps_modify; intros; reflexivity
    | apply keeps_fresh_id; intros; reflexivity
    | apply keeps_bind; [ | intros ]
    | match goal with
      | |- keeps _ (match ?x with _ => _ end) => destruct x
      end ].

Ltac unfold_routes :=
  unfold register_try, register_rest, login_try, login_rest, logout_try,
    profile_view_try, delete_account_try, edit_avatar_try, edit_coverImage_try,
    edit_password_try, history_try, channel_view_try, video_upload_try,
    video_list_try, video_view_try, video_delete_try, video_edit_try,
    video_comment_try, video_toggle_like_try, tweet_upload_try, tweet_list_try,
    tweet_delete_try, tweet_edit_try, tweet_toggle_like_try, comment_delete_try,
    comment_edit_try, comment_toggle_like_try,
    insert_into, insert_like, save_isLiked, blank_content, getJWT, validatePassword,
    cast_id, req_user_id, owner_toString;
  cbv zeta.

(** The chain of a route adds no write to those of the handler's [try]. *)
Lemma run_route_keeps {A} (f : Store -> A) (r : Route) :
  (forall req, keeps f (route_try env r req)) ->
  forall req s, f (snd (run_route env r req s)) = f s.
Proof.
  intros H.
  assert (Hh : forall req s, f (snd (route_handler env r req s)) = f s).
  { intros req s. unfold route_handler, try_catch.
    destruct (route_try env r req s) as [[res|e] s'] eqn:E; cbn [snd];
      exact (H req s _ s' E). }
  assert (Hu : forall req s,
             f (snd (match route_upload r with
                     | Some spec => with_upload env spec (route_handler env r)
                     | None => route_handler env r
                     end req s)) = f s).
  { intros req s. destruct (route_upload r); [|apply Hh].
    unfold with_upload. destruct (uploadMiddleware env l req) as [[fs b]|e];
      [apply Hh|reflexivity]. }
  intros req s. unfold run_route. destruct (route_auth r); [|apply Hu].
  unfold protect.
  destruct (authenticateUser env req s) as [[req'|res] s'] eqn:Au;
    pose proof (authenticateUser_store env req s) as S; rewrite Au in S;
    cbn [snd] in S; subst s'; [apply Hu|reflexivity].
Qed.

Lemma route_try_frame (r : Route) (c : Collection) (req : Request) :
  writes r c = false ->
  match c with
  | CUsers => keeps users (route_try env r req)
  | CVideos => keeps videos (route_try env r req)
  | CTweets => keeps tweets (route_try env r req)
  | CComments => keeps comments (route_try env r req)
  | CLikes => keeps likes (route_try env r req)
  | CSubscriptions => keeps subscriptions (route_try env r req)
  end.
Proof.
  destruct r, c; cbn [writes route_try]; intros W; try discriminate W; clear W;
    unfold_routes; repeat keeps_step.
Qed.

(** X1. Each route writes at most the collection of its own router's
    resource: whatever the request, every other collection is left as it
    was.  No route writes the subscriptions, and no delete reaches into
    another collection. *)
Theorem route_frame (r : Route) (c : Collection) (req : Request) (s : Store) :
  writes r c = false ->
  same_collection c s (snd (run_route env r req s)).
Proof.
  intros W.
  destruct c; cbn [same_collection];
    apply run_route_keeps; intros q;
    [ exact (route_try_frame r CUsers q W)
    | exact (route_try_frame r CVideos q W)
    | exact (route_try_frame r CTweets q W)
    | exact (route_try_frame r CComments q W)
    | exact (route_try_frame r CLikes q W)
    | exact (route_try_frame r CSubscriptions q W) ].
Qed.

Lemma route_try_read_only (r : Route) (req : Request) :
  read_only r = true -> keeps (fun s => s) (route_try env r req).
Proof.
  destruct r; cbn [read_only route_try]; intros W; try discriminate W; clear W;
    unfold_routes; repeat keeps_step.
Qed.

(** X2. Login, logout, the profile view, the history and channel views and
    the video and tweet listings leave the whole store as it was, for every
    request. *)
Theorem read_only_routes (r : Route) (req : Request) (s : Store) :
  read_only r = true -> snd (run_route env r req s) = s.
Proof.
  intros W.
  apply (run_route_keeps (fun s => s) r (fun q => route_try_read_only r q W)).
Qed.

Lemma no_session_no_write (r : Route) (req : Request) (s : Store) :
  r <> AuthRegister ->
  session_of env req s = None ->
  snd (run_route env r req s) = s.
Proof.
  intros Hr Hs. destruct (route_auth r) eqn:A.
  - unfold run_route. rewrite A. unfold protect.
    destruct (authenticateUser env req s) as [[req'|res] s'] eqn:E;
      pose proof (authenticateUser_store env req s) as S; rewrite E in S;
      cbn [snd] in S; subst s'; [|reflexivity].
    exfalso. unfold session_of in Hs. rewrite E in Hs.
    destruct (authenticateUser_next env req req' s s E) as [u Hu]. congruence.
  - apply (run_route_keeps (fun s => s) r); intros q.
    apply route_try_read_only. destruct r; try discriminate A; try reflexivity.
    contradiction.
Qed.

(** X3. A request whose session does not resolve changes the store on no
    route but registration. *)
Theorem unauthenticated_writes_nothing (r : Route) (req : Request) (s : Store) :
  r <> AuthRegister ->
  session_of env req s = None ->
  snd (run_route env r req s) = s.
Proof. exact (no_session_no_write r req s). Qed.

(** ** The session middleware *)

Lemma session_of_eq (req : Request) (s : Store) :
  session_of env req s
  = match session_id env req with
    | Some i => findById u_id i (users s)
    | None => None
    end.
Proof.
  unfold session_of, session_id, authenticateUser, authenticateUser_try, bind,
    throw_if, lift, cast_id, gets.
  destruct (assoc cookie_name (cookies req)) as [token|]; [|reflexivity].
  destruct (token =? "")%string; cbn; [reflexivity|].
  destruct (jwt_verify env token (secretKey env)) as [p|e]; cbn; [|reflexivity].
  destruct (castObjectId env p) as [i|]; cbn; [|reflexivity].
  destruct (findById u_id i (users s)); reflexivity.
Qed.

Lemma findById_id {Doc} (id_of : Doc -> ObjectId) (i : ObjectId) (l : list Doc)
  (d : Doc) :
  findById id_of i l = Some d -> id_of d = i /\ In d l.
Proof.
  unfold findById. intros H. destruct (find_some _ _ H) as [Hin E].
  apply N.eqb_eq in E. auto.
Qed.

(** X4. [authenticateUser] never writes the store, and it lets a request
    through exactly when the cookie's token names a stored account; the
    handler then finds that stored document in [req.user] and the rest of the
    request as it came. *)
Theorem authenticateUser_passes_account (req : Request) (s : Store) :
  snd (authenticateUser env req s) = s
  /\ forall req',
       fst (authenticateUser env req s) = Next req'
       <-> exists u,
             req' = set_user req u
             /\ session_id env req = Some (u_id u)
             /\ findById u_id (u_id u) (users s) = Some u.
Proof.
  split; [apply authenticateUser_store|].
  intros req'. unfold session_id, authenticateUser, authenticateUser_try, bind,
    throw_if, lift, cast_id, gets.
  destruct (assoc cookie_name (cookies req)) as [token|]; cbn;
    [|split; [discriminate|intros (u & _ & H & _); discriminate]].
  destruct (token =? "")%string; cbn;
    [split; [discriminate|intros (u & _ & H & _); discriminate]|].
  destruct (jwt_verify env token (secretKey env)) as [p|e]; cbn;
    [|split; [discriminate|intros (u & _ & H & _); discriminate]].
  destruct (castObjectId env p) as [i|]; cbn;
    [|split; [discriminate|intros (u & _ & H & _); discriminate]].
  destruct (findById u_id i (users s)) as [u|] eqn:F; cbn.
  - destruct (findById_id _ _ _ _ F) as [E _]. split.
    + intros H. injection H as <-. exists u. rewrite E. auto.
    + intros (u' & -> & H & F'). injection H as H. rewrite <- H in F'.
      rewrite F in F'. now injection F' as ->.
  - split; [discriminate|].
    intros (u' & _ & H & F'). injection H as H. rewrite <- H in F'. congruence.
Qed.

(** ** Like toggles: refusals, repetition, and what they leave alone *)

Lemma toggle_route_session (k : TargetKind) (req : Request) (s : Store) (u : User) :
  session_of env req s = Some u ->
  toggle_route env k req s = toggle_like env k (set_user req u) s
  /\ findById u_id (u_id u) (users s) = Some u.
Proof.
  intros Hs. apply session_of_inv in Hs as [Ha Hf]. split; [|exact Hf].
  replace (toggle_route env k) with (protect env (toggle_like env k))
    by (destruct k; reflexivity).
  unfold protect. now rewrite Ha.
Qed.

Ltac run_toggle :=
  unfold comment_toggle_like, video_toggle_like, tweet_toggle_like, try_catch,
    comment_toggle_like_try, video_toggle_like_try, tweet_toggle_like_try,
    bind, req_user_id, gets, throw_if, cast_id, toggle_error, ret, throw;
  cbn [user set_user fst snd].

(** X5. A like toggle whose [toggleLike] is not a boolean (absent, a string
    such as "true", a number) is refused with the boolean message and writes
    nothing, on each of the three routes. *)
Theorem toggle_rejects_non_boolean
  (k : TargetKind) (req : Request) (s : Store) (u : User) (i : ObjectId) :
  session_of env req s = Some u ->
  castObjectId env (param req (target_param k)) = Some i ->
  target_exists k i s = true ->
  (forall b, field req "toggleLike" <> JsBool b) ->
  toggle_route env k req s
  = (respond 400 (BodyMessageError "Unable to toggle the like" not_boolean_message), s).
Proof.
  intros Hs Hc Ht Hb. destruct (toggle_route_session k req s u Hs) as [-> Hf].
  assert (Hfield : field (set_user req u) "toggleLike" = field req "toggleLike")
    by reflexivity.
  destruct k; cbn [toggle_like target_param target_exists] in *; run_toggle;
    rewrite Hf; cbn; rewrite param_set_user, Hc; cbn;
    (destruct (findById _ i _); [|discriminate]); cbn;
    rewrite Hfield;
    (destruct (field req "toggleLike") as [| |b| | |];
     try reflexivity; exfalso; now apply (Hb b)).
Qed.

(** X6. A like toggle on a target that is not stored is refused with
    [Unable to find the video], the same words for a comment and a tweet, and
    writes nothing, whatever the body. *)
Theorem toggle_missing_target
  (k : TargetKind) (req : Request) (s : Store) (u : User) (i : ObjectId) :
  session_of env req s = Some u ->
  castObjectId env (param req (target_param k)) = Some i ->
  target_exists k i s = false ->
  toggle_route env k req s
  = (respond 400 (BodyMessageError "Unable to toggle the like"
                                   "Unable to find the video"), s).
Proof.
  intros Hs Hc Ht. destruct (toggle_route_session k req s u Hs) as [-> Hf].
  destruct k; cbn [toggle_like target_param target_exists] in *; run_toggle;
    rewrite Hf; cbn; rewrite param_set_user, Hc; cbn;
    (destruct (findById _ i _); [discriminate|]); reflexivity.
Qed.

Lemma updateOne_absent {Doc} (id_of : Doc -> ObjectId) (j : ObjectId)
  (f : Doc -> Doc) (l : list Doc) :
  existsb (fun x => (j =? id_of x)%N) l = false -> updateOne id_of j f l = l.
Proof.
  induction l as [|x l IH]; cbn; [reflexivity|].
  intros H. apply orb_false_elim in H as [H1 H2].
  rewrite N.eqb_sym, H1. now rewrite IH.
Qed.

Lemma updateOne_app_new {Doc} (id_of : Doc -> ObjectId) (f : Doc -> Doc)
  (l : list Doc) (n : Doc) :
  existsb (fun x => (id_of n =? id_of x)%N) l = false ->
  updateOne id_of (id_of n) f (l ++ [n]) = (l ++ [f n])%list.
Proof.
  induction l as [|x l IH]; cbn.
  - intros _. now rewrite N.eqb_refl.
  - intros H. apply orb_false_elim in H as [H1 H2].
    rewrite N.eqb_sym, H1. now rewrite IH.
Qed.

Lemma updateOne_twice (j : ObjectId) (d : bool) (ls : list Like) :
  updateOne l_id j (fun x => set_isLiked x d)
            (updateOne l_id j (fun x => set_isLiked x d) ls)
  = updateOne l_id j (fun x => set_isLiked x d) ls.
Proof.
  induction ls as [|x ls IH]; cbn; [reflexivity|].
  destruct (l_id x =? j)%N eqn:E; cbn; rewrite E; [reflexivity|now rewrite IH].
Qed.

Lemma new_like_id (k : TargetKind) (i a fresh : ObjectId) :
  l_id (new_like k i a fresh) = fresh.
Proof. now destruct k. Qed.

Lemma toggle_outcome_twice (k : TargetKind) (i a : ObjectId) (d : bool) (s : Store) :
  likes_ok s = true ->
  snd (toggle_outcome k i a d (snd (toggle_outcome k i a d s)))
  = snd (toggle_outcome k i a d s).
Proof.
  intros Hok. pose proof (fresh_not_stored s Hok) as Hfresh.
  unfold toggle_outcome at 2 3. rewrite find_filter.
  fold (pair_rows k i a (likes s)).
  destruct (pair_rows k i a (likes s)) as [|l rest] eqn:R; cbn [hd_error].
  - destruct d; cbn [snd].
    + unfold toggle_outcome. cbn [likes set_likes set_next_id]. rewrite find_filter.
      fold (pair_rows k i a (likes s ++ [new_like k i a (next_id s)])).
      rewrite pair_rows_app, R, new_like_matches_self. cbn [app hd_error snd].
      rewrite <- (new_like_id k i a (next_id s)) at 2.
      rewrite updateOne_app_new by (now rewrite new_like_id).
      unfold set_likes, set_next_id. cbn. now destruct k.
    + unfold toggle_outcome. rewrite find_filter.
      fold (pair_rows k i a (likes s)). now rewrite R.
  - cbn [snd]. unfold toggle_outcome. cbn [likes set_likes]. rewrite find_filter.
    fold (pair_rows k i a
            (updateOne l_id (l_id l) (fun x => set_isLiked x d) (likes s))).
    rewrite (pair_rows_updateOne k i a d (likes s) l rest).
    + cbn [hd_error snd]. unfold set_likes. cbn.
      change (l_id (set_isLiked l d)) with (l_id l). now rewrite updateOne_twice.
    + unfold likes_ok in Hok. now apply andb_prop in Hok as [? _].
    + exact R.
Qed.

(** X7. Sending the same like toggle twice leaves the store exactly as
    sending it once: the second request finds the row the first one left and
    rewrites the same value, creating nothing. *)
Theorem toggle_twice_is_once
  (k : TargetKind) (req : Request) (s : Store) (u : User) (i : ObjectId) (d : bool) :
  session_of env req s = Some u ->
  castObjectId env (param req (target_param k)) = Some i ->
  target_exists k i s = true ->
  likes_ok s = true ->
  let toggle st := snd (toggle_route env k (set_body req (toggle_body d)) st) in
  toggle (toggle s) = toggle s.
Proof.
  intros Hs Hc Ht Hok toggle. unfold toggle.
  rewrite (toggle_route_run env k req s u i d) by auto.
  destruct (toggle_outcome_frame k i (u_id u) d s) as (Eu & Ev & Etw & Ec & _).
  rewrite (toggle_route_run env k req _ u i d).
  - now apply toggle_outcome_twice.
  - now rewrite (session_of_users env req s _ Eu).
  - exact Hc.
  - destruct k; cbn [target_exists] in *; congruence.
  - intros _. now apply toggle_outcome_ok.
Qed.

Lemma other_rows_updateOne (k : TargetKind) (i a : ObjectId) (d : bool)
  (ls : list Like) (l : Like) :
  unique_ids (map l_id ls) = true ->
  find (like_matches k i a) ls = Some l ->
  filter (fun x => negb (like_matches k i a x))
         (updateOne l_id (l_id l) (fun x => set_isLiked x d) ls)
  = filter (fun x => negb (like_matches k i a x)) ls.
Proof.
  induction ls as [|x ls IH]; cbn; intros Hu Hf; [discriminate|].
  apply andb_prop in Hu as [Hx Hu]. apply negb_true_iff in Hx.
  destruct (like_matches k i a x) eqn:Hm.
  - injection Hf as ->. rewrite N.eqb_refl. cbn.
    now rewrite like_matches_set_isLiked, Hm.
  - destruct (l_id x =? l_id l)%N eqn:E.
    + exfalso. apply N.eqb_eq in E. apply (unique_ids_not_in _ _ Hx).
      rewrite E. apply in_map. now apply (find_some _ _ Hf).
    + cbn. rewrite Hm. cbn. now rewrite IH.
Qed.

(** X8. A like toggle touches the rows of its own (account, target) pair
    only: every Like row of another account or another target is stored
    afterwards as it was before, in the same order, and so is every other
    collection. *)
Theorem toggle_leaves_other_rows
  (k : TargetKind) (req : Request) (s : Store) (u : User) (i : ObjectId) (d : bool) :
  session_of env req s = Some u ->
  castObjectId env (param req (target_param k)) = Some i ->
  target_exists k i s = true ->
  likes_ok s = true ->
  let s' := snd (toggle_route env k (set_body req (toggle_body d)) s) in
  filter (fun x => negb (like_matches k i (u_id u) x)) (likes s')
  = filter (fun x => negb (like_matches k i (u_id u) x)) (likes s)
  /\ users s' = users s /\ videos s' = videos s /\ tweets s' = tweets s
  /\ comments s' = comments s /\ subscriptions s' = subscriptions s.
Proof.
  intros Hs Hc Ht Hok s'. unfold s'.
  rewrite (toggle_route_run env k req s u i d) by auto.
  split; [|apply toggle_outcome_frame].
  unfold toggle_outcome.
  destruct (find (like_matches k i (u_id u)) (likes s)) as [l|] eqn:F.
  - cbn [snd likes set_likes]. apply other_rows_updateOne; [|exact F].
    unfold likes_ok in Hok. now apply andb_prop in Hok as [? _].
  - destruct d; cbn [snd likes set_likes]; [|reflexivity].
    rewrite filter_app. cbn. rewrite new_like_matches_self. cbn.
    now rewrite app_nil_r.
Qed.

(** ** Owner-gated delete and edit: what they do on success *)

Lemma findById_deleteById_other {Doc} (id_of : Doc -> ObjectId) (i j : ObjectId)
  (l : list Doc) :
  j <> i -> findById id_of j (deleteById id_of i l) = findById id_of j l.
Proof.
  intros Hne. unfold findById. induction l as [|x l IH]; cbn; [reflexivity|].
  destruct (id_of x =? i)%N eqn:E; cbn.
  - apply N.eqb_eq in E. destruct (id_of x =? j)%N eqn:E'; [|reflexivity].
    apply N.eqb_eq in E'. congruence.
  - now rewrite IH.
Qed.

Lemma findById_deleteById_same {Doc} (id_of : Doc -> ObjectId) (i : ObjectId)
  (l : list Doc) :
  unique_ids (map id_of l) = true ->
  findById id_of i (deleteById id_of i l) = None.
Proof.
  unfold findById. induction l as [|x l IH]; cbn; [reflexivity|].
  intros H. apply andb_prop in H as [Hx Hu]. apply negb_true_iff in Hx.
  destruct (id_of x =? i)%N eqn:E; cbn.
  - apply N.eqb_eq in E. subst i.
    destruct (find _ l) as [y|] eqn:F; [|reflexivity].
    exfalso. destruct (find_some _ _ F) as [Hin Ey]. apply N.eqb_eq in Ey.
    apply (unique_ids_not_in _ _ Hx). rewrite <- Ey. now apply in_map.
  - rewrite E. now apply IH.
Qed.

Lemma length_deleteById {Doc} (id_of : Doc -> ObjectId) (i : ObjectId) (l : list Doc)
  (d : Doc) :
  findById id_of i l = Some d ->
  List.length (deleteById id_of i l) + 1 = List.length l.
Proof.
  unfold findById. induction l as [|x l IH]; cbn; [discriminate|].
  destruct (id_of x =? i)%N; cbn; intros H; [lia|]. rewrite <- (IH H). lia.
Qed.

Ltac run_owner :=
  unfold route_handler, try_catch, route_try, route_catch,
    video_delete_try, video_edit_try, tweet_delete_try, tweet_edit_try,
    comment_delete_try, comment_edit_try, catch_json, bind, gets, throw_if, lift,
    cast_id, req_user_id, owner_toString, blank_content, ret, throw, modify;
  cbn [user set_user set_upload fst snd is_none];
  rewrite ?param_set_upload, ?param_set_user.

Lemma owner_delete_run (k : TargetKind) (req : Request) (s : Store) (u : User)
  (i : ObjectId) :
  session_of env req s = Some u ->
  castObjectId env (param req (target_param k)) = Some i ->
  resource_owner k i s = Some (Some (u_id u)) ->
  status (fst (run_route env (owner_route k OpDelete) req s)) = 200%Z
  /\ snd (run_route env (owner_route k OpDelete) req s) = delete_resource k i s.
Proof.
  intros Hs Hc Hr. rewrite (gate_chain env k OpDelete req s u Hs).
  apply session_of_inv in Hs as [_ Hf].
  destruct k; cbn [owner_route target_param resource_owner delete_resource] in *;
    run_owner; rewrite Hf; cbn; rewrite Hc; cbn;
    (destruct (findById _ i _) as [d|]; [|discriminate]);
    cbn in Hr; injection Hr as Hr; rewrite Hr; cbn; rewrite N.eqb_refl; cbn;
    split; reflexivity.
Qed.

(** X9. When its owner deletes a video, a tweet or a comment, the answer is
    200 and exactly one document leaves the collection: every other resource
    is still found with the owner it had, and with distinct [_id]s the deleted
    one is found no more.  Nothing cascades: the Like rows, and for a video
    its comments, stay stored. *)
Theorem owner_delete_removes
  (k : TargetKind) (req : Request) (s : Store) (u : User) (i : ObjectId) :
  session_of env req s = Some u ->
  castObjectId env (param req (target_param k)) = Some i ->
  resource_owner k i s = Some (Some (u_id u)) ->
  let res := run_route env (owner_route k OpDelete) req s in
  status (fst res) = 200%Z
  /\ (forall j, j <> i -> resource_owner k j (snd res) = resource_owner k j s)
  /\ (unique_ids (resource_ids k s) = true -> resource_owner k i (snd res) = None)
  /\ List.length (resource_ids k (snd res)) + 1 = List.length (resource_ids k s)
  /\ likes (snd res) = likes s
  /\ (k = KVideo -> comments (snd res) = comments s).
Proof.
  intros Hs Hc Hr res. unfold res.
  destruct (owner_delete_run k req s u i Hs Hc Hr) as [H1 ->].
  split; [exact H1|]. split; [|split; [|split; [|split]]].
  - intros j Hj.
    destruct k; unfold resource_owner, delete_resource;
      cbn [videos tweets comments set_videos set_tweets set_comments];
      now rewrite findById_deleteById_other.
  - intros Hu.
    destruct k; unfold resource_owner, delete_resource, resource_ids in *;
      cbn [videos tweets comments set_videos set_tweets set_comments];
      now rewrite findById_deleteById_same.
  - destruct k; unfold resource_owner, delete_resource, resource_ids in *;
      cbn [videos tweets comments set_videos set_tweets set_comments];
      rewrite !length_map;
      (destruct (findById _ i _) as [d|] eqn:F; [|discriminate]);
      apply (length_deleteById _ _ _ d F).
  - now destruct k.
  - intros ->. reflexivity.
Qed.

Lemma findById_updateOne {Doc} (id_of : Doc -> ObjectId) (i j : ObjectId)
  (f : Doc -> Doc) (l : list Doc) :
  (forall y, id_of (f y) = id_of y) ->
  findById id_of j (updateOne id_of i f l)
  = if (j =? i)%N then option_map f (findById id_of j l) else findById id_of j l.
Proof.
  intros Hid. unfold findById. induction l as [|x l IH]; cbn.
  - now destruct (j =? i)%N.
  - destruct (id_of x =? i)%N eqn:E; cbn.
    + rewrite Hid. apply N.eqb_eq in E. subst i.
      destruct (id_of x =? j)%N eqn:E'.
      * rewrite N.eqb_sym, E'. reflexivity.
      * rewrite N.eqb_sym, E'. reflexivity.
    + destruct (id_of x =? j)%N eqn:E'.
      * apply N.eqb_eq in E'. subst j. now rewrite E.
      * exact IH.
Qed.

Lemma findById_replace {Doc} (id_of : Doc -> ObjectId) (i j : ObjectId)
  (d d' : Doc) (l : list Doc) :
  findById id_of i l = Some d ->
  id_of d' = id_of d ->
  findById id_of j (updateOne id_of i (fun _ => d') l)
  = if (j =? i)%N then Some d' else findById id_of j l.
Proof.
  unfold findById. intros Hf Hid.
  induction l as [|x l IH]; cbn in *; [discriminate|].
  destruct (id_of x =? i)%N eqn:E; cbn.
  - injection Hf as <-. rewrite Hid. apply N.eqb_eq in E. subst i.
    rewrite (N.eqb_sym j). now destruct (id_of x =? j)%N.
  - destruct (id_of x =? j)%N eqn:E'.
    + apply N.eqb_eq in E'. subst j. now rewrite E.
    + now apply IH.
Qed.

Lemma tweet_edit_keeps_owner (req : Request) (j : ObjectId) :
  keeps (resource_owner KTweet j) (tweet_edit_try env req).
Proof.
  unfold_routes.
  repeat first
    [ keeps_step
    | apply keeps_modify; intros s0; cbn [resource_owner tweets set_tweets];
      rewrite findById_updateOne by reflexivity;
      destruct (j =? _)%N; [|reflexivity];
      now destruct (findById t_id j (tweets s0)) ].
Qed.

Lemma comment_edit_keeps_owner (req : Request) (j : ObjectId) :
  keeps (resource_owner KComment j) (comment_edit_try env req).
Proof.
  unfold_routes.
  repeat first
    [ keeps_step
    | apply keeps_modify; intros s0; cbn [resource_owner comments set_comments];
      rewrite findById_updateOne by reflexivity;
      destruct (j =? _)%N; [|reflexivity];
      now destruct (findById c_id j (comments s0)) ].
Qed.

Lemma video_edit_keeps_owner (req : Request) (j : ObjectId) :
  keeps (resource_owner KVideo j) (video_edit_try env req).
Proof.
  intros s o s'. unfold video_edit_try, bind, gets, throw_if, lift, cast_id,
    req_user_id, owner_toString, ret, throw, modify.
  destruct (user req); [|intros E; now injection E as _ <-].
  destruct (castObjectId env _) as [vid|]; [|intros E; now injection E as _ <-].
  destruct (findById v_id vid (videos s)) as [v|] eqn:F;
    [|intros E; now injection E as _ <-].
  destruct (v_owner v) as [ow|] eqn:O; [|intros E; now injection E as _ <-].
  destruct (negb (ow =? u_id u)%N); [intros E; now injection E as _ <-|].
  assert (Hfinal : forall v3 : Video,
             v_id v3 = v_id v -> v_owner v3 = v_owner v ->
             resource_owner KVideo j
               (set_videos s (updateOne v_id vid (fun _ => v3) (videos s)))
             = resource_owner KVideo j s).
  { intros v3 Hid Hown. cbn [resource_owner videos set_videos].
    rewrite (findById_replace v_id vid j v v3 (videos s) F Hid).
    destruct (j =? vid)%N eqn:E; [|reflexivity].
    apply N.eqb_eq in E. subst j. rewrite F. cbn. now rewrite Hown. }
  destruct (file_path req "thumbnail") as [path|];
    [destruct (uploadOnCloudinary env path) as [up|e];
     [|intros E; now injection E as _ <-]|];
    (destruct (truthy (field req "title"));
     [destruct (castString "title" (field req "title")) as [x|e];
      [|intros E; now injection E as _ <-]|]);
    (destruct (truthy (field req "description"));
     [destruct (castString "description" (field req "description")) as [y|e];
      [|intros E; now injection E as _ <-]|]);
    match goal with
    | |- context [validate_video ?v3] =>
        destruct (validate_video v3); intros E; injection E as _ <-;
        [apply Hfinal; reflexivity|reflexivity]
    end.
Qed.

(** X10. No edit changes whose a resource is: after any request on an edit
    route, every video, tweet and comment that was stored is still stored
    under its [_id] with the owner reference it had, and none has appeared. *)
Theorem edit_keeps_owner
  (k : TargetKind) (req : Request) (s : Store) (j : ObjectId) :
  resource_owner k j (snd (run_route env (owner_route k OpEdit) req s))
  = resource_owner k j s.
Proof.
  apply (run_route_keeps (resource_owner k j) (owner_route k OpEdit)).
  intros q. destruct k; cbn [owner_route route_try].
  - apply comment_edit_keeps_owner.
  - apply video_edit_keeps_owner.
  - apply tweet_edit_keeps_owner.
Qed.

Lemma protected_run (r : Route) (req : Request) (s : Store) (u : User) :
  route_auth r = true ->
  route_upload r = None ->
  session_of env req s = Some u ->
  run_route env r req s = route_handler env r (set_user req u) s
  /\ findById u_id (u_id u) (users s) = Some u.
Proof.
  intros Ha Hup Hs. apply session_of_inv in Hs as [Hg Hf]. split; [|exact Hf].
  unfold run_route. rewrite Ha, Hup. unfold protect. now rewrite Hg.
Qed.

Lemma trim_nonblank_nonempty (x : string) : trim x <> "" -> (x =? "") = false.
Proof.
  intros H. apply String.eqb_neq. intros ->. now apply H.
Qed.

(** X11. The owner's edit of a comment stores the new content as sent,
    untrimmed, and answers with the updated comment; content that is absent,
    empty or only white space is refused with [Please enter valid comment
    content], and content that is no string (a number, [true]) ends in the
    TypeError of [content.trim]; both refusals write nothing. *)
Theorem comment_edit_content
  (req : Request) (s : Store) (u : User) (i : ObjectId) (c : Comment) :
  session_of env req s = Some u ->
  castObjectId env (param req "commentId") = Some i ->
  findById c_id i (comments s) = Some c ->
  c_owner c = u_id u ->
  let res := run_route env CommentEdit req s in
  (forall x,
      field req "content" = JsString x -> trim x <> "" ->
      res = (respond 200 (BodyComment (Some (set_comment_content c x))),
             set_comments s
               (updateOne c_id i (fun y => set_comment_content y x) (comments s))))
  /\ (truthy (field req "content") = false
      \/ (exists x, field req "content" = JsString x /\ trim x = "") ->
      res = (respond 400 (BodyMessageError "Unable to edit the comment"
                                           "Please enter valid comment content"), s))
  /\ (truthy (field req "content") = true ->
      (forall x, field req "content" <> JsString x) ->
      res = (respond 400 (BodyMessageError "Unable to edit the comment"
                                           "content.trim is not a function"), s)).
Proof.
  intros Hs Hc Hf Ho res. unfold res.
  destruct (protected_run CommentEdit req s u eq_refl eq_refl Hs) as [-> Hu].
  assert (Hfield : field (set_user req u) "content" = field req "content")
    by reflexivity.
  run_owner. rewrite Hu. cbn. rewrite Hc. cbn.
  rewrite Hf, Ho, N.eqb_refl. cbn. rewrite Hfield.
  split; [|split].
  - intros x -> Hx. pose proof (trim_nonblank_nonempty x Hx) as Hne.
    cbn. rewrite Hne. cbn. apply String.eqb_neq in Hx. rewrite Hx. cbn.
    unfold required_string. rewrite Hne. reflexivity.
  - intros [Hfalsy | (x & -> & Hx)].
    + rewrite Hfalsy. reflexivity.
    + cbn. destruct (x =? "")%string; cbn; [reflexivity|].
      rewrite Hx. reflexivity.
  - intros Ht Hn. rewrite Ht. cbn.
    destruct (field req "content") as [| |b|n|x|]; try discriminate Ht;
      try reflexivity.
    exfalso. now apply (Hn x).
Qed.

(** X12. The owner's edit of a tweet stores any non-empty content, white
    space included, and keeps the tweet; its answer is 200 with the message
    [Tweet deleted successfully.] and the updated tweet.  Without content the
    edit is refused with [No new content Provided] and writes nothing. *)
Theorem tweet_edit_content
  (req : Request) (s : Store) (u : User) (i : ObjectId) (t : Tweet) :
  session_of env req s = Some u ->
  castObjectId env (param req "tweetId") = Some i ->
  findById t_id i (tweets s) = Some t ->
  t_owner t = u_id u ->
  let res := run_route env TweetEdit req s in
  (forall x,
      field req "content" = JsString x -> x <> "" ->
      res = (respond 200 (BodyMessageTweet "Tweet deleted successfully."
                                           (Some (set_tweet_content t x))),
             set_tweets s
               (updateOne t_id i (fun y => set_tweet_content y x) (tweets s)))
      /\ findById t_id i (tweets (snd res)) = Some (set_tweet_content t x))
  /\ (truthy (field req "content") = false ->
      res = (respond 400 (BodyMessageError "Unable to edit the tweet"
                                           "No new content Provided"), s)).
Proof.
  intros Hs Hc Hf Ho res. unfold res.
  destruct (protected_run TweetEdit req s u eq_refl eq_refl Hs) as [-> Hu].
  assert (Hfield : field (set_user req u) "content" = field req "content")
    by reflexivity.
  run_owner. rewrite Hu. cbn. rewrite Hc. cbn.
  rewrite Hf, Ho, N.eqb_refl. cbn. rewrite Hfield.
  split.
  - intros x -> Hx. apply String.eqb_neq in Hx. cbn. rewrite Hx. cbn.
    unfold required_string. rewrite Hx. cbn [fst snd]. split; [reflexivity|].
    cbn [tweets set_tweets].
    rewrite findById_updateOne by reflexivity. now rewrite N.eqb_refl, Hf.
  - intros Hfalsy. rewrite Hfalsy. reflexivity.
Qed.

(** ** Sessions and accounts *)

(** X13. Logout answers with a cookie that is already expired and writes
    nothing: the token it was called with keeps resolving, and every route
    answers a later request with that token as it would have before. *)
Theorem logout_revokes_nothing (req : Request) (s : Store) (u : User) :
  session_of env req s = Some u ->
  run_route env AuthLogout req s
  = (mkResponse 200 (BodyText "Logout successfully")
                (Some (mkCookieWrite cookie_name None 0)), s)
  /\ session_of env req (snd (run_route env AuthLogout req s)) = Some u
  /\ forall r req',
       run_route env r req' (snd (run_route env AuthLogout req s))
       = run_route env r req' s.
Proof.
  intros Hs.
  destruct (protected_run AuthLogout req s u eq_refl eq_refl Hs) as [-> _].
  cbn. auto.
Qed.

(** X14. Deleting the account removes the account document and nothing
    else: the videos, tweets, comments, likes and subscriptions that refer to
    it stay stored and the other accounts are found as before; with distinct
    [_id]s the token of the deleted account resolves no more. *)
Theorem delete_account_ends_session (req : Request) (s : Store) (u : User) :
  session_of env req s = Some u ->
  let res := run_route env UserDeleteAccount req s in
  fst res = mkResponse 200 (BodyMessage "Account Deleted Successfully")
                       (Some (mkCookieWrite cookie_name None 0))
  /\ users (snd res) = deleteById u_id (u_id u) (users s)
  /\ videos (snd res) = videos s /\ tweets (snd res) = tweets s
  /\ comments (snd res) = comments s /\ likes (snd res) = likes s
  /\ subscriptions (snd res) = subscriptions s
  /\ (forall j, j <> u_id u ->
        findById u_id j (users (snd res)) = findById u_id j (users s))
  /\ (unique_ids (map u_id (users s)) = true -> session_of env req (snd res) = None).
Proof.
  intros Hs res. unfold res.
  pose proof Hs as Hid. rewrite session_of_eq in Hid.
  destruct (protected_run UserDeleteAccount req s u eq_refl eq_refl Hs) as [-> Hf].
  unfold route_handler, try_catch. cbn [route_try route_catch].
  unfold delete_account_try, bind, req_user_id, gets, throw_if, modify, ret, throw.
  cbn [user set_user]. rewrite Hf. cbn. rewrite Hf. cbn.
  repeat (split; [reflexivity|]). split.
  - intros j Hj. now apply findById_deleteById_other.
  - intros Hu. rewrite session_of_eq. cbn [users set_users].
    destruct (session_id env req) as [i|]; [|reflexivity].
    destruct (findById_id _ _ _ _ Hid) as [E _]. rewrite E.
    now apply findById_deleteById_same.
Qed.

(** X15. The profile view answers with the stored account document of the
    session as it is, the password hash in it. *)
Theorem profile_view_returns_document (req : Request) (s : Store) (u : User) :
  session_of env req s = Some u ->
  run_route env UserProfileView req s = (respond 200 (BodyUser u), s)
  /\ findById u_id (u_id u) (users s) = Some u
  /\ option_map password (findById u_id (u_id u) (users s)) = Some (password u).
Proof.
  intros Hs.
  destruct (protected_run UserProfileView req s u eq_refl eq_refl Hs) as [-> Hf].
  rewrite Hf. auto.
Qed.

(** ** Channel view: counts and handles *)

Lemma filter_length_app_one {A} (p : A -> bool) (l : list A) (x : A) :
  List.length (filter p (l ++ [x]))
  = List.length (filter p l) + if p x then 1 else 0.
Proof.
  rewrite filter_app, length_app. cbn. now destruct (p x).
Qed.

Lemma channel_pipeline_add_edge (name : string) (s : Store) (e : Subscription) :
  channel_pipeline None name (add_subscription s e)
  = map (count_edge e) (channel_pipeline None name s).
Proof.
  unfold channel_pipeline. cbn [users subscriptions add_subscription].
  rewrite map_map. apply map_ext. intros u.
  unfold count_edge. cbn [ch_id ch_username ch_avatar ch_coverImage ch_isPremium
                            ch_email subscribersCount subscribedToCount isSubscribed
                            in_array].
  now rewrite !filter_length_app_one.
Qed.

Lemma channel_view_cases (req : Request) (s : Store) :
  channel_view req s
  = if (trim (param req "username") =? "")%string
    then (respond 400 (BodyText ("Unable to fetch the channel Details :: ERROR : "
                                 ++ "Username not found")), s)
    else match channel_pipeline (option_map u_id (user req))
                                (toLowerCase (param req "username")) s with
         | [] =>
             (respond 400 (BodyText ("Unable to fetch the channel Details :: ERROR : "
                                     ++ "Channel not found.")), s)
         | c :: l => (respond 200 (BodyChannels (c :: l)), s)
         end.
Proof.
  unfold channel_view, try_catch, channel_view_try, bind, throw_if, gets, ret, throw.
  destruct (trim _ =? "")%string; [reflexivity|].
  cbv beta iota.
  destruct (channel_pipeline _ _ s); reflexivity.
Qed.

(** X16. The counts of the channel view are computed from the stored edges
    at each request: what it answers once one more subscription is stored is
    what it answered before with [subscribersCount] raised by one for the
    channel of the edge and [subscribedToCount] raised by one for its
    subscriber, and with nothing else changed. *)
Theorem channel_counts_follow_edges
  (h : HttpRequest) (s : Store) (e : Subscription) (l : list ChannelView) :
  fst (serve env UserChannel h s) = respond 200 (BodyChannels l) ->
  serve env UserChannel h (add_subscription s e)
  = (respond 200 (BodyChannels (map (count_edge e) l)), add_subscription s e)
  /\ Forall (fun c =>
               subscribersCount c
               = List.length (filter (fun x => (channel x =? ch_id c)%N)
                                     (subscriptions s))
               /\ subscribedToCount c
                  = List.length (filter (fun x => (subscriber x =? ch_id c)%N)
                                        (subscriptions s))) l.
Proof.
  change (serve env UserChannel h) with (channel_view (express_request h)).
  rewrite !channel_view_cases.
  change (option_map u_id (user (express_request h))) with (@None ObjectId).
  destruct (trim _ =? "")%string; [discriminate|].
  rewrite channel_pipeline_add_edge.
  destruct (channel_pipeline None _ s) as [|c0 l0] eqn:E; [discriminate|].
  cbn [fst map]. intros H. injection H as <-. split; [reflexivity|].
  rewrite <- E. unfold channel_pipeline. apply Forall_forall. intros c Hc.
  apply in_map_iff in Hc as (u & <- & _). cbn. auto.
Qed.

(** X17. The channel view reads of a request only the handle, and that up
    to letter case: two requests whose handles agree once lower-cased get the
    same answer whatever their cookies and bodies; a handle of white space
    only is refused with [Username not found]. *)
Theorem channel_view_by_handle (h1 h2 : HttpRequest) (s : Store) :
  let name h := param (express_request h) "username" in
  (toLowerCase (name h1) = toLowerCase (name h2) ->
   trim (name h1) <> "" -> trim (name h2) <> "" ->
   serve env UserChannel h1 s = serve env UserChannel h2 s)
  /\ (trim (name h1) = "" ->
      serve env UserChannel h1 s
      = (respond 400 (BodyText ("Unable to fetch the channel Details :: ERROR : "
                                ++ "Username not found")), s)).
Proof.
  intros name. unfold name.
  change (serve env UserChannel) with (fun h => channel_view (express_request h)).
  cbv beta. rewrite !channel_view_cases.
  change (option_map u_id (user (express_request h1))) with (@None ObjectId).
  change (option_map u_id (user (express_request h2))) with (@None ObjectId).
  split.
  - intros E H1 H2. apply String.eqb_neq in H1, H2. now rewrite H1, H2, E.
  - intros H. now rewrite H.
Qed.

(** ** Creating and deleting: round trips *)

Lemma same_id_comment (l : list Comment) (d : Comment) :
  existsb (same_key CommentSchema (mkIndex ["_id"] true) d) l
  = existsb (fun x => (c_id d =? c_id x)%N) l.
Proof.
  induction l as [|x l IH]; cbn; [reflexivity|].
  rewrite IH. unfold same_key. cbn. now rewrite andb_true_r.
Qed.

Lemma same_id_tweet (l : list Tweet) (d : Tweet) :
  existsb (same_key TweetSchema (mkIndex ["_id"] true) d) l
  = existsb (fun x => (t_id d =? t_id x)%N) l.
Proof.
  induction l as [|x l IH]; cbn; [reflexivity|].
  rewrite IH. unfold same_key. cbn. now rewrite andb_true_r.
Qed.

Lemma insertOne_comment (l : list Comment) (d : Comment) :
  existsb (fun x => (c_id d =? c_id x)%N) l = false ->
  insertOne CommentSchema l d = Return (l ++ [d])%list.
Proof.
  intros H. unfold insertOne, duplicate_key, all_indexes.
  cbn [existsb CommentSchema sch_indexes ix_unique andb].
  now rewrite same_id_comment, H.
Qed.

Lemma insertOne_tweet (l : list Tweet) (d : Tweet) :
  existsb (fun x => (t_id d =? t_id x)%N) l = false ->
  insertOne TweetSchema l d = Return (l ++ [d])%list.
Proof.
  intros H. unfold insertOne, duplicate_key, all_indexes.
  cbn [existsb TweetSchema sch_indexes ix_unique andb].
  now rewrite same_id_tweet, H.
Qed.

Lemma deleteById_app_new {Doc} (id_of : Doc -> ObjectId) (l : list Doc) (n : Doc) :
  existsb (fun x => (id_of n =? id_of x)%N) l = false ->
  deleteById id_of (id_of n) (l ++ [n]) = l.
Proof.
  induction l as [|x l IH]; cbn.
  - intros _. now rewrite N.eqb_refl.
  - intros H. apply orb_false_elim in H as [H1 H2].
    rewrite N.eqb_sym, H1. now rewrite IH.
Qed.

Lemma findById_app_new {Doc} (id_of : Doc -> ObjectId) (l : list Doc) (n : Doc) :
  existsb (fun x => (id_of n =? id_of x)%N) l = false ->
  findById id_of (id_of n) (l ++ [n]) = Some n.
Proof.
  unfold findById. induction l as [|x l IH]; cbn.
  - intros _. now rewrite N.eqb_refl.
  - intros H. apply orb_false_elim in H as [H1 H2].
    rewrite N.eqb_sym, H1. now apply IH.
Qed.

(** X18. A comment posted on a stored video is appended to the comments
    with the content as sent, the video and the poster as owner; the poster
    can then delete it, and the comments are again the ones stored before. *)
Theorem comment_then_delete_restores
  (req1 req2 : Request) (s : Store) (u : User) (vid : ObjectId) (x : string) :
  session_of env req1 s = Some u ->
  session_of env req2 s = Some u ->
  castObjectId env (param req1 "videoId") = Some vid ->
  findById v_id vid (videos s) <> None ->
  field req1 "content" = JsString x ->
  trim x <> "" ->
  existsb (fun c => (next_id s =? c_id c)%N) (comments s) = false ->
  castObjectId env (param req2 "commentId") = Some (next_id s) ->
  let c := mkComment (next_id s) x vid (u_id u) in
  let r1 := run_route env VideoComment req1 s in
  let r2 := run_route env CommentDelete req2 (snd r1) in
  fst r1 = respond 200 (BodySavedComment c)
  /\ comments (snd r1) = (comments s ++ [c])%list
  /\ status (fst r2) = 200%Z
  /\ comments (snd r2) = comments s.
Proof.
  intros Hs1 Hs2 Hc Hv Hx Ht Hfresh Hc2 c r1 r2.
  assert (E1 : r1 = (respond 200 (BodySavedComment c),
                     set_comments (set_next_id s (next_id s + 1)%N)
                                  (comments s ++ [c])%list)).
  { unfold r1.
    destruct (protected_run VideoComment req1 s u eq_refl eq_refl Hs1) as [-> Hu].
    assert (Hfield : field (set_user req1 u) "content" = field req1 "content")
      by reflexivity.
    unfold route_handler, try_catch. cbn [route_try route_catch].
    unfold video_comment_try, insert_into, blank_content, bind, gets, throw_if, lift,
      cast_id, req_user_id, fresh_id, modify, ret, throw.
    cbn [user set_user]. rewrite Hu. cbn. rewrite param_set_user, Hc. cbn.
    destruct (findById v_id vid (videos s)); [|contradiction]. cbn.
    rewrite Hfield, Hx. pose proof (trim_nonblank_nonempty x Ht) as Hne.
    cbn. rewrite Hne. cbn. apply String.eqb_neq in Ht. rewrite Ht. cbn.
    unfold required_string. rewrite Hne. cbn.
    pose proof (insertOne_comment (comments s) c Hfresh) as Hins.
    unfold c in Hins. rewrite Hins. reflexivity. }
  rewrite E1. cbn [fst snd comments set_comments].
  split; [reflexivity|]. split; [reflexivity|].
  unfold r2. rewrite E1. cbn [snd].
  set (s1 := set_comments (set_next_id s (next_id s + 1)%N) (comments s ++ [c])%list).
  assert (Hs : session_of env req2 s1 = Some u)
    by (rewrite (session_of_users env req2 s s1); [exact Hs2|reflexivity]).
  assert (Hr : resource_owner KComment (next_id s) s1 = Some (Some (u_id u))).
  { unfold resource_owner, s1. cbn [comments set_comments].
    change (next_id s) with (c_id c) at 1.
    now rewrite (findById_app_new c_id (comments s) c Hfresh). }
  destruct (owner_delete_run KComment req2 s1 u (next_id s) Hs Hc2 Hr) as [H1 H2].
  cbn [owner_route] in H1, H2. rewrite H1, H2. split; [reflexivity|].
  unfold delete_resource, s1. cbn [comments set_comments].
  change (next_id s) with (c_id c) at 1.
  now apply deleteById_app_new.
Qed.

(** X19. A tweet that is posted is appended to the tweets with the content
    as sent and the poster as owner; the poster can then delete it, and the
    tweets are again the ones stored before. *)
Theorem tweet_then_delete_restores
  (req1 req2 : Request) (s : Store) (u : User) (x : string) :
  session_of env req1 s = Some u ->
  session_of env req2 s = Some u ->
  field req1 "content" = JsString x ->
  trim x <> "" ->
  existsb (fun t => (next_id s =? t_id t)%N) (tweets s) = false ->
  castObjectId env (param req2 "tweetId") = Some (next_id s) ->
  let t := mkTweet (next_id s) x (u_id u) in
  let r1 := run_route env TweetUpload req1 s in
  let r2 := run_route env TweetDelete req2 (snd r1) in
  fst r1 = respond 200 (BodyTweet t)
  /\ tweets (snd r1) = (tweets s ++ [t])%list
  /\ status (fst r2) = 200%Z
  /\ tweets (snd r2) = tweets s.
Proof.
  intros Hs1 Hs2 Hx Ht Hfresh Hc2 t0 r1 r2.
  assert (E1 : r1 = (respond 200 (BodyTweet t0),
                     set_tweets (set_next_id s (next_id s + 1)%N)
                                (tweets s ++ [t0])%list)).
  { unfold r1.
    destruct (protected_run TweetUpload req1 s u eq_refl eq_refl Hs1) as [-> Hu].
    assert (Hfield : field (set_user req1 u) "content" = field req1 "content")
      by reflexivity.
    unfold route_handler, try_catch. cbn [route_try route_catch].
    unfold tweet_upload_try, insert_into, blank_content, bind, gets, throw_if, lift,
      req_user_id, fresh_id, modify, ret, throw.
    cbn [user set_user]. rewrite Hu. cbn.
    rewrite Hfield, Hx. pose proof (trim_nonblank_nonempty x Ht) as Hne.
    cbn. rewrite Hne. cbn. apply String.eqb_neq in Ht. rewrite Ht. cbn.
    unfold required_string. rewrite Hne. cbn.
    pose proof (insertOne_tweet (tweets s) t0 Hfresh) as Hins.
    unfold t0 in Hins. rewrite Hins. reflexivity. }
  rewrite E1. cbn [fst snd tweets set_tweets].
  split; [reflexivity|]. split; [reflexivity|].
  unfold r2. rewrite E1. cbn [snd].
  set (s1 := set_tweets (set_next_id s (next_id s + 1)%N) (tweets s ++ [t0])%list).
  assert (Hs : session_of env req2 s1 = Some u)
    by (rewrite (session_of_users env req2 s s1); [exact Hs2|reflexivity]).
  assert (Hr : resource_owner KTweet (next_id s) s1 = Some (Some (u_id u))).
  { unfold resource_owner, s1. cbn [tweets set_tweets].
    change (next_id s) with (t_id t0) at 1.
    now rewrite (findById_app_new t_id (tweets s) t0 Hfresh). }
  destruct (owner_delete_run KTweet req2 s1 u (next_id s) Hs Hc2 Hr) as [H1 H2].
  cbn [owner_route] in H1, H2. rewrite H1, H2. split; [reflexivity|].
  unfold delete_resource, s1. cbn [tweets set_tweets].
  change (next_id s) with (t_id t0) at 1.
  now apply deleteById_app_new.
Qed.

(** ** Registration and the unique indexes of users *)

Lemma same_key_username (l : list User) (d : User) :
  existsb (same_key UserSchema (mkIndex ["username"] true) d) l
  = existsb (fun x => (username d =? username x)%string) l.
Proof.
  induction l as [|x l IH]; cbn; [reflexivity|].
  rewrite IH. unfold same_key. cbn. now rewrite andb_true_r.
Qed.

Lemma same_key_email (l : list User) (d : User) :
  existsb (same_key UserSchema (mkIndex ["email"] true) d) l
  = existsb (fun x => (email d =? email x)%string) l.
Proof.
  induction l as [|x l IH]; cbn; [reflexivity|].
  rewrite IH. unfold same_key. cbn. now rewrite andb_true_r.
Qed.

(** What a successful write of a new account tells: the unique indexes of
    the collection hold neither its username nor its address. *)
Lemma insertOne_user_inv (l l' : list User) (d : User) :
  insertOne UserSchema l d = Return l' ->
  l' = (l ++ [d])%list
  /\ existsb (fun x => (username d =? username x)%string) l = false
  /\ existsb (fun x => (email d =? email x)%string) l = false.
Proof.
  unfold insertOne, duplicate_key, all_indexes.
  cbn [existsb UserSchema sch_indexes ix_unique andb].
  rewrite same_key_username, same_key_email.
  destruct (existsb (same_key _ _ d) l); cbn; [discriminate|].
  destruct (existsb (fun x => (username d =? username x)%string) l); cbn;
    [discriminate|].
  destruct (existsb (fun x => (email d =? email x)%string) l); cbn; [discriminate|].
  intros H. injection H as <-. auto.
Qed.

Lemma distinct_strings_app (l : list string) (y : string) :
  distinct_strings l = true ->
  existsb (String.eqb y) l = false ->
  distinct_strings (l ++ [y]) = true.
Proof.
  induction l as [|x l IH]; cbn; [reflexivity|].
  intros H E. apply andb_prop in H as [Hx Hl]. apply orb_false_elim in E as [E1 E2].
  rewrite (IH Hl E2), andb_true_r.
  apply negb_true_iff in Hx. apply negb_true_iff.
  rewrite existsb_app, Hx. cbn. now rewrite String.eqb_sym, E1.
Qed.

Lemma existsb_map_string {A} (f : A -> string) (y : string) (l : list A) :
  existsb (String.eqb y) (map f l) = existsb (fun x => (y =? f x)%string) l.
Proof. induction l as [|x l IH]; cbn; [reflexivity|]. now rewrite IH. Qed.

Lemma register_try_grows (req : Request) (s s' : Store) (o : Outcome Response) :
  register_try env req s = (o, s') -> grown_by_one s s'.
Proof.
  unfold register_try, register_rest, insert_into, getJWT, bind, lift, throw_if,
    gets, fresh_id, modify, ret, throw.
  repeat
    (match goal with
     | |- context [some_blank ?a] => destruct (some_blank a) as [[|]|?]
     | |- context [file_path ?a ?b] => destruct (file_path a b)
     | |- context [uploadOnCloudinary ?a ?b] => destruct (uploadOnCloudinary a b)
     | |- context [negb ?a] => destruct (negb a)
     | |- context [bcrypt_hash ?a ?b] => destruct (bcrypt_hash a b)
     | |- context [validateUser ?a ?b ?c ?d ?e] => destruct (validateUser a b c d e)
     | |- context [insertOne ?a ?b ?c] => destruct (insertOne a b c) eqn:I
     | |- context [jwt_sign ?a ?b ?c] => destruct (jwt_sign a b c)
     end; cbn [fst snd users set_next_id set_users] in *);
    intros E; injection E as _ <-;
    try (left; reflexivity);
    apply insertOne_user_inv in I as (-> & Hn & Hm);
    right; eexists; cbn [users set_users set_next_id];
    (split; [reflexivity|]); cbn; auto.
Qed.

(** X20. Registration never alters or removes a stored account: the
    accounts afterwards are those before, or those and one new account with a
    fresh [_id].  The unique indexes of the collection vouch for the new one:
    its username and its address are those of no stored account, so accounts
    that were pairwise distinct in both stay so.  Every other collection is
    left as it was. *)
Theorem register_keeps_accounts (req : Request) (s : Store) :
  let s' := snd (run_route env AuthRegister req s) in
  grown_by_one s s'
  /\ (users_unique s = true -> users_unique s' = true)
  /\ videos s' = videos s /\ tweets s' = tweets s /\ comments s' = comments s
  /\ likes s' = likes s /\ subscriptions s' = subscriptions s.
Proof.
  intros s'.
  assert (F : videos s' = videos s /\ tweets s' = tweets s
              /\ comments s' = comments s /\ likes s' = likes s
              /\ subscriptions s' = subscriptions s).
  { unfold s'. repeat split; apply run_route_keeps; intros q;
      [ exact (route_try_frame AuthRegister CVideos q eq_refl)
      | exact (route_try_frame AuthRegister CTweets q eq_refl)
      | exact (route_try_frame AuthRegister CComments q eq_refl)
      | exact (route_try_frame AuthRegister CLikes q eq_refl)
      | exact (route_try_frame AuthRegister CSubscriptions q eq_refl) ]. }
  assert (G : grown_by_one s s').
  { unfold s', run_route. cbn [route_auth route_upload]. unfold with_upload.
    destruct (uploadMiddleware env _ req) as [[fs b]|e]; [|now left].
    unfold route_handler, try_catch. cbn [route_try].
    destruct (register_try env (set_upload req fs b) s) as [[res|e] s1] eqn:E;
      cbn [snd]; exact (register_try_grows _ _ _ _ E). }
  split; [exact G|]. split; [|exact F].
  intros Hu. unfold users_unique in *.
  destruct G as [-> | (d & -> & _ & Hn & Hm)]; [exact Hu|].
  apply andb_prop in Hu as [H1 H2].
  rewrite !map_app. cbn [map].
  rewrite distinct_strings_app, distinct_strings_app; auto;
    now rewrite existsb_map_string.
Qed.

(** ** Profile edits *)

Lemma keeps_bind_ret {A B C} (f : Store -> A) (b : B) (k : B -> Async C) :
  keeps f (k b) -> keeps f (bind (ret b) k).
Proof. intros H s o s' E. exact (H s o s' E). Qed.

Lemma run_route_keeps_session {A} (f : Store -> A) (r : Route) (req : Request)
  (s : Store) (u : User) :
  route_auth r = true ->
  session_of env req s = Some u ->
  (forall q, user q = Some u -> keeps f (route_try env r q)) ->
  f (snd (run_route env r req s)) = f s.
Proof.
  intros Ha Hs H. apply session_of_inv in Hs as [Hg _].
  assert (Hh : forall q, user q = Some u ->
                         f (snd (route_handler env r q s)) = f s).
  { intros q Hq. unfold route_handler, try_catch.
    destruct (route_try env r q s) as [[res|e] s'] eqn:E; cbn [snd];
      exact (H q Hq s _ s' E). }
  unfold run_route. rewrite Ha. unfold protect. rewrite Hg.
  destruct (route_upload r); [|now apply Hh].
  unfold with_upload.
  destruct (uploadMiddleware env l (set_user req u)) as [[fs b]|e];
    [now apply Hh|reflexivity].
Qed.

Lemma identity_of_updateOne (i j : ObjectId) (g : User -> User) (l : list User) :
  (forall y, u_id (g y) = u_id y) ->
  (forall y, identity_of (g y) = identity_of y) ->
  option_map identity_of (findById u_id j (updateOne u_id i g l))
  = option_map identity_of (findById u_id j l).
Proof.
  intros Hid Hg. rewrite findById_updateOne by exact Hid.
  destruct (j =? i)%N; [|reflexivity].
  destruct (findById u_id j l); cbn; [now rewrite Hg|reflexivity].
Qed.

Lemma profile_edit_keeps_identity (r : Route) (req : Request) (j : ObjectId) :
  profile_edit r = true ->
  keeps (fun s => option_map identity_of (findById u_id j (users s)))
        (route_try env r req).
Proof.
  destruct r; cbn [profile_edit route_try]; intros W; try discriminate W; clear W;
    unfold_routes;
    repeat first
      [ keeps_step
      | apply keeps_modify; intros s0; cbn [users set_users];
        apply identity_of_updateOne; reflexivity ].
Qed.

Lemma profile_edit_keeps_others (r : Route) (q : Request) (u : User) (j : ObjectId) :
  profile_edit r = true ->
  user q = Some u ->
  j <> u_id u ->
  keeps (fun s => findById u_id j (users s)) (route_try env r q).
Proof.
  intros W Hq Hj. apply N.eqb_neq in Hj.
  destruct r; cbn [profile_edit route_try] in *; try discriminate W; clear W;
    unfold_routes; rewrite Hq;
    apply keeps_bind_ret;
    repeat first
      [ keeps_step
      | apply keeps_modify; intros s0; cbn [users set_users];
        rewrite findById_updateOne by reflexivity; now rewrite Hj ].
Qed.

(** X21. The profile edits (avatar, cover image, password) create and
    remove no account and change of no account the [_id], the username, the
    address or the watch history; and they leave every account but the one of
    the session exactly as stored. *)
Theorem profile_edits_keep_identity
  (r : Route) (req : Request) (s : Store) (j : ObjectId) :
  profile_edit r = true ->
  let s' := snd (run_route env r req s) in
  option_map identity_of (findById u_id j (users s'))
  = option_map identity_of (findById u_id j (users s))
  /\ ((forall u, session_of env req s = Some u -> j <> u_id u) ->
      findById u_id j (users s') = findById u_id j (users s)).
Proof.
  intros W s'. unfold s'. split.
  - apply (run_route_keeps
             (fun s => option_map identity_of (findById u_id j (users s))) r).
    intros q. now apply profile_edit_keeps_identity.
  - intros Hj. destruct (session_of env req s) as [u|] eqn:Hs.
    + apply (run_route_keeps_session (fun s => findById u_id j (users s)) r req s u).
      * now destruct r.
      * exact Hs.
      * intros q Hq. apply (profile_edit_keeps_others r q u j W Hq). now apply Hj.
    + rewrite no_session_no_write; [reflexivity| |exact Hs].
      intros ->. discriminate W.
Qed.

(** X22. The password of an account is replaced only after [bcrypt.compare]
    has accepted the current password against the stored hash; the new hash is
    then the only thing written.  A current password that does not match is
    refused with [Incorrect current password], and nothing is written. *)
Theorem password_change_checks_current (req : Request) (s : Store) (u : User) :
  session_of env req s = Some u ->
  let res := run_route env UserEditPassword req s in
  let current := field req "currentInputPassword" in
  let new := field req "newPassword" in
  (snd res <> s ->
   bcrypt_compare env current (password u) = Return true
   /\ exists h,
        bcrypt_hash env new = Return h
        /\ snd res
           = set_users s (updateOne u_id (u_id u) (fun y => set_password y h) (users s))
        /\ fst res = respond 200 (BodyMessage "Password changed successfully"))
  /\ (truthy current = true -> truthy new = true ->
      bcrypt_compare env current (password u) = Return false ->
      res = (respond 400 (BodyError ("Unable to change the password: "
                                     ++ "Incorrect current password")), s)).
Proof.
  intros Hs res current new. unfold res, current, new.
  destruct (protected_run UserEditPassword req s u eq_refl eq_refl Hs) as [-> Hf].
  assert (F1 : field (set_user req u) "currentInputPassword"
               = field req "currentInputPassword") by reflexivity.
  assert (F2 : field (set_user req u) "newPassword" = field req "newPassword")
    by reflexivity.
  unfold route_handler, try_catch. cbn [route_try route_catch].
  unfold edit_password_try, edit_password_catch, bind, req_user_id, gets, throw_if,
    lift, modify, ret, throw.
  cbn [user set_user]. rewrite Hf, F1, F2. cbn [fst snd].
  destruct (truthy (field req "currentInputPassword"));
    destruct (truthy (field req "newPassword")); cbn [negb orb fst snd];
    try (split; [intros H; now contradiction H|intros; discriminate]).
  destruct (bcrypt_compare env _ (password u)) as [[|]|e]; cbn [negb fst snd].
  - destruct (bcrypt_hash env _) as [h|e]; cbn [fst snd].
    + unfold required_string. destruct (h =? "")%string; cbn [fst snd].
      * split; [intros H; now contradiction H|intros; discriminate].
      * split; [|intros; discriminate]. intros _. split; [reflexivity|].
        exists h. auto.
    + split; [intros H; now contradiction H|intros; discriminate].
  - split; [intros H; now contradiction H|]. intros _ _ _. reflexivity.
  - split; [intros H; now contradiction H|intros; discriminate].
Qed.

(** X23. Login answers 200 only for a stored account that the e-mail
    filter matches and whose stored hash [bcrypt.compare] accepts for the
    password sent; the answer then is that account's document and a session
    cookie with the signed token, valid for eight hours. *)
Theorem login_requires_valid_password (req : Request) (s : Store) :
  status (fst (run_route env AuthLogin req s)) = 200%Z ->
  exists u token,
    In u (users s)
    /\ query_matches env "email" (field req "email") (email u) = true
    /\ bcrypt_compare env (field req "password") (password u) = Return true
    /\ jwt_sign env (u_id u) (secretKey env) = Return token
    /\ fst (run_route env AuthLogin req s)
       = mkResponse 200 (BodyUser u)
                    (Some (mkCookieWrite cookie_name (Some token) 28800000)).
Proof.
  unfold run_route. cbn [route_auth route_upload].
  unfold route_handler, try_catch. cbn [route_try route_catch].
  unfold login_try, login_rest, validatePassword, getJWT, bind, lift, gets, throw_if,
    ret, throw, catch_text.
  destruct (some_blank _) as [[|]|e]; cbn [fst snd]; try discriminate.
  destruct (find _ (users s)) as [u|] eqn:F; cbn [fst snd]; [|discriminate].
  destruct (bcrypt_compare env _ (password u)) as [[|]|e] eqn:B; cbn [negb fst snd];
    try discriminate.
  destruct (jwt_sign env (u_id u) (secretKey env)) as [token|e] eqn:J; cbn [fst snd];
    [|discriminate].
  intros _. exists u, token. destruct (find_some _ _ F) as [Hin Hq].
  repeat (split; [assumption|]). reflexivity.
Qed.

Lemma insertOne_inv {Doc} (sch : Schema Doc) (l l' : list Doc) (d : Doc) :
  insertOne sch l d = Return l' -> l' = (l ++ [d])%list.
Proof.
  unfold insertOne. destruct (duplicate_key sch l d); [discriminate|].
  intros H. now injection H as <-.
Qed.

Lemma validate_video_inv (v : Video) (x : unit) :
  validate_video v = Return x ->
  videoSrc v <> "" /\ title v <> "" /\ duration v <> "".
Proof.
  unfold validate_video, required_string.
  destruct (videoSrc v =? "")%string eqn:E1; [discriminate|].
  destruct (title v =? "")%string eqn:E2; [discriminate|].
  destruct (duration v =? "")%string eqn:E3; [discriminate|].
  intros _. apply String.eqb_neq in E1, E2, E3. auto.
Qed.

Lemma video_upload_try_owner (q : Request) (u : User) (s s' : Store)
  (o : Outcome Response) :
  user q = Some u ->
  video_upload_try env q s = (o, s') ->
  videos s' = videos s
  \/ exists v,
       videos s' = (videos s ++ [v])%list
       /\ v_id v = next_id s /\ v_owner v = Some (u_id u) /\ views v = 0%Z
       /\ videoSrc v <> "" /\ title v <> "" /\ duration v <> "".
Proof.
  intros Hq.
  unfold video_upload_try, insert_into, bind, lift, throw_if, gets, fresh_id, modify,
    ret, throw.
  rewrite Hq.
  repeat
    (match goal with
     | |- context [file_path ?a ?b] => destruct (file_path a b)
     | |- context [uploadOnCloudinary ?a ?b] => destruct (uploadOnCloudinary a b)
     | |- context [opt_trim ?a ?b] => destruct (opt_trim a b)
     | |- context [negb ?a] => destruct (negb a)
     | |- context [(snd ?a =? "")%string] => destruct (snd a =? "")%string
     | |- context [formatVideoDuration ?a ?b] => destruct (formatVideoDuration a b)
     | |- context [castString ?a ?b] => destruct (castString a b)
     | |- context [validate_video ?a] => destruct (validate_video a) eqn:V
     | |- context [insertOne ?a ?b ?c] => destruct (insertOne a b c) eqn:I
     end; cbn [fst snd videos set_next_id set_videos] in *);
    intros E; injection E as _ <-;
    try (left; reflexivity);
    apply insertOne_inv in I as ->; apply validate_video_inv in V;
    right; eexists; cbn [videos set_videos set_next_id];
    (split; [reflexivity|]); cbn; tauto.
Qed.

(** X24. An upload stores at most one new video, after the stored ones and
    under a fresh [_id]: its owner is the account of the session, its views
    are 0 and its source, title and duration are not empty.  Nothing stored
    is altered. *)
Theorem upload_is_owned_by_uploader (req : Request) (s : Store) (u : User) :
  session_of env req s = Some u ->
  let s' := snd (run_route env VideoUpload req s) in
  videos s' = videos s
  \/ exists v,
       videos s' = (videos s ++ [v])%list
       /\ v_id v = next_id s /\ v_owner v = Some (u_id u) /\ views v = 0%Z
       /\ videoSrc v <> "" /\ title v <> "" /\ duration v <> "".
Proof.
  intros Hs s'. unfold s'. apply session_of_inv in Hs as [Hg _].
  unfold run_route. cbn [route_auth route_upload]. unfold protect. rewrite Hg.
  unfold with_upload.
  destruct (uploadMiddleware env _ (set_user req u)) as [[fs b]|e]; [|now left].
  unfold route_handler, try_catch. cbn [route_try].
  destruct (video_upload_try env (set_upload (set_user req u) fs b) s)
    as [[res|e] s1] eqn:E; cbn [snd];
    exact (video_upload_try_owner (set_upload (set_user req u) fs b) u _ _ _
             eq_refl E).
Qed.

(** X25. The listings of videos and of tweets need no session, and each
    entry carries in place of the owner reference the whole stored document
    of the owning account, its address and password hash in it. *)
Theorem listings_expose_owner_documents (h : HttpRequest) (s : Store) :
  route_auth VideoList = false /\ route_auth TweetList = false
  /\ (exists l,
        serve env VideoList h s = (respond 200 (BodyPopulatedVideos l), s)
        /\ forall v o u,
             In v (videos s) -> v_owner v = Some o ->
             findById u_id o (users s) = Some u -> In (v, Some u) l)
  /\ (exists l,
        serve env TweetList h s = (respond 200 (BodyPopulatedTweets l), s)
        /\ forall t u,
             In t (tweets s) -> findById u_id (t_owner t) (users s) = Some u ->
             In (t, Some u) l).
Proof.
  split; [reflexivity|]. split; [reflexivity|]. split.
  - eexists. split; [reflexivity|]. intros v o u Hv Ho Hu.
    apply in_map_iff. exists v. split; [|exact Hv].
    unfold populate_owner. now rewrite Ho, Hu.
  - eexists. split; [reflexivity|]. intros t0 u Ht Hu.
    apply in_map_iff. exists t0. split; [|exact Ht].
    unfold populate_owner. now rewrite Hu.
Qed.

(** X26. The video view by id never answers not-found: for an id that
    casts and names no stored video the answer is 200 with an empty array;
    an id that does not cast is answered 400 with the cast error. *)
Theorem video_view_of_unknown_id (h : HttpRequest) (s : Store) :
  let videoId := param (express_request h) "videoId" in
  (forall i,
      castObjectId env videoId = Some i ->
      findById v_id i (videos s) = None ->
      serve env VideoView h s = (respond 200 (BodyPopulatedVideos []), s))
  /\ (castObjectId env videoId = None ->
      serve env VideoView h s
      = (respond 400 (BodyMessageError "Unable to fetch the video"
                        (err_message (CastError videoId "_id" "Video"))), s)).
Proof.
  intros videoId. unfold videoId, serve, run_route. cbn [route_auth route_upload].
  unfold route_handler, try_catch. cbn [route_try route_catch].
  unfold video_view_try, bind, cast_id, gets, ret, throw, catch_json. split.
  - intros i Hc Hf. rewrite Hc. cbn [fst snd].
    unfold findById in Hf. rewrite find_filter in Hf.
    destruct (filter _ (videos s)); [reflexivity|discriminate].
  - intros Hc. rewrite Hc. reflexivity.
Qed.

End FurtherProperties.

(** ** The further properties on the concrete store *)

Lemma route_frame_witness :
  same_collection CLikes demo_store
    (snd (run_route demo_env VideoDelete bob_own_request demo_store)).
Proof.
  apply (route_frame demo_env VideoDelete CLikes bob_own_request demo_store).
  reflexivity.
Defined.

Lemma read_only_routes_witness :
  snd (run_route demo_env AuthLogin bob_login_request demo_store) = demo_store.
Proof.
  apply (read_only_routes demo_env AuthLogin bob_login_request demo_store).
  reflexivity.
Defined.

Lemma unauthenticated_writes_nothing_witness :
  snd (run_route demo_env VideoDelete
                 (mkRequest [] [("videoId", "11")] [] None None) demo_store)
  = demo_store.
Proof.
  apply (unauthenticated_writes_nothing demo_env VideoDelete); [discriminate|].
  reflexivity.
Defined.

Lemma authenticateUser_passes_account_witness :
  fst (authenticateUser demo_env bob_request demo_store)
  = Next (set_user bob_request bob).
Proof.
  apply (proj2 (authenticateUser_passes_account demo_env bob_request demo_store)).
  exists bob. repeat split.
Defined.

Lemma toggle_rejects_non_boolean_witness :
  toggle_route demo_env KVideo bob_request demo_store
  = (respond 400 (BodyMessageError "Unable to toggle the like" not_boolean_message),
     demo_store).
Proof.
  apply (toggle_rejects_non_boolean demo_env KVideo bob_request demo_store bob 10%N);
    try reflexivity.
  intros b. discriminate.
Defined.

Lemma toggle_missing_target_witness :
  toggle_route demo_env KVideo bob_request_missing demo_store
  = (respond 400 (BodyMessageError "Unable to toggle the like"
                                   "Unable to find the video"), demo_store).
Proof.
  apply (toggle_missing_target demo_env KVideo bob_request_missing demo_store bob 99%N);
    reflexivity.
Defined.

Lemma toggle_twice_is_once_witness :
  let toggle st :=
    snd (toggle_route demo_env KVideo (set_body bob_request (toggle_body true)) st) in
  toggle (toggle demo_store) = toggle demo_store.
Proof.
  apply (toggle_twice_is_once demo_env KVideo bob_request demo_store bob 10%N true);
    reflexivity.
Defined.

Lemma toggle_leaves_other_rows_witness :
  let s' := snd (toggle_route demo_env KTweet
                              (set_body bob_request (toggle_body true)) demo_store) in
  filter (fun x => negb (like_matches KTweet 20 2 x)) (likes s')
  = filter (fun x => negb (like_matches KTweet 20 2 x)) (likes demo_store).
Proof.
  apply (toggle_leaves_other_rows demo_env KTweet bob_request demo_store bob 20%N true);
    reflexivity.
Defined.

Lemma owner_delete_removes_witness :
  let res := run_route demo_env (owner_route KVideo OpDelete) bob_own_request
                       demo_store in
  status (fst res) = 200%Z
  /\ resource_owner KVideo 11 (snd res) = None
  /\ comments (snd res) = comments demo_store.
Proof.
  destruct (owner_delete_removes demo_env KVideo bob_own_request demo_store bob 11%N
              eq_refl eq_refl eq_refl) as (H1 & _ & H3 & _ & _ & H6).
  split; [exact H1|]. split; [apply H3; reflexivity|apply H6; reflexivity].
Defined.

Lemma edit_keeps_owner_witness :
  resource_owner KComment 30
    (snd (run_route demo_env (owner_route KComment OpEdit) alice_edit_request
                    demo_store))
  = Some (Some 1%N).
Proof.
  rewrite (edit_keeps_owner demo_env KComment alice_edit_request demo_store 30%N).
  reflexivity.
Defined.

Lemma comment_edit_content_witness :
  run_route demo_env CommentEdit alice_edit_request demo_store
  = (respond 200 (BodyComment (Some (mkComment 30 " edited " 10 1))),
     set_comments demo_store [mkComment 30 " edited " 10 1]).
Proof.
  apply (proj1 (comment_edit_content demo_env alice_edit_request demo_store alice 30%N
                  (mkComment 30 "nice" 10 1) eq_refl eq_refl eq_refl eq_refl)
               " edited ");
    [reflexivity|discriminate].
Defined.

Lemma tweet_edit_content_witness :
  findById t_id 20
    (tweets (snd (run_route demo_env TweetEdit alice_edit_request demo_store)))
  = Some (mkTweet 20 " edited " 1).
Proof.
  apply (proj1 (tweet_edit_content demo_env alice_edit_request demo_store alice 20%N
                  (mkTweet 20 "hello" 1) eq_refl eq_refl eq_refl eq_refl)
               " edited ");
    [reflexivity|discriminate].
Defined.

Lemma logout_revokes_nothing_witness :
  session_of demo_env bob_request
             (snd (run_route demo_env AuthLogout bob_request demo_store))
  = Some bob.
Proof.
  apply (logout_revokes_nothing demo_env bob_request demo_store bob). reflexivity.
Defined.

Lemma delete_account_ends_session_witness :
  session_of demo_env bob_request
             (snd (run_route demo_env UserDeleteAccount bob_request demo_store))
  = None.
Proof.
  apply (delete_account_ends_session demo_env bob_request demo_store bob);
    reflexivity.
Defined.

Lemma profile_view_returns_document_witness :
  run_route demo_env UserProfileView bob_request demo_store
  = (respond 200 (BodyUser bob), demo_store).
Proof.
  apply (profile_view_returns_document demo_env bob_request demo_store bob).
  reflexivity.
Defined.

Lemma channel_counts_follow_edges_witness :
  serve demo_env UserChannel bob_http
        (add_subscription demo_store (mkSubscription 41 3 1))
  = (respond 200 (BodyChannels
                    [mkChannelView 1 "alice" "a.png" "c.png" false "alice@example.com"
                                   2 0 false]),
     add_subscription demo_store (mkSubscription 41 3 1)).
Proof.
  apply (proj1 (channel_counts_follow_edges demo_env bob_http demo_store
                  (mkSubscription 41 3 1)
                  [mkChannelView 1 "alice" "a.png" "c.png" false "alice@example.com"
                                 1 0 false]
                  eq_refl)).
Defined.

Lemma channel_view_by_handle_witness :
  serve demo_env UserChannel (mkHttpRequest [] [("username", "ALICE")] []) demo_store
  = serve demo_env UserChannel bob_http demo_store.
Proof.
  apply (proj1 (channel_view_by_handle demo_env
                  (mkHttpRequest [] [("username", "ALICE")] []) bob_http demo_store));
    [reflexivity|discriminate|discriminate].
Defined.

Lemma comment_then_delete_restores_witness :
  comments (snd (run_route demo_env CommentDelete bob_undo_request
                           (snd (run_route demo_env VideoComment bob_post_request
                                           demo_store))))
  = comments demo_store.
Proof.
  apply (comment_then_delete_restores demo_env bob_post_request bob_undo_request
           demo_store bob 10%N "nice one");
    try reflexivity; discriminate.
Defined.

Lemma tweet_then_delete_restores_witness :
  tweets (snd (run_route demo_env TweetDelete bob_undo_request
                         (snd (run_route demo_env TweetUpload bob_post_request
                                         demo_store))))
  = tweets demo_store.
Proof.
  apply (tweet_then_delete_restores demo_env bob_post_request bob_undo_request
           demo_store bob "nice one");
    try reflexivity; discriminate.
Defined.

Lemma register_keeps_accounts_witness :
  users_unique (snd (run_route demo_env AuthRegister carol_register_request demo_store))
  = true.
Proof.
  apply (proj1 (proj2 (register_keeps_accounts demo_env carol_register_request
                         demo_store))).
  reflexivity.
Defined.

Lemma profile_edits_keep_identity_witness :
  option_map identity_of
    (findById u_id 2
       (users (snd (run_route demo_env UserEditPassword bob_password_request
                              demo_store))))
  = option_map identity_of (findById u_id 2 (users demo_store)).
Proof.
  apply (proj1 (profile_edits_keep_identity demo_env UserEditPassword
                  bob_password_request demo_store 2%N eq_refl)).
Defined.

Lemma password_change_checks_current_witness :
  run_route demo_env UserEditPassword bob_password_request demo_store
  = (respond 400 (BodyError ("Unable to change the password: "
                             ++ "Incorrect current password")), demo_store).
Proof.
  apply (proj2 (password_change_checks_current demo_env bob_password_request
                  demo_store bob eq_refl));
    reflexivity.
Defined.

Lemma login_requires_valid_password_witness :
  exists u token,
    In u (users demo_store)
    /\ query_matches demo_env "email" (field bob_login_request "email") (email u) = true
    /\ bcrypt_compare demo_env (field bob_login_request "password") (password u)
       = Return true
    /\ jwt_sign demo_env (u_id u) (secretKey demo_env) = Return token
    /\ fst (run_route demo_env AuthLogin bob_login_request demo_store)
       = mkResponse 200 (BodyUser u)
                    (Some (mkCookieWrite cookie_name (Some token) 28800000)).
Proof.
  apply (login_requires_valid_password demo_env bob_login_request demo_store).
  reflexivity.
Defined.

Lemma upload_is_owned_by_uploader_witness :
  let s' := snd (run_route demo_env VideoUpload bob_request demo_store) in
  videos s' = videos demo_store
  \/ exists v,
       videos s' = (videos demo_store ++ [v])%list
       /\ v_id v = next_id demo_store /\ v_owner v = Some (u_id bob) /\ views v = 0%Z
       /\ videoSrc v <> "" /\ title v <> "" /\ duration v <> "".
Proof.
  apply (upload_is_owned_by_uploader demo_env bob_request demo_store bob).
  reflexivity.
Defined.

Lemma listings_expose_owner_documents_witness :
  exists l,
    serve demo_env TweetList (mkHttpRequest [] [] []) demo_store
    = (respond 200 (BodyPopulatedTweets l), demo_store)
    /\ In (mkTweet 20 "hello" 1, Some alice) l.
Proof.
  destruct (proj2 (proj2 (proj2 (listings_expose_owner_documents demo_env
                                   (mkHttpRequest [] [] []) demo_store))))
    as (l & H & Hin).
  exists l. split; [exact H|]. apply Hin; [now left|reflexivity].
Defined.

Lemma video_view_of_unknown_id_witness :
  serve demo_env VideoView (mkHttpRequest [] [("videoId", "99")] []) demo_store
  = (respond 200 (BodyPopulatedVideos []), demo_store).
Proof.
  apply (proj1 (video_view_of_unknown_id demo_env
                  (mkHttpRequest [] [("videoId", "99")] []) demo_store) 99%N);
    reflexivity.
Defined.
